(** * Menu-backend: the extraction / flattening / reconciliation core of main.py

    A shallow embedding of the functions of [main.py] that carry logic:
    [parse_item], [parse_menu_from_data], [extract_offers_from_data],
    [flatten_items_with_variants] and the comparison step of
    [compare_offers]; and of what the endpoints do around them:
    [safe_get_json], [fetch_menu_for_resid], the id lists and the loops
    of [preview], [download_excel] and [compare_offers], the restaurant
    names, the file name and the sheet columns of
    [scrape_and_generate_excel].

    Modelling conventions.
    - A decoded JSON document and every Python object built from it is a
      [value].  Python [int] is [Z] (unbounded, as in Python); a Python
      [float] is the rational it denotes ([Q], kept reduced).  Division and
      [round(_, 2)] are computed on the exact rational; binary rounding
      error, overflow to infinity and NaN are outside the model.  No
      result below depends on how a decimal tie is rounded.  Python
      raises [OverflowError] when it divides an integer too large for a
      float; the model divides every integer, and a statement about the
      result of a division is about integers a float can hold
      ([fits_float]).
    - Strings are sequences of characters with code points below 256;
      [str.strip] removes the white space characters among them (9-13,
      28-32, 133 and 160), [int] skips the same ones except 28-31.
    - A [dict] is an association list in insertion order with unique keys
      for the dicts the program builds; lookup takes the first binding.
    - Exceptions are a [result] type; a [try]/[except] is a match on it.
      State that survives an exception (the accumulated [items]) is passed
      explicitly.
    - The records handed to [flatten_items_with_variants] are mutable
      objects: they live in a [heap] and the list holds their addresses.
      Field values (strings, numbers, the popped variant list) are never
      mutated by the program and are kept as immutable values.
    - The network and the file system are inputs: an HTTP request either
      returns a response or raises, a response body either decodes or
      does not, a reader of the upload either returns a frame or raises.
      Writing the workbook, renaming it and the clock are not modelled. *)

From Stdlib Require Import ZArith QArith Qround Ascii String List Bool Lia.
From stdpp Require Import base option list strings gmap.

Set Warnings "-register-all".

Local Open Scope Z_scope.
Local Open Scope string_scope.

(** ** Python values *)

Inductive value : Type :=
| VNone
| VBool (b : bool)
| VInt (n : Z)
| VFloat (q : Q)
| VStr (s : string)
| VList (l : list value)
| VDict (d : list (string * value)).

Definition dict : Type := list (string * value).

(** ** Exceptions *)

Inductive exn : Type := AttributeError | TypeError | ValueError | KeyError.

Inductive result (A : Type) : Type :=
| Ok (a : A)
| Raise (e : exn).

Arguments Ok {A} a.
Arguments Raise {A} e.

(** Sequencing: the first exception ends the computation.  With these
    instances [x ← m; k] is the monadic bind of [result]. *)
#[global] Instance result_ret : MRet result := fun A a => Ok a.

#[global] Instance result_bind : MBind result := fun A B f m =>
  match m with
  | Ok a => f a
  | Raise e => Raise e
  end.

(** [try: m except Exception: a] *)
Definition try_except {A : Type} (m : result A) (a : A) : A :=
  match m with
  | Ok x => x
  | Raise _ => a
  end.

(** ** Dictionaries *)

Fixpoint lookup_key (k : string) (d : dict) : option value :=
  match d with
  | [] => None
  | (k', v) :: d' => if String.eqb k k' then Some v else lookup_key k d'
  end.

(** [d.pop(k, _)] and [df.drop(columns=[k])]: the dict without key [k]. *)
Fixpoint remove_key (k : string) (d : dict) : dict :=
  match d with
  | [] => []
  | (k', v) :: d' =>
      if String.eqb k k' then remove_key k d' else (k', v) :: remove_key k d'
  end.

(** [d[k] = v]: overwrite in place, or append a new key. *)
Fixpoint set_key (k : string) (v : value) (d : dict) : dict :=
  match d with
  | [] => [(k, v)]
  | (k', v') :: d' =>
      if String.eqb k k' then (k, v) :: d' else (k', v') :: set_key k v d'
  end.

(** [d.update(u)] *)
Definition update (d u : dict) : dict :=
  fold_left (fun acc kv => set_key (fst kv) (snd kv) acc) u d.

(** ** Truthiness, [or], attribute [get], membership, iteration *)

Definition truthy (v : value) : bool :=
  match v with
  | VNone => false
  | VBool b => b
  | VInt n => negb (n =? 0)%Z
  | VFloat q => negb (Qeq_bool q 0)
  | VStr s => negb (String.eqb s "")
  | VList l => match l with [] => false | _ => true end
  | VDict d => match d with [] => false | _ => true end
  end.

(** [a or b] *)
Definition py_or (a b : value) : value := if truthy a then a else b.

(** [x.get(k, default)]: only a dict has the attribute. *)
Definition get (x : value) (k : string) (default : value) : result value :=
  match x with
  | VDict d => Ok (match lookup_key k d with Some v => v | None => default end)
  | _ => Raise AttributeError
  end.

(** [x.get(k)] *)
Definition get1 (x : value) (k : string) : result value := get x k VNone.

Fixpoint prefixb (p s : string) : bool :=
  match p, s with
  | EmptyString, _ => true
  | String a p', String b s' => Ascii.eqb a b && prefixb p' s'
  | String _ _, EmptyString => false
  end.

Fixpoint substringb (p s : string) : bool :=
  prefixb p s ||
  match s with
  | EmptyString => false
  | String _ s' => substringb p s'
  end.

Definition is_str (k : string) (v : value) : bool :=
  match v with
  | VStr s => String.eqb k s
  | _ => false
  end.

(** [k in x] for a string [k]: key of a dict, substring of a string,
    element of a list; the other types are not containers. *)
Definition py_in (k : string) (x : value) : result bool :=
  match x with
  | VDict d => Ok (match lookup_key k d with Some _ => true | None => false end)
  | VStr s => Ok (substringb k s)
  | VList l => Ok (existsb (is_str k) l)
  | _ => Raise TypeError
  end.

(** [x[k]] for a string [k] *)
Definition subscript (x : value) (k : string) : result value :=
  match x with
  | VDict d => match lookup_key k d with Some v => Ok v | None => Raise KeyError end
  | _ => Raise TypeError
  end.

Fixpoint chars (s : string) : list value :=
  match s with
  | EmptyString => []
  | String a s' => VStr (String a EmptyString) :: chars s'
  end.

(** The elements a [for] loop (or [list.extend]) sees. *)
Definition py_iter (x : value) : result (list value) :=
  match x with
  | VList l => Ok l
  | VStr s => Ok (chars s)
  | VDict d => Ok (map (fun kv => VStr (fst kv)) d)
  | _ => Raise TypeError
  end.

(** ** Numbers *)

Definition Q100 : Q := 100 # 1.

(** The number behind a value that supports [/]: int, bool, float. *)
Definition to_number (v : value) : result Q :=
  match v with
  | VInt n => Ok (inject_Z n)
  | VBool b => Ok (inject_Z (if b then 1 else 0))
  | VFloat q => Ok q
  | _ => Raise TypeError
  end.

(** [v / d] for a non-zero constant [d] *)
Definition py_div (v : value) (d : Q) : result Q :=
  q ← to_number v; Ok (Qred (q / d)).

(** Nearest integer, ties to even. *)
Definition round_half_even (q : Q) : Z :=
  let f := Qfloor q in
  match Qcompare (q - inject_Z f) (1 # 2) with
  | Lt => f
  | Gt => f + 1
  | Eq => if Z.even f then f else f + 1
  end.

(** [round(q, 2)] *)
Definition round2 (q : Q) : Q := Qred (round_half_even (q * Q100) # 100).

Definition Qltb (a b : Q) : bool := negb (Qle_bool b a).

(** ** Strings: [str.strip], [int(_)], [str(_)] *)

(** [c.isspace()] for a code point below 256: 9-13, 28-31, the blank,
    the next-line character 133 and the no-break space 160. *)
Definition is_space (c : ascii) : bool :=
  let n := nat_of_ascii c in
  ((9 <=? n)%nat && (n <=? 13)%nat) || ((28 <=? n)%nat && (n <=? 32)%nat)
  || (n =? 133)%nat || (n =? 160)%nat.

Fixpoint lstrip (s : string) : string :=
  match s with
  | String c s' => if is_space c then lstrip s' else s
  | EmptyString => EmptyString
  end.

(** Drops trailing white space. *)
Fixpoint rstrip (s : string) : string :=
  match s with
  | EmptyString => EmptyString
  | String c s' =>
      match rstrip s' with
      | EmptyString => if is_space c then EmptyString else String c EmptyString
      | r => String c r
      end
  end.

(** [s.strip()] *)
Definition strip (s : string) : string := rstrip (lstrip s).

Definition digit_of (c : ascii) : option Z :=
  let n := nat_of_ascii c in
  if ((48 <=? n)%nat && (n <=? 57)%nat) then Some (Z.of_nat n - 48) else None.

Definition is_underscore (c : ascii) : bool := (nat_of_ascii c =? 95)%nat.

(** Decimal digits, single underscores allowed between digits.
    [prev_digit] tells whether the previous character was a digit. *)
Fixpoint parse_digits (acc : Z) (prev_digit : bool) (s : string) : option Z :=
  match s with
  | EmptyString => if prev_digit then Some acc else None
  | String c s' =>
      match digit_of c with
      | Some d => parse_digits (10 * acc + d) true s'
      | None =>
          if is_underscore c && prev_digit then parse_digits acc false s'
          else None
      end
  end.

(** The white space [int] skips around a number: 9-13, the blank, 133
    and 160, but not the separators 28-31. *)
Definition is_int_space (c : ascii) : bool :=
  let n := nat_of_ascii c in
  ((9 <=? n)%nat && (n <=? 13)%nat) || (n =? 32)%nat
  || (n =? 133)%nat || (n =? 160)%nat.

Fixpoint int_lstrip (s : string) : string :=
  match s with
  | String c s' => if is_int_space c then int_lstrip s' else s
  | EmptyString => EmptyString
  end.

Fixpoint int_rstrip (s : string) : string :=
  match s with
  | EmptyString => EmptyString
  | String c s' =>
      match int_rstrip s' with
      | EmptyString =>
          if is_int_space c then EmptyString else String c EmptyString
      | r => String c r
      end
  end.

(** [int(s)] for a string: optional white space, optional sign, digits. *)
Definition int_of_string (s : string) : result Z :=
  let body (sign : Z) (t : string) :=
    match parse_digits 0 false t with
    | Some n => Ok (sign * n)
    | None => Raise ValueError
    end in
  match int_rstrip (int_lstrip s) with
  | String c t =>
      if (nat_of_ascii c =? 45)%nat then body (-1) t
      else if (nat_of_ascii c =? 43)%nat then body 1 t
      else body 1 (String c t)
  | EmptyString => Raise ValueError
  end.

(** Truncation toward zero. *)
Definition Qtrunc (q : Q) : Z :=
  if Qle_bool 0 q then Qfloor q else Qceiling q.

(** [int(v)] *)
Definition py_int (v : value) : result Z :=
  match v with
  | VInt n => Ok n
  | VBool b => Ok (if b then 1 else 0)
  | VFloat q => Ok (Qtrunc q)
  | VStr s => int_of_string s
  | _ => Raise TypeError
  end.

Definition digit_char (d : Z) : ascii := ascii_of_nat (Z.to_nat d + 48).

Fixpoint nat_digits (fuel : nat) (n : Z) (acc : string) : string :=
  match fuel with
  | O => acc
  | S fuel' =>
      let acc' := String (digit_char (n mod 10)) acc in
      if (n / 10 =? 0)%Z then acc' else nat_digits fuel' (n / 10) acc'
  end.

(** [str(n)] for an integer. *)
Definition str_of_Z (n : Z) : string :=
  let a := Z.abs n in
  let ds := nat_digits (S (Z.to_nat (Z.log2 a))) a EmptyString in
  if (n <? 0)%Z then String "-" ds else ds.

(** Fractional digits of [num / den], at least one. *)
Fixpoint frac_digits (fuel : nat) (num den : Z) : string :=
  match fuel with
  | O => EmptyString
  | S fuel' =>
      let d := (10 * num) / den in
      let r := (10 * num) mod den in
      String (digit_char d)
        (if (r =? 0)%Z then EmptyString else frac_digits fuel' r den)
  end.

(** [str(x)] for a float, in fixed notation (Python switches to exponent
    notation outside 1e-4 .. 1e16, which the program never formats). *)
Definition str_of_Q (q : Q) : string :=
  let n := Z.abs (Qnum q) in
  let d := Z.pos (Qden q) in
  let s := str_of_Z (n / d) ++ "." ++ frac_digits 17 (n mod d) d in
  if (Qnum q <? 0)%Z then String "-" s else s.

Definition quote_char (s : string) : ascii :=
  let sq := ascii_of_nat 39 in
  let dq := ascii_of_nat 34 in
  if substringb (String sq EmptyString) s
     && negb (substringb (String dq EmptyString) s)
  then dq else sq.

Fixpoint escape (q : ascii) (s : string) : string :=
  match s with
  | EmptyString => EmptyString
  | String c s' =>
      let n := nat_of_ascii c in
      let bs := ascii_of_nat 92 in
      let rest := escape q s' in
      if Ascii.eqb c q || (n =? 92)%nat then String bs (String c rest)
      else if (n =? 10)%nat then String bs (String "n" rest)
      else if (n =? 13)%nat then String bs (String "r" rest)
      else if (n =? 9)%nat then String bs (String "t" rest)
      else String c rest
  end.

(** [repr(s)] for a string (other control characters are left as they
    are; Python writes them as hexadecimal escapes). *)
Definition repr_string (s : string) : string :=
  let q := quote_char s in
  String q (escape q s ++ String q EmptyString).

(** [repr(v)] *)
Fixpoint py_repr (v : value) : string :=
  match v with
  | VNone => "None"
  | VBool b => if b then "True" else "False"
  | VInt n => str_of_Z n
  | VFloat q => str_of_Q q
  | VStr s => repr_string s
  | VList l =>
      "[" ++ (fix items (l : list value) : string :=
                match l with
                | [] => ""
                | [x] => py_repr x
                | x :: l' => py_repr x ++ ", " ++ items l'
                end) l ++ "]"
  | VDict d =>
      "{" ++ (fix items (d : list (string * value)) : string :=
                match d with
                | [] => ""
                | [(k, x)] => repr_string k ++ ": " ++ py_repr x
                | (k, x) :: d' =>
                    repr_string k ++ ": " ++ py_repr x ++ ", " ++ items d'
                end) d ++ "}"
  end.

(** [str(v)], also what an f-string and [astype(str)] apply. *)
Definition py_str (v : value) : string :=
  match v with
  | VStr s => s
  | _ => py_repr v
  end.

(** ** [parse_item] *)

(** [a or <m>], where the right operand is only evaluated if needed. *)
Definition or_else (a : value) (m : result value) : result value :=
  if truthy a then Ok a else m.

(** [node.get("price") or node.get("defaultPrice") or 0] *)
Definition raw_price_of (node : value) : result value :=
  p ← get1 node "price";
  or_else p (dp ← get1 node "defaultPrice"; Ok (py_or dp (VInt 0))).

Definition image_base : string :=
  "https://media-assets.swiggy.com/swiggy/image/upload/".

(** The body of the inner loop: one variation of a variant group. *)
Definition parse_variation (group_name var : value) : result value :=
  raw_price ← raw_price_of var;
  let raw_price := try_except (py_int raw_price) 0 in
  variant_name ← get1 var "name";
  price_add ← py_div (VInt raw_price) 1;
  variant_inStock ← get var "inStock" VNone;
  variant_isDefault ← get var "default" (VInt 0);
  variant_isEnabled ← get var "isEnabled" (VBool true);
  Ok (VDict [("variant_group", group_name);
             ("variant_name", variant_name);
             ("variant_price_add", VFloat (round2 price_add));
             ("variant_inStock", variant_inStock);
             ("variant_isDefault", variant_isDefault);
             ("variant_isEnabled", variant_isEnabled)]).

(** [for x in xs: acc.append(f x)], stopping at the first exception. *)
Fixpoint for_append {A : Type} (f : value -> result A) (xs : list value)
    : result (list A) :=
  match xs with
  | [] => Ok []
  | x :: xs' => y ← f x; ys ← for_append f xs'; Ok (y :: ys)
  end.

(** The body of the outer loop: the variations of one group. *)
Definition parse_variant_group (vg : value) : result (list value) :=
  group_name ← get1 vg "name";
  variations ← get vg "variations" (VList []);
  vars ← py_iter variations;
  for_append (parse_variation group_name) vars.

Definition parse_variants (info : value) : result (list value) :=
  variantsV2 ← get info "variantsV2" (VDict []);
  variantGroups ← get variantsV2 "variantGroups" (VList []);
  groups ← py_iter variantGroups;
  per_group ← for_append parse_variant_group groups;
  Ok (concat per_group).

(** [final_price and final_price < base_price] *)
Definition flash_sale (base_price : Q) (final_price : option Q) : bool :=
  match final_price with
  | Some f => truthy (VFloat f) && Qltb f base_price
  | None => false
  end.

Definition of_option (o : option Q) : value :=
  match o with
  | Some q => VFloat q
  | None => VNone
  end.

Definition parse_item
    (info restaurant_name restaurant_id category_title subzone_name : value)
    : result (list dict) :=
  if negb (truthy info) then Ok []
  else
    imageId ← get1 info "imageId";
    let imageUrl :=
      if truthy imageId then VStr (image_base ++ py_str imageId) else VNone in
    price ← raw_price_of info;
    base_price ← py_div price Q100;
    let base_price := round2 base_price in
    has_final ← get1 info "finalPrice";
    final_price ←
      (if truthy has_final
       then fp ← get info "finalPrice" (VInt 0);
            q ← py_div fp Q100;
            Ok (Some (round2 q))
       else Ok None);
    let flashSale := if flash_sale base_price final_price then "ON" else "OFF" in
    dish_instock ← get info "inStock" (VInt 0);
    variants ← parse_variants info;
    own_category ← or_else category_title (get info "category" (VStr ""));
    dish_name ← get info "name" (VStr "");
    description ← get info "description" (VStr "");
    Ok [[("res_id", restaurant_id);
         ("restaurant", restaurant_name);
         ("subzone", py_or subzone_name (VStr ""));
         ("category", own_category);
         ("dish_name", dish_name);
         ("description", py_or description (VStr ""));
         ("base_price", VFloat base_price);
         ("final_price", of_option final_price);
         ("flashSale", VStr flashSale);
         ("inStock", VBool (truthy dish_instock));
         ("image", imageUrl);
         ("variants", VList variants)]].

(** ** Loops that accumulate output across exceptions

    [emitting A] is a computation that appends records to a list owned by
    the caller ([items], [offers_list]) and then returns or raises: what
    was appended before an exception stays appended. *)

Definition emitting (A : Type) : Type := (list dict * result A)%type.

#[global] Instance emitting_ret : MRet emitting := fun A a => ([], Ok a).

#[global] Instance emitting_bind : MBind emitting := fun A B f m =>
  match m with
  | (out, Ok a) => let '(out', r) := f a in ((out ++ out')%list, r)
  | (out, Raise e) => (out, Raise e)
  end.

(** A computation without output. *)
Definition lift {A : Type} (m : result A) : emitting A := ([], m).

(** [acc.extend(m)] where [m] is a call that returns a list or raises. *)
Definition extend (m : result (list dict)) : emitting unit :=
  match m with
  | Ok l => (l, Ok tt)
  | Raise e => ([], Raise e)
  end.

(** [for x in xs: body x] without a handler: the first exception leaves
    the loop. *)
Fixpoint for_each (body : value -> emitting unit) (xs : list value)
    : emitting unit :=
  match xs with
  | [] => mret tt
  | x :: xs' => _ ← body x; for_each body xs'
  end.

(** [for x in xs: try: body x except Exception: continue] *)
Fixpoint for_each_try (body : value -> emitting unit) (xs : list value)
    : list dict :=
  match xs with
  | [] => []
  | x :: xs' => (fst (body x) ++ for_each_try body xs')%list
  end.

(** [for c in cards: try: (if found: ...; break) except: continue]:
    the first card on which [f] returns a match. *)
Fixpoint first_match {A : Type} (f : value -> result (option A))
    (cards : list value) : option A :=
  match cards with
  | [] => None
  | c :: cards' =>
      match f c with
      | Ok (Some a) => Some a
      | Ok None | Raise _ => first_match f cards'
      end
  end.

(** ** [parse_menu_from_data] *)

Record restaurant : Type := {
  restaurant_name : value;
  restaurant_id : value;
  subzone_name : value
}.

Definition no_restaurant : restaurant :=
  {| restaurant_name := VNone; restaurant_id := VNone; subzone_name := VNone |}.

(** [info.get("areaName") or info.get("subzoneName") or ""] *)
Definition subzone_of (info : value) : result value :=
  area ← get1 info "areaName";
  or_else area (sz ← get1 info "subzoneName"; Ok (py_or sz (VStr ""))).

(** [c.get("card", {}).get("card", {})] *)
Definition card_card (c : value) : result value :=
  c1 ← get c "card" (VDict []); get c1 "card" (VDict []).

(** Body of the first loop.  The three assignments read the mapping
    [info] that the test has just read, so none of them is reached with
    an earlier one undone. *)
Definition restaurant_info (c : value) : result (option restaurant) :=
  cc ← card_card c;
  info ← get1 cc "info";
  if truthy info then
    name ← get1 info "name";
    if truthy name then
      name ← get1 info "name";
      id ← get1 info "id";
      subzone ← subzone_of info;
      Ok (Some {| restaurant_name := name; restaurant_id := id;
                  subzone_name := subzone |})
    else Ok None
  else Ok None.

(** Body of the second loop. *)
Definition regular_cards (c : value) : result (option value) :=
  g1 ← get c "groupedCard" (VDict []);
  g2 ← get g1 "cardGroupMap" (VDict []);
  g3 ← get g2 "REGULAR" (VDict []);
  grouped ← get g3 "cards" (VList []);
  Ok (if truthy grouped then Some grouped else None).

Section MenuLoop.
Variable r : restaurant.

(** Item of an explicit category. *)
Definition category_item (cat_title itemCard : value) : emitting unit :=
  info ← lift (c ← get itemCard "card" (VDict []); get c "info" (VDict []));
  extend (parse_item info (restaurant_name r) (restaurant_id r) cat_title
            (subzone_name r)).

Definition category (cat : value) : emitting unit :=
  cat_title ← lift (t ← get1 cat "title"; Ok (py_or t (VStr "")));
  item_cards ← lift (ic ← get cat "itemCards" (VList []); py_iter ic);
  for_each (category_item cat_title) item_cards.

(** Item of a card without categories. *)
Definition plain_item (card_obj itemCard : value) : emitting unit :=
  info ← lift (c ← get itemCard "card" (VDict []);
               i1 ← get1 c "info";
               or_else i1 (cc ← card_card itemCard;
                           i2 ← get1 cc "info";
                           Ok (py_or i2 (VDict []))));
  cat_title ← lift (t ← get card_obj "title" (VStr "");
                    Ok (py_or t (VStr "")));
  extend (parse_item info (restaurant_name r) (restaurant_id r) cat_title
            (subzone_name r)).

(** Body of the third loop. *)
Definition menu_card (card : value) : emitting unit :=
  card_obj ← lift (card_card card);
  categories ← lift (get1 card_obj "categories");
  if truthy categories then
    cats ← lift (py_iter categories);
    for_each category cats
  else
    item_cards ← lift (ic ← get card_obj "itemCards" (VList []); py_iter ic);
    for_each (plain_item card_obj) item_cards.
End MenuLoop.

(** The statements inside the outer [try]. *)
Definition parse_menu_body (data : value) : emitting unit :=
  cards ← lift (d ← get data "data" (VDict []); get d "cards" (VList []));
  cs ← lift (py_iter cards);
  let r := default no_restaurant (first_match restaurant_info cs) in
  let grouped_cards := default (VList []) (first_match regular_cards cs) in
  gs ← lift (py_iter grouped_cards);
  for_each (menu_card r) gs.

(** [try: ... except Exception: pass], then [return items]. *)
Definition parse_menu_from_data (data : value) : result (list dict) :=
  let '(items, outcome) := parse_menu_body data in
  match outcome with
  | Ok _ => Ok items
  | Raise _ => Ok items
  end.

(** ** [extract_offers_from_data] *)

Definition offer_restaurant_info (c : value) : result (option restaurant) :=
  cc ← card_card c;
  info ← get1 cc "info";
  if truthy info then
    name ← get1 info "name";
    if truthy name then
      name ← get1 info "name";
      subzone ← subzone_of info;
      Ok (Some {| restaurant_name := name; restaurant_id := VNone;
                  subzone_name := subzone |})
    else Ok None
  else Ok None.

(** [if k in card_data: <m>], contributing the candidates of [m]. *)
Definition when_in (k : string) (card_data : value)
    (m : result (list value)) : result (list value) :=
  b ← py_in k card_data;
  if (b : bool) then m else Ok [].

(** Offers nested one level down: the inner [for nested in ...] loop. *)
Definition nested_offers (nested : value) : result (list value) :=
  nested_card ← card_card nested;
  when_in "offers" nested_card
    (o ← get nested_card "offers" (VList []); py_iter o).

(** The three probes of one card, concatenated in source order. *)
Definition offers_candidates (card_data : value) : result (list value) :=
  from_grid ← when_in "gridElements" card_data
    (g ← subscript card_data "gridElements";
     i ← get g "infoWithStyle" (VDict []);
     o ← get i "offers" (VList []);
     py_iter o);
  direct ← when_in "offers" card_data
    (o ← get card_data "offers" (VList []); py_iter o);
  nested ← when_in "cards" card_data
    (cs ← subscript card_data "cards";
     ns ← py_iter cs;
     per ← for_append nested_offers ns;
     Ok (concat per));
  Ok (from_grid ++ direct ++ nested)%list.

Definition placeholder_logo : string :=
  "https://via.placeholder.com/120?text=No+Logo".

Definition offer_record (r : restaurant) (o : value) : emitting unit :=
  extend
    (info ← get o "info" (VDict []);
     header ← get1 info "header";
     couponCode ← get1 info "couponCode";
     description ← get1 info "description";
     discountType ← get1 info "discountType";
     offerLogo ← get1 info "offerLogo";
     Ok [[("res_id", restaurant_name r);
          ("restaurant", py_or (restaurant_name r) (VStr ""));
          ("subzone", py_or (subzone_name r) (VStr ""));
          ("title", py_or header (VStr "Offer"));
          ("code", py_or couponCode (VStr ""));
          ("description", py_or description (VStr ""));
          ("discount", py_or discountType (VStr ""));
          ("image", py_or offerLogo (VStr placeholder_logo))]]).

(** Body of the per-card [try]. *)
Definition offer_card (r : restaurant) (card : value) : emitting unit :=
  candidates ← lift (card_data ← card_card card; offers_candidates card_data);
  for_each (offer_record r) candidates.

Definition extract_offers_body (data : value) : emitting unit :=
  cards ← lift (d ← get data "data" (VDict []); get d "cards" (VList []));
  cs ← lift (py_iter cards);
  let r := default no_restaurant (first_match offer_restaurant_info cs) in
  (for_each_try (offer_card r) cs, Ok tt).

(** [try: ... except Exception: pass], then [return offers_list]. *)
Definition extract_offers_from_data (data : value) : result (list dict) :=
  let '(offers_list, outcome) := extract_offers_body data in
  match outcome with
  | Ok _ => Ok offers_list
  | Raise _ => Ok offers_list
  end.

(** ** [flatten_items_with_variants]

    The dish records are objects: [items] is a list of addresses into a
    heap of dicts, [item.pop] writes to the object behind the address and
    [item.copy()] allocates a new one. *)

Abbreviation loc := nat (only parsing).
Abbreviation heap := (gmap nat dict) (only parsing).

(** [item.copy()]: a new object with the same bindings. *)
Definition alloc (d : dict) (h : heap) : loc * heap :=
  let l := fresh (dom h) in (l, <[l := d]> h).

(** The objects behind a list of record values, each created on its own,
    as [parse_item] creates one dict per dish. *)
Fixpoint new_objects (records : list dict) (h : heap) : list loc * heap :=
  match records with
  | [] => ([], h)
  | d :: records' =>
      let '(l, h1) := alloc d h in
      let '(ls, h2) := new_objects records' h1 in
      (l :: ls, h2)
  end.

(** The dict literal passed to [row.update] in the variant branch. *)
Definition variant_fields (var : value) : result dict :=
  variant_group ← get1 var "variant_group";
  variant_name ← get1 var "variant_name";
  variant_price_add ← get1 var "variant_price_add";
  variant_inStock ← get1 var "variant_inStock";
  variant_isDefault ← get1 var "variant_isDefault";
  Ok [("variant_group", variant_group);
      ("variant_name", variant_name);
      ("variant_price_add", variant_price_add);
      ("variant_inStock", variant_inStock);
      ("variant_isDefault", variant_isDefault)].

(** The dict literal passed to [row.update] in the [else] branch. *)
Definition empty_variant_fields : dict :=
  [("variant_group", VNone);
   ("variant_name", VNone);
   ("variant_price_add", VNone);
   ("variant_inStock", VNone);
   ("variant_isDefault", VNone)].

(** [for var in variants: row = item.copy(); row.update({...});
    flat_rows.append(row)], where [d] is the content of [item], which the
    loop does not write to. *)
Fixpoint flatten_variants (d : dict) (variants : list value) (h : heap)
    : heap * result (list loc) :=
  match variants with
  | [] => (h, Ok [])
  | var :: variants' =>
      let '(row, h1) := alloc d h in
      match variant_fields var with
      | Raise e => (h1, Raise e)
      | Ok fields =>
          let h2 := <[row := update d fields]> h1 in
          let '(h3, r) := flatten_variants d variants' h2 in
          (h3, rows ← r; Ok (row :: rows))
      end
  end.

(** The body of the outer loop for the object at address [item].  An
    address without an object behind it has no [pop]; the lists the
    program builds never hold one. *)
Definition flatten_item (item : loc) (h : heap) : heap * result (list loc) :=
  match h !! item with
  | None => (h, Raise AttributeError)
  | Some d0 =>
      let variants := default (VList []) (lookup_key "variants" d0) in
      let d := remove_key "variants" d0 in
      let h1 := <[item := d]> h in
      if truthy variants then
        match py_iter variants with
        | Raise e => (h1, Raise e)
        | Ok vars => flatten_variants d vars h1
        end
      else
        let '(row, h2) := alloc d h1 in
        (<[row := update d empty_variant_fields]> h2, Ok [row])
  end.

Fixpoint flatten_items_with_variants (items : list loc) (h : heap)
    : heap * result (list loc) :=
  match items with
  | [] => (h, Ok [])
  | item :: items' =>
      match flatten_item item h with
      | (h1, Raise e) => (h1, Raise e)
      | (h1, Ok rows) =>
          let '(h2, r) := flatten_items_with_variants items' h1 in
          (h2, rest ← r; Ok (rows ++ rest)%list)
      end
  end.

(** ** The comparison step of [compare_offers]

    A pandas [DataFrame] is its column index and its rows; a row is a
    dict from column name to cell.  Cells keep their Python value (the
    dtype inference of pandas is not modelled); a cell that a row lacks
    is pandas's missing value, which [astype(str)] prints as [nan]. *)

Record frame : Type := {
  columns : list string;
  rows : list dict
}.

Definition has_key (k : string) (d : dict) : bool :=
  match lookup_key k d with Some _ => true | None => false end.

Definition mem (k : string) (ks : list string) : bool :=
  existsb (String.eqb k) ks.

(** Column index of [pd.DataFrame(records)]: the keys in order of first
    appearance. *)
Definition union_keys (records : list dict) : list string :=
  fold_left
    (fun acc d =>
       fold_left (fun acc kv => if mem (fst kv) acc then acc
                                else (acc ++ [fst kv])%list) d acc)
    records [].

(** [pd.DataFrame(records)] *)
Definition DataFrame (records : list dict) : frame :=
  {| columns := union_keys records; rows := records |}.

(** [df.empty] *)
Definition empty (df : frame) : bool :=
  match columns df, rows df with
  | [], _ | _, [] => true
  | _, _ => false
  end.

(** One cell of [df[c].astype(str).str.strip()] *)
Definition stripped_cell (c : string) (row : dict) : string :=
  match lookup_key c row with
  | Some v => strip (py_str v)
  | None => strip "nan"
  end.

(** [df[c] = df[c].astype(str).str.strip()] *)
Definition strip_column (c : string) (df : frame) : result frame :=
  if mem c (columns df)
  then Ok {| columns := columns df;
             rows := map (fun row => set_key c (VStr (stripped_cell c row)) row)
                         (rows df) |}
  else Raise KeyError.

(** [df[c][i] == row[c]] on two normalised cells. *)
Definition cell_eqb (c : string) (r row : dict) : bool :=
  match lookup_key c r, lookup_key c row with
  | Some (VStr a), Some (VStr b) => String.eqb a b
  | _, _ => false
  end.

(** The lambda of [df_scraped.apply(..., axis=1)]: does any reference row
    carry the title and the code of [row]? *)
Definition matches (df_ref : frame) (row : dict) : bool :=
  existsb (fun r => cell_eqb "title" r row && cell_eqb "code" r row)
          (rows df_ref).

(** [df_scraped['match'] = df_scraped.apply(...)] *)
Definition add_match (df_ref df : frame) : frame :=
  {| columns := if mem "match" (columns df) then columns df
                else (columns df ++ ["match"])%list;
     rows := map (fun row => set_key "match" (VBool (matches df_ref row)) row)
                 (rows df) |}.

Definition is_false (o : option value) : bool :=
  match o with
  | Some (VBool false) => true
  | _ => false
  end.

(** [df[~df['match']].drop(columns=['match']).to_dict(orient='records')] *)
Definition unmatched_records (df : frame) : list dict :=
  map (remove_key "match")
      (List.filter (fun row => is_false (lookup_key "match" row)) (rows df)).

Record JSONResponse : Type := {
  content : dict;
  status_code : Z
}.

(** Lines 314-344 of the endpoint, as a function of the reference frame
    read from the upload and of the offers scraped for the requested
    restaurants. *)
Definition compare_offers (df_ref : frame) (scraped_offers : list dict)
    : result JSONResponse :=
  df_ref ← strip_column "title" df_ref;
  df_ref ← strip_column "code" df_ref;
  let df_scraped := DataFrame scraped_offers in
  if empty df_scraped then
    Ok {| content := [("error", VStr "No offers scraped")];
          status_code := 404 |}
  else
    df_scraped ← strip_column "title" df_scraped;
    df_scraped ← strip_column "code" df_scraped;
    let df_scraped := add_match df_ref df_scraped in
    let mismatches := unmatched_records df_scraped in
    Ok {| content := [("mismatches", VList (map VDict mismatches))];
          status_code := 200 |}.

(** ** Predicates and abbreviations used in the statements *)

Definition is_dict (v : value) : bool :=
  match v with
  | VDict _ => true
  | _ => false
  end.

(** The cards both parsers iterate over: [data.get("data", {}).get("cards",
    [])] as a [for] loop sees it, and nothing when that expression or the
    iteration raises. *)
Definition cards_of (data : value) : list value :=
  try_except
    (d ← get data "data" (VDict []); c ← get d "cards" (VList []); py_iter c)
    [].

(** A document without a single mapping in card position: the empty
    mapping, a failed fetch, a wrong type on the way to the cards. *)
Definition no_card_mapping (data : value) : Prop :=
  Forall (fun c => is_dict c = false) (cards_of data).

(** Is the entry [k] of [d] a mapping? *)
Definition mapping_entry (k : string) (d : dict) : bool :=
  match lookup_key k d with
  | Some (VDict _) => true
  | _ => false
  end.

(** A top-level card with nothing to read: it is not a mapping, or
    neither its "card" nor its "groupedCard" entry is a mapping. *)
Definition no_content (c : value) : bool :=
  match c with
  | VDict d =>
      negb (mapping_entry "card" d) && negb (mapping_entry "groupedCard" d)
  | _ => true
  end.

(** A document without content in card position: it has no cards, or
    only cards with nothing to read. *)
Definition no_card_content (data : value) : Prop :=
  Forall (fun c => no_content c = true) (cards_of data).

(** [r] is a record returned by [parse_item] or by [parse_menu_from_data]. *)
Definition parsed_dish (r : dict) : Prop :=
  (exists info name id title subzone recs,
      parse_item info name id title subzone = Ok recs /\ In r recs) \/
  (exists data items, parse_menu_from_data data = Ok items /\ In r items).

(** The variant list a dish record carries, if any. *)
Definition variants_of (d : dict) : list value :=
  match lookup_key "variants" d with
  | Some (VList vs) => vs
  | _ => []
  end.

(** A dish record as [parse_item] builds it, as far as flattening looks:
    "variants", when present, is a list of mappings. *)
Definition well_formed_dish (d : dict) : bool :=
  match lookup_key "variants" d with
  | None => true
  | Some (VList vs) => forallb is_dict vs
  | Some _ => false
  end.

(** Number of variants of the record at address [l]. *)
Definition variant_count (h : heap) (l : loc) : nat :=
  match h !! l with
  | Some d => length (variants_of d)
  | None => 0%nat
  end.

(** The five columns that flattening adds to a row. *)
Definition variant_keys : list string :=
  ["variant_group"; "variant_name"; "variant_price_add"; "variant_inStock";
   "variant_isDefault"].

(** The normalised record of an offer: title and code as strings without
    surrounding white space, the other entries as they are. *)
Definition normalize (o : dict) : dict :=
  set_key "code" (VStr (stripped_cell "code" o))
    (set_key "title" (VStr (stripped_cell "title" o)) o).

(** Do [r] and [o] carry the same (title, code) pair after trimming?
    The comparison of the strings is exact, so it is case sensitive. *)
Definition same_offer (r o : dict) : bool :=
  String.eqb (stripped_cell "title" r) (stripped_cell "title" o)
  && String.eqb (stripped_cell "code" r) (stripped_cell "code" o).

(** Is [o] one of the reference offers? *)
Definition known (reference : list dict) (o : dict) : bool :=
  existsb (fun r => same_offer r o) reference.

Definition is_offer (o : dict) : bool :=
  has_key "title" o && has_key "code" o.

Definition mismatches_response (ms : list dict) : JSONResponse :=
  {| content := [("mismatches", VList (map VDict ms))]; status_code := 200 |}.

Definition no_offers_response : JSONResponse :=
  {| content := [("error", VStr "No offers scraped")]; status_code := 404 |}.

(** ** Sample documents *)

Definition item_card (info : value) : value :=
  VDict [("card", VDict [("info", info)])].

(** A regular-menu card without categories. *)
Definition plain_card (title : string) (infos : list value) : value :=
  VDict [("card", VDict [("card",
    VDict [("title", VStr title); ("itemCards", VList (map item_card infos))])])].

(** A document whose only top-level card holds the regular menu. *)
Definition menu_document (menu_cards : list value) : value :=
  VDict [("data", VDict [("cards", VList [
    VDict [("groupedCard", VDict [("cardGroupMap", VDict [("REGULAR",
      VDict [("cards", VList menu_cards)])])])]])])].

(** A regular-menu card with an explicit category list. *)
Definition categorized_card (categories : list value) : value :=
  VDict [("card", VDict [("card", VDict [("categories", VList categories)])])].

Definition category_node (title : string) (infos : list value) : value :=
  VDict [("title", VStr title); ("itemCards", VList (map item_card infos))].

(** A top-level card that carries the restaurant identity. *)
Definition diner_card : value :=
  VDict [("card", VDict [("card", VDict [("info",
    VDict [("name", VStr "Test Diner"); ("id", VStr "42")])])])].

Definition burger : value :=
  VDict [("name", VStr "Burger"); ("price", VInt 15000);
         ("finalPrice", VInt 12000); ("inStock", VInt 1)].

Definition burger_record : dict :=
  [("res_id", VNone); ("restaurant", VNone); ("subzone", VStr "");
   ("category", VStr "Mains"); ("dish_name", VStr "Burger");
   ("description", VStr ""); ("base_price", VFloat 150);
   ("final_price", VFloat 120); ("flashSale", VStr "ON");
   ("inStock", VBool true); ("image", VNone); ("variants", VList [])].

(** The end-to-end document: one restaurant, one category, one dish. *)
Definition diner_document : value :=
  VDict [("data", VDict [("cards", VList [
    diner_card;
    VDict [("groupedCard", VDict [("cardGroupMap", VDict [("REGULAR",
      VDict [("cards", VList [
        categorized_card [category_node "Mains" [burger]]])])])])]])])].

Definition diner_burger_record : dict :=
  [("res_id", VStr "42"); ("restaurant", VStr "Test Diner");
   ("subzone", VStr ""); ("category", VStr "Mains");
   ("dish_name", VStr "Burger"); ("description", VStr "");
   ("base_price", VFloat 150); ("final_price", VFloat 120);
   ("flashSale", VStr "ON"); ("inStock", VBool true); ("image", VNone);
   ("variants", VList [])].

(** A dish whose variant container is JSON null. *)
Definition soup : value :=
  VDict [("name", VStr "Soup"); ("price", VInt 9000); ("variantsV2", VNone)].



(** Two dish records in a heap: one with two variants, one with none. *)
Definition pizza_record : dict :=
  [("dish_name", VStr "Pizza"); ("base_price", VFloat 250);
   ("variants",
    VList [VDict [("variant_group", VStr "Size"); ("variant_name", VStr "S");
                  ("variant_price_add", VFloat 0)];
           VDict [("variant_group", VStr "Size"); ("variant_name", VStr "L");
                  ("variant_price_add", VFloat 8000)]])].

Definition sample_heap : gmap nat dict :=
  <[0%nat := pizza_record]> (<[1%nat := burger_record]> ∅).

(** A reference sheet with one offer, and three scraped offers. *)
Definition reference_sheet : frame :=
  {| columns := ["title"; "code"];
     rows := [[("title", VStr " 50% OFF "); ("code", VStr "HALF")]] |}.

Definition scraped_half : dict :=
  [("res_id", VStr "Test Diner"); ("title", VStr "50% OFF");
   ("code", VStr "HALF ")].

Definition scraped_lower : dict :=
  [("res_id", VStr "Test Diner"); ("title", VStr "50% off");
   ("code", VStr "HALF")].

Definition scraped_free : dict :=
  [("res_id", VStr "Test Diner"); ("title", VStr " Free Delivery");
   ("code", VStr "")].

(** ** Further vocabulary: dish records and variant containers *)

(** The keys of a dish record, in the order [parse_item] writes them. *)
Definition dish_keys : list string :=
  ["res_id"; "restaurant"; "subzone"; "category"; "dish_name"; "description";
   "base_price"; "final_price"; "flashSale"; "inStock"; "image"; "variants"].

(** The keys of an offer record, in the order [extract_offers_from_data]
    writes them. *)
Definition offer_keys : list string :=
  ["res_id"; "restaurant"; "subzone"; "title"; "code"; "description";
   "discount"; "image"].

Definition is_number (v : value) : bool :=
  match v with
  | VInt _ | VBool _ | VFloat _ => true
  | _ => false
  end.

(** [d.get(k)] on a dict. *)
Definition entry (k : string) (d : dict) : value :=
  default VNone (lookup_key k d).

(** The value that [price or defaultPrice or 0] selects in a mapping. *)
Definition selected_price (d : dict) : value :=
  py_or (entry "price" d) (py_or (entry "defaultPrice" d) (VInt 0)).

(** The price entries of a dish node can be divided: the selected price
    is a number, and the final price is a number or falsy. *)
Definition priced (d : dict) : bool :=
  is_number (selected_price d)
  && (negb (truthy (entry "finalPrice" d)) || is_number (entry "finalPrice" d)).

(** The largest float, and the integers a float can hold: the ones
    Python divides without [OverflowError]. *)
Definition float_max : Z := 2 ^ 1024 - 2 ^ 971.

Definition fits_float (n : Z) : bool := (Z.abs n <=? float_max)%Z.

(** The operand of a division fits when it is an integer that does; the
    other numbers are floats already. *)
Definition operand_fits (v : value) : bool :=
  match v with
  | VInt n => fits_float n
  | _ => true
  end.

(** The integer [parse_item] makes of the selected price of a
    variation: [int] of it, or 0 when [int] raises. *)
Definition coerced_price (var : dict) : Z :=
  try_except (py_int (selected_price var)) 0.

(** The no-break space. *)
Definition no_break_space : string := String (ascii_of_nat 160) EmptyString.

(** The variations of one group, as a list of mappings; [None] if the
    group does not have that shape. *)
Definition group_variations (vg : value) : option (list (value * dict)) :=
  match vg with
  | VDict g =>
      match default (VList []) (lookup_key "variations" g) with
      | VList vars =>
          (fix go (vars : list value) : option (list (value * dict)) :=
             match vars with
             | [] => Some []
             | VDict var :: vars' =>
                 match go vars' with
                 | Some l => Some ((entry "name" g, var) :: l)
                 | None => None
                 end
             | _ :: _ => None
             end) vars
      | _ => None
      end
  | _ => None
  end.

Fixpoint all_variations (groups : list value)
    : option (list (value * dict)) :=
  match groups with
  | [] => Some []
  | vg :: groups' =>
      match group_variations vg, all_variations groups' with
      | Some l, Some l' => Some (l ++ l')%list
      | _, _ => None
      end
  end.

(** The (group name, variation) pairs of a dish node whose variant
    container is absent or made of mappings and lists, in document order;
    [None] for any other shape. *)
Definition variations_of (d : dict) : option (list (value * dict)) :=
  match default (VDict []) (lookup_key "variantsV2" d) with
  | VDict v2 =>
      match default (VList []) (lookup_key "variantGroups" v2) with
      | VList groups => all_variations groups
      | _ => None
      end
  | _ => None
  end.

(** ** Further sample nodes *)

(** A dish whose own category and description are JSON null. *)
Definition soup_of_the_day : value :=
  VDict [("name", VStr "Soup"); ("price", VInt 9000);
         ("category", VNone); ("description", VNone)].

Definition soup_of_the_day_record : dict :=
  [("res_id", VInt 7); ("restaurant", VStr "Test Diner"); ("subzone", VStr "");
   ("category", VNone); ("dish_name", VStr "Soup"); ("description", VStr "");
   ("base_price", VFloat 90); ("final_price", VNone);
   ("flashSale", VStr "OFF"); ("inStock", VBool false); ("image", VNone);
   ("variants", VList [])].

Definition naan_record : dict :=
  [("res_id", VNone); ("restaurant", VNone); ("subzone", VStr "");
   ("category", VStr ""); ("dish_name", VStr "Naan"); ("description", VStr "");
   ("base_price", VFloat 0); ("final_price", VNone);
   ("flashSale", VStr "OFF"); ("inStock", VBool false);
   ("image",
    VStr "https://media-assets.swiggy.com/swiggy/image/upload/abc123");
   ("variants", VList [])].

(** The record [parse_item] builds for the variation mapping [var] of a
    group named [group_name]. *)
Definition variation_record (group_name : value) (var : dict) : value :=
  VDict [("variant_group", group_name);
         ("variant_name", entry "name" var);
         ("variant_price_add",
          VFloat (inject_Z (try_except (py_int (selected_price var)) 0)));
         ("variant_inStock", entry "inStock" var);
         ("variant_isDefault", default (VInt 0) (lookup_key "default" var));
         ("variant_isEnabled",
          default (VBool true) (lookup_key "isEnabled" var))].

(** A dish with two variant groups. *)
Definition pizza_node : dict :=
  [("name", VStr "Pizza"); ("defaultPrice", VInt 25000);
   ("variantsV2", VDict [("variantGroups", VList [
      VDict [("name", VStr "Size");
             ("variations", VList [
                VDict [("name", VStr "S"); ("default", VInt 1)];
                VDict [("name", VStr "L"); ("price", VStr "80")]])];
      VDict [("name", VStr "Crust");
             ("variations", VList [
                VDict [("name", VStr "Thin"); ("price", VInt 20);
                       ("isEnabled", VBool false)]])]])])].

Definition pizza : value := VDict pizza_node.

Definition pizza_variations : list (value * dict) :=
  [(VStr "Size", [("name", VStr "S"); ("default", VInt 1)]);
   (VStr "Size", [("name", VStr "L"); ("price", VStr "80")]);
   (VStr "Crust", [("name", VStr "Thin"); ("price", VInt 20);
                   ("isEnabled", VBool false)])].

(** A document with the given top-level cards. *)
Definition document (cards : list value) : value :=
  VDict [("data", VDict [("cards", VList cards)])].

(** The restaurant both parsers attach to their records: the one read
    by the first-match scan, or nothing. *)
Definition restaurant_of (data : value) : restaurant :=
  default no_restaurant (first_match restaurant_info (cards_of data)).

(** A top-level card that none of the scans reads: anything that is not
    a mapping, and a mapping with neither a "card" nor a "groupedCard"
    entry. *)
Definition skipped_card (c : value) : bool :=
  match c with
  | VDict d => negb (has_key "card" d) && negb (has_key "groupedCard" d)
  | _ => true
  end.

(** ** Further vocabulary: offers *)

(** The restaurant [extract_offers_from_data] attaches to its records. *)
Definition offer_restaurant_of (data : value) : restaurant :=
  default no_restaurant (first_match offer_restaurant_info (cards_of data)).

(** A restaurant as the offers see it: no id is read. *)
Definition without_id (r : restaurant) : restaurant :=
  {| restaurant_name := restaurant_name r; restaurant_id := VNone;
     subzone_name := subzone_name r |}.

(** [o.get("info", {})] when [o] is a mapping and the result is one. *)
Definition offer_info (o : value) : option dict :=
  match o with
  | VDict od =>
      match default (VDict []) (lookup_key "info" od) with
      | VDict info => Some info
      | _ => None
      end
  | _ => None
  end.

(** The record appended for an offer whose info is the mapping [info]. *)
Definition offer_of (r : restaurant) (info : dict) : dict :=
  [("res_id", restaurant_name r);
   ("restaurant", py_or (restaurant_name r) (VStr ""));
   ("subzone", py_or (subzone_name r) (VStr ""));
   ("title", py_or (entry "header" info) (VStr "Offer"));
   ("code", py_or (entry "couponCode" info) (VStr ""));
   ("description", py_or (entry "description" info) (VStr ""));
   ("discount", py_or (entry "discountType" info) (VStr ""));
   ("image", py_or (entry "offerLogo" info) (VStr placeholder_logo))].

(** The infos of the candidates before the first one that has none. *)
Fixpoint leading_infos (cands : list value) : list dict :=
  match cands with
  | [] => []
  | o :: cands' =>
      match offer_info o with
      | Some info => info :: leading_infos cands'
      | None => []
      end
  end.

(** The candidate offers of a top-level card. *)
Definition card_candidates (card : value) : result (list value) :=
  card_data ← card_card card; offers_candidates card_data.

(** What one top-level card adds to the offers. *)
Definition card_offers (r : restaurant) (card : value) : list dict :=
  match card_candidates card with
  | Ok cands => map (offer_of r) (leading_infos cands)
  | Raise _ => []
  end.

(** An offer node, and a top-level card that lists offers directly. *)
Definition offer_node (header code : string) : value :=
  VDict [("info", VDict [("header", VStr header); ("couponCode", VStr code)])].

Definition offers_card (offers : list value) : value :=
  VDict [("card", VDict [("card", VDict [("offers", VList offers)])])].

Definition offers_document : value :=
  document [diner_card;
            offers_card [offer_node "50% OFF" "HALF"; VInt 5;
                         offer_node "Lost" "LOST"];
            offers_card [VDict []]].

Definition diner : restaurant :=
  {| restaurant_name := VStr "Test Diner"; restaurant_id := VNone;
     subzone_name := VStr "" |}.

(** ** Further vocabulary: the rows of flattening *)

(** The five entries a row takes from the variant [var]. *)
Definition variant_fields_of (var : dict) : dict :=
  [("variant_group", entry "variant_group" var);
   ("variant_name", entry "variant_name" var);
   ("variant_price_add", entry "variant_price_add" var);
   ("variant_inStock", entry "variant_inStock" var);
   ("variant_isDefault", entry "variant_isDefault" var)].

(** The row of the record [d] for its variant [var], and the row of a
    record without variants. *)
Definition variant_row (d var : dict) : dict :=
  update (remove_key "variants" d) (variant_fields_of var).

Definition plain_row (d : dict) : dict :=
  update (remove_key "variants" d) empty_variant_fields.

Definition dicts_of (vs : list value) : list dict :=
  omap (fun v => match v with VDict d => Some d | _ => None end) vs.

(** A record whose second variant is a string, in a heap with a sound
    record. *)
Definition broken_record : dict :=
  [("dish_name", VStr "Pizza");
   ("variants", VList [VDict [("variant_name", VStr "S")]; VStr "L"])].

Definition broken_heap : gmap nat dict :=
  <[3%nat := broken_record]> (<[4%nat := burger_record]> ∅).

(** The record behind an address (empty if there is none). *)
Definition record_at (h : gmap nat dict) (l : nat) : dict :=
  match h !! l with
  | Some d => d
  | None => []
  end.

(** The rows of one record, in order. *)
Definition expected_rows (d : dict) : list dict :=
  match variants_of d with
  | [] => [plain_row d]
  | vs => map (variant_row d) (dicts_of vs)
  end.

(** ** The endpoints: restaurant ids and fetching *)

(** [s.split(sep)] for a one-character separator. *)
Fixpoint split (sep : ascii) (s : string) : list string :=
  match s with
  | EmptyString => [EmptyString]
  | String c s' =>
      if Ascii.eqb c sep then EmptyString :: split sep s'
      else
        match split sep s' with
        | piece :: pieces => String c piece :: pieces
        | [] => [String c EmptyString]
        end
  end.

(** [sep.join(l)] *)
Fixpoint join (sep : string) (l : list string) : string :=
  match l with
  | [] => EmptyString
  | x :: l' =>
      match l' with
      | [] => x
      | _ :: _ => x ++ sep ++ join sep l'
      end
  end.

Definition comma : ascii := ascii_of_nat 44.

(** [[x.strip() for x in res_id.split(",") if x.strip()]], the ids of
    [preview] and of the [compare_offers] endpoint. *)
Definition ids (res_id : string) : list string :=
  List.filter (fun x => negb (String.eqb x EmptyString))
              (map strip (split comma res_id)).

(** [res_id.split(",")], the ids of [download_excel]. *)
Definition download_ids (res_id : string) : list string := split comma res_id.

(** Does the character occur in the string? *)
Fixpoint contains (c : ascii) (s : string) : bool :=
  match s with
  | EmptyString => false
  | String a s' => Ascii.eqb a c || contains c s'
  end.

(** An HTTP response, as far as the program looks: the result of
    [resp.json()], or nothing when decoding raises. *)
Record response : Type := { json : option value }.

Definition safe_get_json (resp : response) : value :=
  match json resp with
  | Some data => data
  | None => VDict []
  end.

Definition menu_url (res_id : string) : string :=
  "https://www.swiggy.com/mapi/menu/pl?page-type=REGULAR_MENU&complete-menu=true&lat=19.0748&lng=72.8856&restaurantId="
  ++ res_id.

Definition invalid_file_response : JSONResponse :=
  {| content := [("error", VStr "Invalid file format")]; status_code := 400 |}.

Section Fetch.
(** [requests.get(url, headers=HEADERS, timeout=15)]: the response, or
    nothing when the request raises. *)
Variable requests_get : string -> option response.

(** The pair (items, offers), or nothing when the call raises. *)
Definition fetch_menu_for_resid (res_id : string)
    : option (list dict * list dict) :=
  match requests_get (menu_url res_id) with
  | None => None
  | Some r =>
      let data := safe_get_json r in
      match parse_menu_from_data data, extract_offers_from_data data with
      | Ok items, Ok offers => Some (items, offers)
      | _, _ => None
      end
  end.

(** The loop of [preview]: [for rid in ids: try: ... except: continue]. *)
Definition fetch_each (rids : list string) : list dict * list dict :=
  fold_left
    (fun acc rid =>
       match fetch_menu_for_resid rid with
       | Some (items, offers) =>
           ((fst acc ++ items)%list, (snd acc ++ offers)%list)
       | None => acc
       end)
    rids ([], []).

Definition preview (res_id : string) : JSONResponse :=
  let '(all_items, all_offers) := fetch_each (ids res_id) in
  {| content := [("items", VList (map VDict all_items));
                 ("offers", VList (map VDict all_offers))];
     status_code := 200 |}.

(** The scraping loop of the [compare_offers] endpoint. *)
Definition scraped_offers (rids : list string) : list dict :=
  fold_left
    (fun acc rid =>
       match fetch_menu_for_resid rid with
       | Some (_, offers) => (acc ++ offers)%list
       | None => acc
       end)
    rids [].

(** The [compare_offers] endpoint: [read_excel] and [read_csv] are the
    frames the two readers return for the upload, or nothing when they
    raise. *)
Definition compare_offers_endpoint (read_excel read_csv : option frame)
    (res_ids : string) : result JSONResponse :=
  match read_excel with
  | Some df_ref => compare_offers df_ref (scraped_offers (ids res_ids))
  | None =>
      match read_csv with
      | Some df_ref => compare_offers df_ref (scraped_offers (ids res_ids))
      | None => Ok invalid_file_response
      end
  end.
End Fetch.

(** What one restaurant id contributes to the two lists. *)
Definition fetched (requests_get : string -> option response) (rid : string)
    : list dict * list dict :=
  match fetch_menu_for_resid requests_get rid with
  | Some p => p
  | None => ([], [])
  end.

(** A server that knows restaurant 42 only. *)
Definition diner_server (url : string) : option response :=
  if String.eqb url (menu_url "42") then Some {| json := Some offers_document |}
  else if String.eqb url (menu_url "7") then Some {| json := None |}
  else None.

(** ** The name of the workbook *)

(** [a == b] on decoded JSON values: numbers (and booleans) compare by
    value, strings by content, lists element by element, mappings by
    their bindings (keys are unique). *)
Fixpoint py_eqb (a b : value) {struct a} : bool :=
  match a, b with
  | VNone, VNone => true
  | VStr s, VStr t => String.eqb s t
  | VList l, VList m =>
      (fix all2 (l m : list value) {struct l} : bool :=
         match l, m with
         | [], [] => true
         | x :: l', y :: m' => py_eqb x y && all2 l' m'
         | _, _ => false
         end) l m
  | VDict d, VDict e =>
      Nat.eqb (length d) (length e) &&
      (fix all (d : list (string * value)) : bool :=
         match d with
         | [] => true
         | (k, v) :: d' =>
             match lookup_key k e with
             | Some w => py_eqb v w
             | None => false
             end && all d'
         end) d
  | VBool x, (VBool _ | VInt _ | VFloat _) =>
      match to_number b with
      | Ok q => Qeq_bool (inject_Z (if x then 1 else 0)) q
      | Raise _ => false
      end
  | VInt x, (VBool _ | VInt _ | VFloat _) =>
      match to_number b with
      | Ok q => Qeq_bool (inject_Z x) q
      | Raise _ => false
      end
  | VFloat x, (VBool _ | VInt _ | VFloat _) =>
      match to_number b with
      | Ok q => Qeq_bool x q
      | Raise _ => false
      end
  | _, _ => false
  end.

(** [for i in items: if i["restaurant"] not in restaurant_names:
    restaurant_names.append(i["restaurant"])]: the list afterwards, and
    whether the loop ended or raised. *)
Fixpoint add_names (restaurant_names : list value) (items : list dict)
    : list value * result unit :=
  match items with
  | [] => (restaurant_names, Ok tt)
  | i :: items' =>
      match lookup_key "restaurant" i with
      | None => (restaurant_names, Raise KeyError)
      | Some name =>
          add_names
            (if existsb (py_eqb name) restaurant_names then restaurant_names
             else (restaurant_names ++ [name])%list)
            items'
      end
  end.

Definition blank : ascii := ascii_of_nat 32.
Definition underscore : ascii := ascii_of_nat 95.

(** [s.replace(" ", "_")] *)
Fixpoint replace_blanks (s : string) : string :=
  match s with
  | EmptyString => EmptyString
  | String c s' =>
      String (if Ascii.eqb c blank then underscore else c) (replace_blanks s')
  end.

(** [name.replace(" ", "_")]: only a string has the method. *)
Definition py_replace (name : value) : result string :=
  match name with
  | VStr s => Ok (replace_blanks s)
  | _ => Raise AttributeError
  end.

(** [s[:n]] *)
Fixpoint prefix_of_length (n : nat) (s : string) : string :=
  match n, s with
  | S n', String c s' => String c (prefix_of_length n' s')
  | _, _ => EmptyString
  end.

(** Lines 275-277: the names joined by underscores, at most 50
    characters. *)
Definition name_part (restaurant_names : list value) : result string :=
  names ← for_append py_replace restaurant_names;
  let name_part := join (String underscore EmptyString) names in
  Ok (if (50 <? String.length name_part)%nat
      then prefix_of_length 50 name_part
      else name_part).

(** Line 278: the file name the workbook is renamed to. *)
Definition final_filename (restaurant_names : list value) (timestamp : string)
    : result string :=
  part ← name_part restaurant_names;
  Ok (part ++ String underscore EmptyString ++ timestamp ++ ".xlsx").

(** The frame the [compare_offers] endpoint reads: the Excel reading if
    there is one, else the CSV reading. *)
Definition reference_of (read_excel read_csv : option frame) : option frame :=
  match read_excel with
  | Some df => Some df
  | None => read_csv
  end.

Definition is_string (v : value) : bool :=
  match v with
  | VStr _ => true
  | _ => false
  end.

(** ** The sheets of the workbook *)

(** The columns of the menu sheet. *)
Definition sheet_columns : list string :=
  ["res_id"; "restaurant"; "subzone"; "category"; "dish_name"; "description";
   "base_price"; "final_price"; "flashSale"; "inStock"; "image";
   "variant_group"; "variant_name"; "variant_price_add"; "variant_inStock";
   "variant_isDefault"].

(** The keys [ks] added to the key list [acc], new ones at the end. *)
Definition add_keys (acc ks : list string) : list string :=
  fold_left (fun acc k => if mem k acc then acc else (acc ++ [k])%list) ks acc.

(** * Properties *)

(** ** The exception monads *)

Lemma bind_Ok {A B : Type} (m : result A) (f : A -> result B) (b : B) :
  m ≫= f = Ok b -> exists a, m = Ok a /\ f a = Ok b.
Proof. destruct m as [a|e]; simpl; [eauto | discriminate]. Qed.

Ltac bind_inv H :=
  let a := fresh "v" in
  let E := fresh "E" in
  apply bind_Ok in H as (a & E & H).

Tactic Notation "bind_inv_as" hyp(H) ident(a) ident(E) :=
  apply bind_Ok in H as (a & E & H).

Lemma get_Ok (x : value) (k : string) (dflt v : value) :
  get x k dflt = Ok v -> exists d, x = VDict d.
Proof. destruct x; simpl; try discriminate; eauto. Qed.

(** ** Shape of the record built by [parse_item] *)

Lemma parse_item_falsy info name id title subzone :
  truthy info = false -> parse_item info name id title subzone = Ok [].
Proof. intros H. unfold parse_item. by rewrite H. Qed.

Lemma parse_item_record info name id title subzone recs :
  parse_item info name id title subzone = Ok recs ->
  truthy info = true ->
  exists price base has_final final stock variants category dish_name descr image,
    raw_price_of info = Ok price /\
    py_div price Q100 = Ok base /\
    get1 info "finalPrice" = Ok has_final /\
    (if truthy has_final
     then fp ← get info "finalPrice" (VInt 0); q ← py_div fp Q100; Ok (Some (round2 q))
     else Ok None) = Ok final /\
    get info "inStock" (VInt 0) = Ok stock /\
    parse_variants info = Ok variants /\
    recs =
      [[("res_id", id);
        ("restaurant", name);
        ("subzone", py_or subzone (VStr ""));
        ("category", category);
        ("dish_name", dish_name);
        ("description", descr);
        ("base_price", VFloat (round2 base));
        ("final_price", of_option final);
        ("flashSale",
         VStr (if flash_sale (round2 base) final then "ON" else "OFF"));
        ("inStock", VBool (truthy stock));
        ("image", image);
        ("variants", VList variants)]].
Proof.
  unfold parse_item. intros H Ht. rewrite Ht in H. simpl in H.
  do 10 bind_inv H.
  injection H as <-.
  repeat eexists; eauto.
Qed.

(** ** The records of [parse_item] are dish records *)

Lemma for_append_Forall {A : Type} (P : A -> Prop) (f : value -> result A)
    (xs : list value) :
  (forall x y, f x = Ok y -> P y) ->
  forall ys, for_append f xs = Ok ys -> Forall P ys.
Proof.
  intros Hf. induction xs as [|x xs IH]; simpl; intros ys H.
  - injection H as <-. constructor.
  - do 2 bind_inv H. injection H as <-. constructor; eauto.
Qed.

Lemma parse_variation_is_dict (group_name var v : value) :
  parse_variation group_name var = Ok v -> is_dict v = true.
Proof.
  unfold parse_variation. intros H. do 6 bind_inv H. by injection H as <-.
Qed.

Lemma parse_variants_dicts (info : value) (variants : list value) :
  parse_variants info = Ok variants -> forallb is_dict variants = true.
Proof.
  unfold parse_variants. intros H. do 3 bind_inv H.
  bind_inv_as H per_group Hper. injection H as <-.
  assert (Hall : Forall (fun vs => forallb is_dict vs = true) per_group).
  { eapply for_append_Forall; [|exact Hper]. intros vg vs Hvg.
    unfold parse_variant_group in Hvg. do 3 bind_inv Hvg.
    apply forallb_forall. intros var Hvar.
    assert (Hd : Forall (fun v => is_dict v = true) vs).
    { eapply for_append_Forall; [|exact Hvg].
      intros ? ?. apply parse_variation_is_dict. }
    rewrite Forall_forall in Hd. apply Hd. by apply list_elem_of_In. }
  clear Hper. induction Hall as [|vs vss Hvs _ IH]; simpl; [done|].
  by rewrite forallb_app, Hvs, IH.
Qed.

(** Every record built by [parse_item] carries a list of variant
    mappings under "variants". *)
Lemma parse_item_well_formed info name id title subzone recs :
  parse_item info name id title subzone = Ok recs ->
  Forall (fun r => well_formed_dish r = true) recs.
Proof.
  intros Hp. destruct (truthy info) eqn:Ht.
  - destruct (parse_item_record _ _ _ _ _ _ Hp Ht)
      as (price & base & hf & final & stock & vs & cat & nm & ds & img
          & _ & _ & _ & _ & _ & Hvs & ->).
    constructor; [|constructor].
    change (forallb is_dict vs = true). by apply (parse_variants_dicts info).
  - rewrite parse_item_falsy in Hp by done. injection Hp as <-. constructor.
Qed.

(** ** Output of the accumulating loops *)

Lemma fst_bind {A B : Type} (m : emitting A) (f : A -> emitting B) :
  fst (m ≫= f) =
  (fst m ++ match snd m with Ok a => fst (f a) | Raise _ => [] end)%list.
Proof.
  destruct m as [out [a|e]]; simpl.
  - by destruct (f a).
  - by rewrite app_nil_r.
Qed.

Lemma fst_lift_bind {A B : Type} (m : result A) (f : A -> emitting B) :
  fst (lift m ≫= f) = match m with Ok a => fst (f a) | Raise _ => [] end.
Proof. by rewrite fst_bind. Qed.

Lemma In_for_each (body : value -> emitting unit) (xs : list value) (r : dict) :
  In r (fst (for_each body xs)) -> exists x, In x xs /\ In r (fst (body x)).
Proof.
  induction xs as [|x xs IH]; simpl; [tauto|].
  rewrite fst_bind. intros [H|H]%in_app_or.
  - eauto.
  - destruct (snd (body x)); [|contradiction].
    destruct (IH H) as (y & ? & ?). eauto.
Qed.

Lemma In_extend (m : result (list dict)) (r : dict) :
  In r (fst (extend m)) -> exists l, m = Ok l /\ In r l.
Proof. destruct m; simpl; [eauto | tauto]. Qed.

Lemma parse_menu_from_data_items (data : value) :
  parse_menu_from_data data = Ok (fst (parse_menu_body data)).
Proof.
  unfold parse_menu_from_data. by destruct (parse_menu_body data) as [items [|]].
Qed.

Lemma extract_offers_from_data_items (data : value) :
  extract_offers_from_data data = Ok (fst (extract_offers_body data)).
Proof.
  unfold extract_offers_from_data.
  by destruct (extract_offers_body data) as [offers [|]].
Qed.

(** Every record of the menu parser was returned by a call of
    [parse_item]. *)
Lemma menu_card_from_parse_item (rst : restaurant) (card : value) (r : dict) :
  In r (fst (menu_card rst card)) ->
  exists info title recs,
    parse_item info (restaurant_name rst) (restaurant_id rst) title
      (subzone_name rst) = Ok recs /\ In r recs.
Proof.
  unfold menu_card. rewrite fst_lift_bind.
  destruct (card_card card) as [card_obj|]; [|contradiction].
  rewrite fst_lift_bind.
  destruct (get1 card_obj "categories") as [categories|]; [|contradiction].
  destruct (truthy categories).
  - rewrite fst_lift_bind.
    destruct (py_iter categories) as [cats|]; [|contradiction].
    intros (cat & _ & H)%In_for_each. revert H.
    unfold category. rewrite fst_lift_bind.
    destruct (_ ≫= _) as [title|]; [|contradiction].
    rewrite fst_lift_bind.
    destruct (_ ≫= _) as [item_cards|]; [|contradiction].
    intros (ic & _ & H)%In_for_each. revert H.
    unfold category_item. rewrite fst_lift_bind.
    destruct (_ ≫= _) as [info|]; [|contradiction].
    intros (l & ? & ?)%In_extend. eauto.
  - rewrite fst_lift_bind.
    destruct (_ ≫= _) as [item_cards|]; [|contradiction].
    intros (ic & _ & H)%In_for_each. revert H.
    unfold plain_item. rewrite fst_lift_bind.
    destruct (_ ≫= _) as [info|]; [|contradiction].
    rewrite fst_lift_bind.
    destruct (_ ≫= _) as [title|]; [|contradiction].
    intros (l & ? & ?)%In_extend. eauto.
Qed.

Lemma parse_menu_from_parse_item (data : value) (items : list dict) (r : dict) :
  parse_menu_from_data data = Ok items -> In r items ->
  exists info name id title subzone recs,
    parse_item info name id title subzone = Ok recs /\ In r recs.
Proof.
  intros H Hin.
  assert (items = fst (parse_menu_body data)) as ->
    by (rewrite parse_menu_from_data_items in H; congruence).
  revert Hin. unfold parse_menu_body.
  rewrite fst_lift_bind.
  destruct (_ ≫= _) as [cards|]; [|contradiction].
  rewrite fst_lift_bind.
  destruct (py_iter cards) as [cs|]; [|contradiction].
  rewrite fst_lift_bind.
  destruct (py_iter _) as [gs|]; [|contradiction].
  intros (card & _ & Hc)%In_for_each.
  apply menu_card_from_parse_item in Hc as (info & title & recs & ? & ?).
  eauto 10.
Qed.

Lemma parsed_dish_parse_item (r : dict) :
  parsed_dish r ->
  exists info name id title subzone recs,
    parse_item info name id title subzone = Ok recs /\ In r recs.
Proof.
  intros [H | (data & items & H & Hin)]; [exact H|].
  eapply parse_menu_from_parse_item; eauto.
Qed.

(** ** Prices *)

Lemma Qltb_lt (a b : Q) : Qltb a b = true <-> (a < b)%Q.
Proof.
  unfold Qltb. rewrite negb_true_iff, <- not_true_iff_false, Qle_bool_iff.
  split; [apply Qnot_le_lt | apply Qlt_not_le].
Qed.

Lemma flash_sale_true (base : Q) (final : option Q) :
  flash_sale base final = true <->
  exists f, final = Some f /\ ~ (f == 0)%Q /\ (f < base)%Q.
Proof.
  destruct final as [f|]; simpl.
  - rewrite andb_true_iff, Qltb_lt, negb_true_iff, <- not_true_iff_false,
      Qeq_bool_iff.
    split; [intros []; eauto | intros (? & [= <-] & ? & ?); tauto].
  - split; [discriminate | intros (? & [=] & _)].
Qed.

(** ** Rounding of whole minor units *)

Lemma round_half_even_Z (q : Q) (n : Z) :
  (q == inject_Z n)%Q -> round_half_even q = n.
Proof.
  intros Hq. unfold round_half_even.
  assert (Hf : Qfloor q = n) by (rewrite Hq; apply Qfloor_Z).
  rewrite Hf.
  assert (Hc : (q - inject_Z n ?= 1 # 2)%Q = Lt).
  { rewrite Hq. apply Qlt_alt. unfold Qminus. rewrite Qplus_opp_r. reflexivity. }
  by rewrite Hc.
Qed.

Lemma round2_hundredths (p : Z) :
  round2 (Qred (inject_Z p / Q100)) = Qred (p # 100).
Proof.
  unfold round2. rewrite (round_half_even_Z _ p); [done|].
  rewrite Qred_correct. unfold Q100. field.
Qed.

Lemma Qred_inject_Z (n : Z) : Qred (inject_Z n) = inject_Z n.
Proof.
  unfold Qred, inject_Z.
  pose proof (Z.ggcd_gcd n 1) as Hg.
  pose proof (Z.ggcd_correct_divisors n 1) as Hd.
  destruct (Z.ggcd n 1) as [g [a b]]. simpl in *.
  rewrite Z.gcd_1_r in Hg. subst g. destruct Hd as [Ha Hb].
  assert (a = n) as -> by lia. assert (b = 1) as -> by lia. reflexivity.
Qed.

Lemma round2_whole (n : Z) : round2 (Qred (inject_Z n / 1)) = inject_Z n.
Proof.
  unfold round2. rewrite (round_half_even_Z _ (n * 100)).
  - transitivity (Qred (inject_Z n)); [|apply Qred_inject_Z].
    apply Qred_complete. unfold Qeq, inject_Z. simpl. lia.
  - rewrite Qred_correct. unfold Q100, Qeq, inject_Z. simpl. lia.
Qed.

(** On whole minor units the test on the truth value of the final price
    and the test for its presence agree: a final price that is present is
    not zero. *)
Lemma hundredths_nonzero (n : Z) : n <> 0 -> ~ (Qred (n # 100) == 0)%Q.
Proof.
  intros Hn. rewrite Qred_correct. unfold Qeq. simpl. lia.
Qed.

Lemma flash_sale_integer_final_price
    (d : dict) (name id title subzone : value) (r : dict) (n : Z) :
  lookup_key "finalPrice" d = Some (VInt n) ->
  parse_item (VDict d) name id title subzone = Ok [r] ->
  (lookup_key "flashSale" r = Some (VStr "ON") <->
   exists f b, lookup_key "final_price" r = Some (VFloat f) /\
               lookup_key "base_price" r = Some (VFloat b) /\
               (f < b)%Q).
Proof.
  intros Hfinal Hp.
  assert (Ht : truthy (VDict d) = true) by (destruct d; [discriminate|done]).
  destruct (parse_item_record _ _ _ _ _ _ Hp Ht)
    as (price & base & hf & final & stock & vs & cat & nm & ds & img
        & _ & _ & Hhf & Hf & _ & _ & Hr).
  injection Hr as ->.
  unfold get1 in Hhf. simpl in Hhf, Hf. rewrite Hfinal in Hhf, Hf.
  assert (hf = VInt n) as -> by congruence. clear Hhf.
  cbn [truthy] in Hf.
  change (lookup_key "flashSale" _) with
    (Some (VStr (if flash_sale (round2 base) final then "ON" else "OFF"))).
  change (lookup_key "final_price" _) with (Some (of_option final)).
  change (lookup_key "base_price" _) with (Some (VFloat (round2 base))).
  pose proof (flash_sale_true (round2 base) final) as Hfs.
  destruct (n =? 0)%Z eqn:Hn; simpl in Hf.
  - injection Hf as <-. simpl. split; [discriminate|].
    intros (f & b & [=] & _).
  - apply Z.eqb_neq in Hn.
    unfold py_div in Hf. simpl in Hf. rewrite round2_hundredths in Hf.
    injection Hf as <-. simpl of_option.
    destruct (flash_sale _ _).
    + split; [intros _|done].
      destruct (proj1 Hfs eq_refl) as (f & [= <-] & _ & Hlt). eauto.
    + split; [discriminate|]. intros (f & b & [= <-] & [= <-] & Hlt).
      assert (false = true); [|discriminate].
      apply Hfs. eexists. split; [done|]. split; [|done].
      by apply hundredths_nonzero.
Qed.

(** C1, the claim as stated fails: a final price below half a minor unit
    is stored as 0.0, which is present and below the base price 1.0, and
    the flag is OFF. *)
Lemma flash_sale_off_for_zero_final_price :
  exists r,
    parse_item
      (VDict [("name", VStr "Soup"); ("price", VInt 100);
              ("finalPrice", VFloat (2 # 5))])
      (VStr "Test Diner") (VInt 7) (VStr "Mains") VNone = Ok [r] /\
    ~ (lookup_key "flashSale" r = Some (VStr "ON") <->
       exists f b, lookup_key "final_price" r = Some (VFloat f) /\
                   lookup_key "base_price" r = Some (VFloat b) /\
                   (f < b)%Q).
Proof.
  eexists. split; [vm_compute; reflexivity|].
  intros [_ H].
  assert (Hon : lookup_key "flashSale"
                  [("res_id", VInt 7); ("restaurant", VStr "Test Diner");
                   ("subzone", VStr ""); ("category", VStr "Mains");
                   ("dish_name", VStr "Soup"); ("description", VStr "");
                   ("base_price", VFloat 1); ("final_price", VFloat 0);
                   ("flashSale", VStr "OFF"); ("inStock", VBool false);
                   ("image", VNone); ("variants", VList [])]
                = Some (VStr "ON")).
  { apply H. exists 0%Q, 1%Q. repeat split. }
  discriminate Hon.
Qed.

(** C1 (amended): for every record produced by [parse_item] or
    [parse_menu_from_data], the flash-sale flag is ON if and only if the
    final price is present, is not zero, and is strictly less than the
    base price; otherwise the flag is OFF. *)
Theorem flash_sale_iff_nonzero_final_below_base (r : dict) :
  parsed_dish r ->
  (lookup_key "flashSale" r = Some (VStr "ON") <->
   exists f b, lookup_key "final_price" r = Some (VFloat f) /\
               lookup_key "base_price" r = Some (VFloat b) /\
               ~ (f == 0)%Q /\ (f < b)%Q) /\
  (lookup_key "flashSale" r = Some (VStr "ON") \/
   lookup_key "flashSale" r = Some (VStr "OFF")).
Proof.
  intros (info & name & id & title & subzone & recs & Hp & Hin)%parsed_dish_parse_item.
  destruct (truthy info) eqn:Ht.
  2: { rewrite parse_item_falsy in Hp by done. injection Hp as <-. destruct Hin. }
  destruct (parse_item_record _ _ _ _ _ _ Hp Ht)
    as (price & base & hf & final & stock & vs & cat & nm & ds & img & _ & _ & _ & _ & _ & _ & ->).
  destruct Hin as [<-|[]].
  change (lookup_key "flashSale" _) with
    (Some (VStr (if flash_sale (round2 base) final then "ON" else "OFF"))).
  change (lookup_key "final_price" _) with (Some (of_option final)).
  change (lookup_key "base_price" _) with (Some (VFloat (round2 base))).
  pose proof (flash_sale_true (round2 base) final) as Hfs.
  destruct (flash_sale (round2 base) final); split; try (by auto).
  - split; [intros _|done].
    destruct (proj1 Hfs eq_refl) as (f & -> & ? & ?). simpl. eauto 10.
  - split; [discriminate|].
    intros (f & b & Hf & [= <-] & Hnz & Hlt).
    destruct final as [f'|]; [|discriminate]. injection Hf as ->.
    assert (false = true) by (apply Hfs; eauto). discriminate.
Qed.

Lemma flash_sale_iff_nonzero_final_below_base_witness :
  parsed_dish burger_record /\
  ((lookup_key "flashSale" burger_record = Some (VStr "ON") <->
    exists f b, lookup_key "final_price" burger_record = Some (VFloat f) /\
                lookup_key "base_price" burger_record = Some (VFloat b) /\
                ~ (f == 0)%Q /\ (f < b)%Q) /\
   (lookup_key "flashSale" burger_record = Some (VStr "ON") \/
    lookup_key "flashSale" burger_record = Some (VStr "OFF"))).
Proof.
  assert (Hr : parsed_dish burger_record).
  { left. exists burger, VNone, VNone, (VStr "Mains"), VNone, [burger_record].
    split; [vm_compute; reflexivity | left; reflexivity]. }
  split; [exact Hr|].
  exact (flash_sale_iff_nonzero_final_below_base burger_record Hr).
Defined.

(** ** The parsers as functions of the card list *)

Lemma parse_menu_body_cards (data : value) :
  fst (parse_menu_body data) =
  fst (gs ← lift (py_iter (default (VList [])
                             (first_match regular_cards (cards_of data))));
       for_each (menu_card (default no_restaurant
                   (first_match restaurant_info (cards_of data)))) gs).
Proof.
  unfold parse_menu_body, cards_of.
  destruct (get data "data" (VDict [])) as [d|]; [|reflexivity]. simpl.
  destruct (get d "cards" (VList [])) as [c|]; [|reflexivity]. simpl.
  destruct (py_iter c) as [cs|]; [|reflexivity]. simpl.
  destruct (py_iter _) as [gs|]; [|reflexivity].
  by destruct (for_each _ gs).
Qed.

Lemma extract_offers_body_cards (data : value) :
  fst (extract_offers_body data) =
  for_each_try
    (offer_card (default no_restaurant
       (first_match offer_restaurant_info (cards_of data))))
    (cards_of data).
Proof.
  unfold extract_offers_body, cards_of.
  destruct (get data "data" (VDict [])) as [d|]; [|reflexivity]. simpl.
  destruct (get d "cards" (VList [])) as [c|]; [|reflexivity]. simpl.
  destruct (py_iter c) as [cs|]; reflexivity.
Qed.

Lemma first_match_all_raise {A : Type} (f : value -> result (option A))
    (cards : list value) :
  Forall (fun c => exists e, f c = Raise e) cards -> first_match f cards = None.
Proof.
  induction 1 as [|c cards [e He] _ IH]; simpl; [done|]. by rewrite He.
Qed.

Lemma for_each_try_no_output (body : value -> emitting unit)
    (cards : list value) :
  Forall (fun c => fst (body c) = []) cards -> for_each_try body cards = [].
Proof.
  induction 1 as [|c cards Hc _ IH]; simpl; [done|]. by rewrite Hc, IH.
Qed.

Lemma get_not_dict (c : value) (k : string) (dflt : value) :
  is_dict c = false -> get c k dflt = Raise AttributeError.
Proof. by destruct c. Qed.

Lemma first_match_none {A : Type} (f : value -> result (option A))
    (cards : list value) :
  Forall (fun c => forall a, f c <> Ok (Some a)) cards ->
  first_match f cards = None.
Proof.
  induction 1 as [|c cards Hc _ IH]; simpl; [done|].
  destruct (f c) as [[a|]|e]; [by destruct (Hc a)|done|done].
Qed.

Lemma no_content_scans (c : value) :
  no_content c = true ->
  (forall g, regular_cards c <> Ok (Some g)) /\
  (forall r, fst (offer_card r c) = []).
Proof.
  destruct c as [| | | | | |d];
    try (intros _; split; intros; first [reflexivity | discriminate]).
  unfold no_content, mapping_entry, regular_cards, offer_card, card_card.
  cbn [get].
  destruct (lookup_key "card" d) as [[| | | | | |dc]|];
    destruct (lookup_key "groupedCard" d) as [[| | | | | |dg]|];
    try discriminate;
    (intros _; split; intros; first [reflexivity | discriminate]).
Qed.

Lemma no_card_mapping_content (data : value) :
  no_card_mapping data -> no_card_content data.
Proof.
  unfold no_card_mapping, no_card_content. intros Hno.
  eapply Forall_impl; [exact Hno|]. intros c Hc. simpl in Hc. by destruct c.
Qed.

(** C2, the claim as stated fails on a malformed document: with the
    number 5 where the second regular-menu card should be a mapping, the
    traversal raises [AttributeError], the outer handler catches it, and
    the parser returns the dish of the first card, not the empty list.
    The offers of a card whose second candidate is the number 5 are
    likewise the one offer before it. *)
Lemma malformed_document_returns_records :
  (exists menu_cards,
     first_match regular_cards
       (cards_of (menu_document [plain_card "Mains" [burger]; VInt 5]))
     = Some (VList menu_cards) /\
     Exists (fun c => is_dict c = false) menu_cards) /\
  snd (parse_menu_body (menu_document [plain_card "Mains" [burger]; VInt 5]))
  = Raise AttributeError /\
  parse_menu_from_data (menu_document [plain_card "Mains" [burger]; VInt 5])
  = Ok [burger_record] /\
  parse_menu_from_data (menu_document [plain_card "Mains" [burger]; VInt 5])
  <> Ok [] /\
  extract_offers_from_data
    (document [offers_card [offer_node "50% OFF" "HALF"; VInt 5]])
  = Ok [offer_of no_restaurant
          [("header", VStr "50% OFF"); ("couponCode", VStr "HALF")]] /\
  extract_offers_from_data
    (document [offers_card [offer_node "50% OFF" "HALF"; VInt 5]])
  <> Ok [].
Proof.
  split; [|split; [|split; [|split; [|split]]]].
  - exists [plain_card "Mains" [burger]; VInt 5].
    split; [reflexivity|]. apply Exists_cons_tl, Exists_cons_hd. reflexivity.
  - vm_compute. reflexivity.
  - vm_compute. reflexivity.
  - vm_compute. discriminate.
  - vm_compute. reflexivity.
  - vm_compute. discriminate.
Qed.

(** C2, amended: for every document, [parse_menu_from_data] and
    [extract_offers_from_data] return a list and never raise.  Both
    return the empty list on every document without content in card
    position: no top-level card is a mapping whose "card" or
    "groupedCard" entry is a mapping.  That covers the empty mapping,
    the mapping whose "data" is empty, a document that is not a mapping,
    a wrong type under "data" or under "cards", and cards that are not
    mappings. *)
Theorem parsers_never_raise (data : value) :
  (exists items, parse_menu_from_data data = Ok items) /\
  (exists offers, extract_offers_from_data data = Ok offers) /\
  (no_card_content data ->
   parse_menu_from_data data = Ok [] /\
   extract_offers_from_data data = Ok []) /\
  (no_card_mapping data -> no_card_content data) /\
  (is_dict data = false -> no_card_content data) /\
  no_card_content (VDict []) /\
  no_card_content (VDict [("data", VDict [])]).
Proof.
  split; [|split; [|split; [|split; [|split; [|split]]]]].
  - rewrite parse_menu_from_data_items. eauto.
  - rewrite extract_offers_from_data_items. eauto.
  - unfold no_card_content. intros Hno.
    rewrite parse_menu_from_data_items, extract_offers_from_data_items.
    rewrite parse_menu_body_cards, extract_offers_body_cards.
    split; f_equal.
    + rewrite (first_match_none regular_cards); [done|].
      eapply Forall_impl; [exact Hno|]. intros c Hc. simpl in Hc.
      by destruct (no_content_scans c Hc).
    + apply for_each_try_no_output.
      eapply Forall_impl; [exact Hno|]. intros c Hc. simpl in Hc.
      by destruct (no_content_scans c Hc).
  - apply no_card_mapping_content.
  - intros Hd. unfold no_card_content, cards_of.
    rewrite get_not_dict by done. constructor.
  - constructor.
  - constructor.
Qed.

Lemma parsers_never_raise_witness :
  no_card_content
    (document [VInt 1; VStr "x"; VDict [("card", VInt 5)]; VDict []]) /\
  parse_menu_from_data
    (document [VInt 1; VStr "x"; VDict [("card", VInt 5)]; VDict []])
  = Ok [] /\
  extract_offers_from_data
    (document [VInt 1; VStr "x"; VDict [("card", VInt 5)]; VDict []])
  = Ok [].
Proof.
  assert (H : no_card_content
                (document [VInt 1; VStr "x"; VDict [("card", VInt 5)];
                           VDict []]))
    by (repeat constructor).
  split; [exact H|].
  exact (proj1 (proj2 (proj2 (parsers_never_raise _))) H).
Defined.

(** The body of [parse_menu_from_data] does raise on a document that is
    not a mapping; it is the outer handler that turns this into the empty
    result. *)
Example outer_handler_catches :
  snd (parse_menu_body (VList [])) = Raise AttributeError /\
  parse_menu_from_data (VList []) = Ok [] /\
  snd (extract_offers_body (VInt 3)) = Raise AttributeError /\
  extract_offers_from_data (VInt 3) = Ok [].
Proof. repeat split. Qed.

(** The end-to-end scenario: one restaurant, one category, one dish. *)
Example parse_menu_diner :
  parse_menu_from_data diner_document = Ok [diner_burger_record] /\
  extract_offers_from_data diner_document = Ok [].
Proof. split; vm_compute; reflexivity. Qed.

(** ** Non-numeric prices *)

Lemma raw_price_of_dict (d : dict) : exists raw, raw_price_of (VDict d) = Ok raw.
Proof.
  unfold raw_price_of, get1, or_else. simpl.
  destruct (truthy _); simpl; eauto.
Qed.

Lemma parse_variation_dict (group_name : value) (d : dict) :
  exists raw,
    raw_price_of (VDict d) = Ok raw /\
    parse_variation group_name (VDict d) =
    Ok (VDict
          [("variant_group", group_name);
           ("variant_name", default VNone (lookup_key "name" d));
           ("variant_price_add",
            VFloat (round2 (Qred (inject_Z (try_except (py_int raw) 0) / 1))));
           ("variant_inStock", default VNone (lookup_key "inStock" d));
           ("variant_isDefault", default (VInt 0) (lookup_key "default" d));
           ("variant_isEnabled",
            default (VBool true) (lookup_key "isEnabled" d))]).
Proof.
  destruct (raw_price_of_dict d) as [raw Hraw]. exists raw. split; [done|].
  unfold parse_variation. rewrite Hraw. simpl.
  by repeat (destruct (lookup_key _ d)).
Qed.


(** ** One failing unit in the menu traversal *)

Lemma for_each_raise (body : value -> emitting unit) (x : value)
    (xs : list value) (e : exn) :
  snd (body x) = Raise e -> for_each body (x :: xs) = (fst (body x), Raise e).
Proof. simpl. destruct (body x) as [out r]. simpl. by intros ->. Qed.

Lemma first_match_skips_raise {A : Type} (f : value -> result (option A))
    (c : value) (cards : list value) (e : exn) :
  f c = Raise e -> first_match f (c :: cards) = first_match f cards.
Proof. simpl. by intros ->. Qed.

(** C4: the two scans of the top-level cards skip a card that raises,
    but the traversal of the menu cards has no handler of its own: a
    menu card, a category or an item that raises ends the traversal, and
    the dishes of the units after it are not returned. *)
Theorem menu_traversal_ends_at_first_failing_unit :
  first_match restaurant_info [VInt 5; diner_card]
  = first_match restaurant_info [diner_card] /\
  parse_menu_from_data (menu_document [plain_card "Mains" [burger]])
  = Ok [burger_record] /\
  parse_menu_from_data (menu_document [VInt 5; plain_card "Mains" [burger]])
  = Ok [] /\
  parse_menu_from_data
    (menu_document [categorized_card [VInt 5; category_node "Mains" [burger]]])
  = Ok [] /\
  parse_menu_from_data
    (menu_document [plain_card "Mains" [soup; burger]])
  = Ok [] /\
  parse_menu_from_data
    (menu_document [plain_card "Mains" [burger]; VInt 5;
                    plain_card "Mains" [burger]])
  = Ok [burger_record].
Proof. repeat split; vm_compute; reflexivity. Qed.


(** ** The in-stock flag *)

(** C10: for every non-empty item node from which [parse_item] builds a
    record, the node is a mapping, the record is the only one returned,
    and its in-stock flag is the truth value of the raw "inStock" entry
    with 0 as the default: False when the key is absent or holds 0, None
    or an empty value, True when it holds a non-zero number or another
    truthy value. *)
Theorem in_stock_is_truth_value_of_raw_flag
    (info name id title subzone : value) (recs : list dict) :
  truthy info = true ->
  parse_item info name id title subzone = Ok recs ->
  exists d r,
    info = VDict d /\ recs = [r] /\
    lookup_key "inStock" r =
      Some (VBool (truthy (default (VInt 0) (lookup_key "inStock" d)))) /\
    (lookup_key "inStock" d = None ->
     lookup_key "inStock" r = Some (VBool false)) /\
    (forall n, lookup_key "inStock" d = Some (VInt n) ->
     lookup_key "inStock" r = Some (VBool (negb (n =? 0)%Z))) /\
    (lookup_key "inStock" d = Some VNone ->
     lookup_key "inStock" r = Some (VBool false)).
Proof.
  intros Ht Hp.
  destruct (parse_item_record _ _ _ _ _ _ Hp Ht)
    as (price & base & hf & final & stock & vs & cat & nm & ds & img
        & _ & _ & _ & _ & Hstock & _ & ->).
  destruct (get_Ok _ _ _ _ Hstock) as [d ->].
  simpl in Hstock. injection Hstock as <-.
  eexists d, _. split; [done|]. split; [done|].
  change (lookup_key "inStock" (_ :: _)) with
    (Some (VBool (truthy (default (VInt 0) (lookup_key "inStock" d))))).
  repeat split.
  - by intros ->.
  - by intros n ->.
  - by intros ->.
Qed.

Lemma in_stock_is_truth_value_of_raw_flag_witness :
  truthy burger = true /\
  parse_item burger VNone VNone (VStr "Mains") VNone = Ok [burger_record] /\
  lookup_key "inStock" burger_record = Some (VBool true).
Proof.
  assert (Ht : truthy burger = true) by reflexivity.
  assert (Hp : parse_item burger VNone VNone (VStr "Mains") VNone
               = Ok [burger_record]) by (vm_compute; reflexivity).
  split; [exact Ht|]. split; [exact Hp|].
  destruct (in_stock_is_truth_value_of_raw_flag _ _ _ _ _ _ Ht Hp)
    as (d & r & Hd & Hr & Hflag & _).
  injection Hd as <-. injection Hr as <-. exact Hflag.
Defined.

(** ** Dictionaries *)

Lemma lookup_remove_key_eq (k : string) (d : dict) :
  lookup_key k (remove_key k d) = None.
Proof.
  induction d as [|[k' v] d IH]; simpl; [done|].
  destruct (String.eqb k k') eqn:E; simpl; [done|]. by rewrite E.
Qed.

Lemma lookup_remove_key_ne (k k' : string) (d : dict) :
  k <> k' -> lookup_key k (remove_key k' d) = lookup_key k d.
Proof.
  intros Hne. induction d as [|[k2 v] d IH]; simpl; [done|].
  destruct (String.eqb k' k2) eqn:E; simpl.
  - apply String.eqb_eq in E. subst k2.
    by rewrite (proj2 (String.eqb_neq k k') Hne).
  - by rewrite IH.
Qed.

Lemma remove_key_idemp (k : string) (d : dict) :
  remove_key k (remove_key k d) = remove_key k d.
Proof.
  induction d as [|[k' v] d IH]; simpl; [done|].
  destruct (String.eqb k k') eqn:E; simpl; [done|]. by rewrite E, IH.
Qed.

Lemma lookup_set_key_eq (k : string) (v : value) (d : dict) :
  lookup_key k (set_key k v d) = Some v.
Proof.
  induction d as [|[k' v'] d IH]; simpl.
  - by rewrite String.eqb_refl.
  - destruct (String.eqb k k') eqn:E; simpl.
    + by rewrite String.eqb_refl.
    + by rewrite E.
Qed.

Lemma lookup_set_key_ne (k k' : string) (v : value) (d : dict) :
  k <> k' -> lookup_key k (set_key k' v d) = lookup_key k d.
Proof.
  intros Hne. apply String.eqb_neq in Hne.
  induction d as [|[k2 v2] d IH]; simpl.
  - by rewrite Hne.
  - destruct (String.eqb k' k2) eqn:E; simpl.
    + apply String.eqb_eq in E. subst k2. by rewrite Hne.
    + by rewrite IH.
Qed.

Lemma lookup_update_other (k : string) (d u : dict) :
  k ∉ map fst u -> lookup_key k (update d u) = lookup_key k d.
Proof.
  unfold update. revert d.
  induction u as [|[k' v] u IH]; intros d Hk; simpl; [done|].
  rewrite IH by (intros ?; apply Hk; simpl; by right).
  apply lookup_set_key_ne. intros ->. apply Hk. simpl. by left.
Qed.

Lemma variant_fields_keys (var : value) (fields : dict) :
  variant_fields var = Ok fields -> map fst fields = variant_keys.
Proof.
  unfold variant_fields. intros H. do 5 bind_inv H. by injection H as <-.
Qed.

Lemma variant_fields_dict (v : dict) : exists fields, variant_fields (VDict v) = Ok fields.
Proof. unfold variant_fields. simpl. eauto. Qed.

(** ** Flattening: what the heap looks like afterwards *)

(** The inner loop leaves every existing object alone and returns one
    new object per variant. *)
Lemma flatten_variants_spec (d : dict) (variants : list value) :
  forall (h h' : gmap nat dict) (r : result (list nat)),
    flatten_variants d variants h = (h', r) ->
    (forall l, l ∈ dom h -> h' !! l = h !! l) /\
    (forall rows, r = Ok rows ->
       length rows = length variants /\
       NoDup rows /\
       Forall (fun row =>
                 (row ∉ dom h) /\
                 exists fields,
                   map fst fields = variant_keys /\
                   h' !! row = Some (update d fields)) rows).
Proof.
  induction variants as [|var variants IH]; intros h h' r; simpl.
  - intros [= <- <-]. split; [done|]. intros rows [= <-].
    repeat split; constructor.
  - pose proof (is_fresh (dom h)) as Hfresh.
    set (row := fresh (dom h)) in *.
    destruct (variant_fields var) as [fields|e] eqn:Hf.
    + destruct (flatten_variants d variants
                  (<[row:=update d fields]> (<[row:=d]> h))) as [h3 r3] eqn:Hrec.
      intros [= <- <-].
      destruct (IH _ _ _ Hrec) as [Hframe Hrows].
      assert (Hrow : h3 !! row = Some (update d fields)).
      { rewrite Hframe; [apply lookup_insert_eq|].
        apply elem_of_dom. rewrite lookup_insert_eq. eauto. }
      split.
      * intros l Hl. assert (l <> row) by (intros ->; done).
        rewrite Hframe.
        -- by rewrite !lookup_insert_ne.
        -- apply elem_of_dom. rewrite !lookup_insert_ne by done.
           by apply elem_of_dom.
      * intros rows Hr. destruct r3 as [rows3|]; [|discriminate].
        simpl in Hr. injection Hr as <-.
        destruct (Hrows rows3 eq_refl) as (Hlen & Hnd & Hall).
        assert (Hnotin : row ∉ rows3).
        { intros Hin. rewrite Forall_forall in Hall.
          destruct (Hall _ Hin) as [Hn _]. apply Hn.
          apply elem_of_dom. rewrite lookup_insert_eq. eauto. }
        split; [simpl; by rewrite Hlen|].
        split; [by apply NoDup_cons|].
        constructor.
        -- split; [done|]. exists fields.
           split; [by eapply variant_fields_keys|done].
        -- eapply Forall_impl; [exact Hall|].
           intros row' [Hn Hex]. split; [|done].
           intros Hin. apply Hn. apply elem_of_dom.
           destruct (decide (row' = row)) as [->|Hne].
           ++ rewrite lookup_insert_eq. eauto.
           ++ rewrite !lookup_insert_ne by done. by apply elem_of_dom.
    + intros [= <- <-]. split; [|discriminate].
      intros l Hl. apply lookup_insert_ne. intros <-. done.
Qed.

Lemma flatten_variants_succeeds (d : dict) (variants : list value) :
  forallb is_dict variants = true ->
  forall h : gmap nat dict,
    exists h' rows, flatten_variants d variants h = (h', Ok rows).
Proof.
  induction variants as [|var variants IH]; simpl; intros Hv h; [eauto|].
  apply andb_true_iff in Hv as [Hvar Hv].
  destruct var; try discriminate.
  destruct (variant_fields_dict d0) as [fields ->].
  edestruct (IH Hv) as (h' & rows & ->). simpl. eauto.
Qed.

(** The body of the outer loop: the record at [item] loses "variants"
    and nothing else, no other existing object changes, and the rows are
    new objects that copy the record and add the five variant columns. *)
Lemma flatten_item_spec (item : nat) (h h' : gmap nat dict) (d0 : dict)
    (r : result (list nat)) :
  h !! item = Some d0 ->
  flatten_item item h = (h', r) ->
  h' !! item = Some (remove_key "variants" d0) /\
  (forall l, l ∈ dom h -> l <> item -> h' !! l = h !! l) /\
  (forall rows, r = Ok rows ->
     NoDup rows /\
     Forall (fun row =>
               (row ∉ dom h) /\
               exists fields,
                 map fst fields = variant_keys /\
                 h' !! row = Some (update (remove_key "variants" d0) fields))
            rows).
Proof.
  intros Hitem. unfold flatten_item. rewrite Hitem.
  set (d := remove_key "variants" d0).
  set (h1 := <[item:=d]> h).
  assert (Hdom : dom h1 = dom h).
  { unfold h1. rewrite dom_insert_L.
    apply subseteq_union_1_L, singleton_subseteq_l, elem_of_dom. eauto. }
  assert (H1 : h1 !! item = Some d) by apply lookup_insert_eq.
  assert (Hother : forall l, l <> item -> h1 !! l = h !! l)
    by (intros l Hl; by apply lookup_insert_ne).
  destruct (truthy _).
  - destruct (py_iter _) as [vars|e].
    + intros Hfl. destruct (flatten_variants_spec _ _ _ _ _ Hfl) as [Hframe Hrows].
      rewrite Hdom in Hframe. split; [|split].
      * rewrite Hframe; [done|]. apply elem_of_dom. eauto.
      * intros l Hl Hne. rewrite Hframe by done. by apply Hother.
      * intros rows Hr. destruct (Hrows rows Hr) as (_ & Hnd & Hall).
        split; [done|]. by rewrite Hdom in Hall.
    + intros [= <- <-]. repeat split; try done. intros; by apply Hother.
  - pose proof (is_fresh (dom h1)) as Hfresh. simpl.
    set (row := fresh (dom h1)) in *.
    intros [= <- <-].
    assert (row <> item).
    { intros Heq. apply Hfresh. rewrite Heq. apply elem_of_dom. eauto. }
    split; [|split].
    + by rewrite !lookup_insert_ne.
    + intros l Hl Hne.
      assert (l <> row) by (intros ->; apply Hfresh; by rewrite Hdom).
      rewrite !lookup_insert_ne by done. by apply Hother.
    + intros rows [= <-]. split.
      * apply NoDup_singleton.
      * constructor; [|constructor]. split; [by rewrite <- Hdom|].
        exists empty_variant_fields. split; [done|]. apply lookup_insert_eq.
Qed.

Lemma flatten_item_dom (item : nat) (h h' : gmap nat dict)
    (r : result (list nat)) :
  flatten_item item h = (h', r) -> dom h ⊆ dom h'.
Proof.
  intros Hfl. destruct (h !! item) as [d0|] eqn:Hitem.
  - destruct (flatten_item_spec _ _ _ _ _ Hitem Hfl) as (Hi & Hframe & _).
    intros l Hl. apply elem_of_dom.
    destruct (decide (l = item)) as [->|Hne]; [eauto|].
    rewrite Hframe by done. by apply elem_of_dom.
  - unfold flatten_item in Hfl. rewrite Hitem in Hfl.
    by injection Hfl as <- <-.
Qed.

Lemma flatten_item_absent (item : nat) (h h' : gmap nat dict)
    (r : result (list nat)) :
  h !! item = None -> flatten_item item h = (h', r) ->
  h' = h /\ r = Raise AttributeError.
Proof.
  intros Hitem. unfold flatten_item. rewrite Hitem. by intros [= <- <-].
Qed.

(** Existing objects that are not in [items] are not touched, whatever
    the outcome. *)
Lemma flatten_items_frame (items : list nat) :
  forall (h h' : gmap nat dict) (r : result (list nat)),
    flatten_items_with_variants items h = (h', r) ->
    (dom h ⊆ dom h') /\
    (forall l, l ∈ dom h -> l ∉ items -> h' !! l = h !! l).
Proof.
  induction items as [|item items IH]; intros h h' r; simpl.
  - by intros [= <- <-].
  - destruct (flatten_item item h) as [h1 r1] eqn:Hfl.
    pose proof (flatten_item_dom _ _ _ _ Hfl) as Hsub.
    assert (Hfr1 : forall l, l ∈ dom h -> l <> item -> h1 !! l = h !! l).
    { destruct (h !! item) as [d0|] eqn:Hitem.
      - by destruct (flatten_item_spec _ _ _ _ _ Hitem Hfl) as (_ & ? & _).
      - by destruct (flatten_item_absent _ _ _ _ Hitem Hfl) as [-> _]. }
    destruct r1 as [rows|e].
    + destruct (flatten_items_with_variants items h1) as [h2 r2] eqn:Hrec.
      intros [= <- <-]. destruct (IH _ _ _ Hrec) as [Hsub2 Hfr2].
      split; [by etrans|].
      intros l Hl Hnotin. apply not_elem_of_cons in Hnotin as [Hne Hnotin].
      rewrite Hfr2 by (try done; by apply Hsub). by apply Hfr1.
    + intros [= <- <-]. split; [done|].
      intros l Hl Hnotin. apply not_elem_of_cons in Hnotin as [Hne _].
      by apply Hfr1.
Qed.

Lemma lookup_update_in (k : string) (v : value) (u : dict) :
  NoDup (map fst u) -> (k, v) ∈ u ->
  forall d, lookup_key k (update d u) = Some v.
Proof.
  unfold update.
  induction u as [|[k' v'] u IH]; simpl; intros Hnd Hin d.
  - by apply elem_of_nil in Hin.
  - apply NoDup_cons in Hnd as [Hk' Hnd].
    apply elem_of_cons in Hin as [[= <- <-]|Hin].
    + fold (update (set_key k v d) u).
      rewrite lookup_update_other by done. apply lookup_set_key_eq.
    + by apply IH.
Qed.

Lemma empty_variant_fields_absent (d : dict) :
  Forall (fun k => lookup_key k (update d empty_variant_fields) = Some VNone)
         variant_keys.
Proof.
  assert (Hnd : NoDup (map fst empty_variant_fields)).
  { apply (bool_decide_unpack _). vm_compute. reflexivity. }
  repeat constructor;
    (apply lookup_update_in; [exact Hnd|]);
    unfold empty_variant_fields; set_solver.
Qed.

(** What a successful call leaves behind. *)
Lemma flatten_items_spec (items : list nat) :
  forall (h h' : gmap nat dict) (rows : list nat),
    (forall l, l ∈ items -> l ∈ dom h) ->
    flatten_items_with_variants items h = (h', Ok rows) ->
    (forall l d, l ∈ items -> h !! l = Some d ->
       h' !! l = Some (remove_key "variants" d)) /\
    NoDup rows /\
    Forall (fun row =>
              (row ∉ dom h) /\
              exists item d fields,
                item ∈ items /\ h !! item = Some d /\
                map fst fields = variant_keys /\
                h' !! row = Some (update (remove_key "variants" d) fields))
           rows.
Proof.
  induction items as [|item items IH]; intros h h' rows Hin; simpl.
  - intros [= <- <-]. split; [|split; constructor].
    intros l d Hl. by apply elem_of_nil in Hl.
  - destruct (flatten_item item h) as [h1 [rows1|e]] eqn:Hfl; [|discriminate].
    destruct (flatten_items_with_variants items h1) as [h2 [rows2|e]] eqn:Hrec;
      [|discriminate].
    intros [= <- <-].
    assert (Hitem : item ∈ dom h) by (apply Hin; left).
    apply elem_of_dom in Hitem as [d0 Hitem].
    destruct (flatten_item_spec _ _ _ _ _ Hitem Hfl) as (H1 & Hfr1 & Hrows1).
    destruct (Hrows1 _ eq_refl) as [Hnd1 Hall1].
    pose proof (flatten_item_dom _ _ _ _ Hfl) as Hsub.
    assert (Hin' : forall l, l ∈ items -> l ∈ dom h1)
      by (intros l Hl; apply Hsub, Hin; by right).
    destruct (IH _ _ _ Hin' Hrec) as (Hpop & Hnd2 & Hall2).
    destruct (flatten_items_frame _ _ _ _ Hrec) as [_ Hfr2].
    assert (Hh1 : forall l d, h !! l = Some d ->
              exists d1, h1 !! l = Some d1 /\
                         remove_key "variants" d1 = remove_key "variants" d).
    { intros l d Hl. destruct (decide (l = item)) as [->|Hne].
      - rewrite Hitem in Hl. injection Hl as <-.
        eexists. split; [exact H1|apply remove_key_idemp].
      - exists d. split; [|done]. rewrite Hfr1; [done| |done].
        apply elem_of_dom. eauto. }
    rewrite Forall_forall in Hall1, Hall2.
    split; [|split].
    + intros l d Hl Hd.
      destruct (decide (l ∈ items)) as [Hl'|Hl'].
      * destruct (Hh1 _ _ Hd) as (d1 & Hd1 & <-). by apply Hpop.
      * apply elem_of_cons in Hl as [->|]; [|done].
        rewrite Hitem in Hd. injection Hd as <-.
        rewrite Hfr2; [done| |done]. apply elem_of_dom. eauto.
    + apply NoDup_app. split; [done|]. split; [|done].
      intros row Hr1 Hr2.
      destruct (Hall1 _ Hr1) as (_ & fields & _ & Hrow).
      destruct (Hall2 _ Hr2) as [Hn _]. apply Hn. apply elem_of_dom. eauto.
    + apply Forall_app. split; apply Forall_forall.
      * intros row Hr1. destruct (Hall1 _ Hr1) as (Hn & fields & Hk & Hrow).
        split; [done|]. exists item, d0, fields.
        split; [left|]. split; [done|]. split; [done|].
        rewrite Hfr2; [done| |].
        -- apply elem_of_dom. eauto.
        -- intros Hri. apply Hn, Hin. by right.
      * intros row Hr2.
        destruct (Hall2 _ Hr2) as (Hn & item' & d1 & fields & Hi' & Hd1 & Hk & Hrow).
        split; [intros Hr; by apply Hn, Hsub|].
        assert (Hi : item' ∈ dom h) by (apply Hin; by right).
        apply elem_of_dom in Hi as [d Hd].
        destruct (Hh1 _ _ Hd) as (d1' & Hd1' & Heq).
        rewrite Hd1 in Hd1'. injection Hd1' as <-.
        exists item', d, fields. split; [by right|]. split; [done|].
        split; [done|]. by rewrite <- Heq.
Qed.

(** ** Flattening: how many rows *)

Lemma flatten_item_count (item : nat) (h : gmap nat dict) (d0 : dict) :
  h !! item = Some d0 ->
  well_formed_dish d0 = true ->
  exists h' rows,
    flatten_item item h = (h', Ok rows) /\
    length rows = Nat.max 1 (length (variants_of d0)) /\
    (variants_of d0 = [] ->
     exists row, rows = [row] /\
       h' !! row = Some (update (remove_key "variants" d0) empty_variant_fields)).
Proof.
  intros Hitem Hwf.
  assert (Hcases :
    (truthy (default (VList []) (lookup_key "variants" d0)) = false /\
     variants_of d0 = []) \/
    (exists v vs, default (VList []) (lookup_key "variants" d0) = VList (v :: vs) /\
                  variants_of d0 = v :: vs /\
                  forallb is_dict (v :: vs) = true)).
  { unfold well_formed_dish in Hwf. unfold variants_of.
    destruct (lookup_key "variants" d0) as [[| | | | |[|v vs]|]|];
      try discriminate; simpl; eauto 10. }
  unfold flatten_item. rewrite Hitem.
  destruct Hcases as [[Hfalse Hnil]|(v & vs & Hv & Hvs & Hdicts)].
  - rewrite Hfalse, Hnil. simpl.
    eexists _, _. split; [reflexivity|]. split; [done|].
    intros _. eexists. split; [reflexivity|]. apply lookup_insert_eq.
  - rewrite Hv, Hvs. cbn [truthy py_iter].
    edestruct (flatten_variants_succeeds (remove_key "variants" d0) (v :: vs) Hdicts)
      as (h' & rows & Hfl).
    rewrite Hfl. eexists _, _. split; [reflexivity|].
    destruct (flatten_variants_spec _ _ _ _ _ Hfl) as [_ Hrows].
    destruct (Hrows _ eq_refl) as (Hlen & _).
    split; [|discriminate]. rewrite Hlen. simpl. lia.
Qed.

Lemma variant_count_lookup (h : gmap nat dict) (l : nat) (d : dict) :
  h !! l = Some d -> variant_count h l = length (variants_of d).
Proof. unfold variant_count. by intros ->. Qed.

Lemma length_concat_sum {A : Type} (groups : list (list A)) :
  length (concat groups) = sum_list (map length groups).
Proof.
  induction groups as [|g groups IH]; simpl; [done|].
  by rewrite length_app, IH.
Qed.

(** Row groups, one per input record, in input order. *)
Lemma flatten_items_groups (items : list nat) :
  forall h : gmap nat dict,
    NoDup items ->
    (forall l, l ∈ items ->
       exists d, h !! l = Some d /\ well_formed_dish d = true) ->
    exists h' groups,
      flatten_items_with_variants items h = (h', Ok (concat groups)) /\
      map length groups
      = map (fun l => Nat.max 1 (variant_count h l)) items /\
      (forall i item, items !! i = Some item -> variant_count h item = 0%nat ->
         exists row drow,
           groups !! i = Some [row] /\ h' !! row = Some drow /\
           Forall (fun k => lookup_key k drow = Some VNone) variant_keys).
Proof.
  induction items as [|item items IH]; intros h Hnd Hwf.
  - exists h, []. simpl. split; [done|]. split; [done|].
    intros i item Hi. by rewrite lookup_nil in Hi.
  - apply NoDup_cons in Hnd as [Hnotin Hnd].
    destruct (Hwf item) as (d0 & Hitem & Hwf0); [left|].
    destruct (flatten_item_count _ _ _ Hitem Hwf0)
      as (h1 & rows1 & Hfl & Hlen & Hnone).
    destruct (flatten_item_spec _ _ _ _ _ Hitem Hfl) as (_ & Hfr1 & Hrows1).
    assert (Hsame : forall l, l ∈ items -> h1 !! l = h !! l).
    { intros l Hl. destruct (Hwf l) as (d & Hd & _); [by right|].
      apply Hfr1; [apply elem_of_dom; eauto|]. intros ->. done. }
    destruct (IH h1 Hnd) as (h2 & groups & Hrec & Hlens & Hnone2).
    { intros l Hl. rewrite Hsame by done. apply Hwf. by right. }
    destruct (flatten_items_frame _ _ _ _ Hrec) as [_ Hfr2].
    exists h2, (rows1 :: groups). simpl. rewrite Hfl, Hrec. simpl.
    split; [done|]. split.
    + f_equal.
      * by rewrite Hlen, (variant_count_lookup _ _ _ Hitem).
      * rewrite Hlens. apply map_ext_in. intros l Hl%list_elem_of_In.
        unfold variant_count. by rewrite Hsame.
    + intros [|i] item' Hi Hcount; simpl in Hi.
      * injection Hi as <-.
        rewrite (variant_count_lookup _ _ _ Hitem) in Hcount.
        apply length_zero_iff_nil in Hcount.
        destruct (Hnone Hcount) as (row & -> & Hrow).
        exists row, (update (remove_key "variants" d0) empty_variant_fields).
        split; [done|]. split.
        -- rewrite Hfr2; [exact Hrow| |].
           ++ apply elem_of_dom. eauto.
           ++ destruct (Hrows1 _ eq_refl) as [_ Hall].
              apply Forall_inv in Hall as [Hn _].
              intros Hin. destruct (Hwf row) as (d & Hd & _); [by right|].
              apply Hn, elem_of_dom. eauto.
        -- apply empty_variant_fields_absent.
      * assert (Hl : item' ∈ items) by (eapply list_elem_of_lookup_2; eauto).
        apply (Hnone2 i item' Hi).
        unfold variant_count in *. by rewrite Hsame.
Qed.

(** C5, the claim as stated fails when the list names one record twice:
    the first visit pops its two variants and gives two rows, the second
    visit finds none and gives one row, three rows where the sum over
    the input is four. *)
Lemma flatten_repeated_record_counted_once :
  (forall l, l ∈ [0; 0]%nat ->
     exists d, sample_heap !! l = Some d /\ well_formed_dish d = true) /\
  exists h' rows,
    flatten_items_with_variants [0; 0]%nat sample_heap = (h', Ok rows) /\
    length rows = 3%nat /\
    sum_list (map (fun l => Nat.max 1 (variant_count sample_heap l))
                  [0; 0]%nat) = 4%nat /\
    length rows
    <> sum_list (map (fun l => Nat.max 1 (variant_count sample_heap l))
                     [0; 0]%nat).
Proof.
  split.
  - intros l Hl. apply list_elem_of_In in Hl. simpl in Hl.
    destruct Hl as [<-|[<-|[]]]; eexists; split; vm_compute; reflexivity.
  - eexists _, _. split; [vm_compute; reflexivity|].
    split; [reflexivity|]. split; [vm_compute; reflexivity|].
    vm_compute. discriminate.
Qed.

(** C5 (amended): for a list of distinct dish records (no record object
    listed twice; each with no "variants" entry or with a list of variant
    mappings) flattening returns, and the number of rows is the sum over
    the input of max(1, number of variants); the rows come in one group
    per record, in order, with max(1, number of variants) rows in the
    group, and the single row of a record without variants has None in
    the five variant columns. *)
Theorem flatten_row_count (items : list nat) (h : gmap nat dict) :
  NoDup items ->
  (forall l, l ∈ items ->
     exists d, h !! l = Some d /\ well_formed_dish d = true) ->
  exists h' groups,
    flatten_items_with_variants items h = (h', Ok (concat groups)) /\
    length (concat groups)
    = sum_list (map (fun l => Nat.max 1 (variant_count h l)) items) /\
    map length groups
    = map (fun l => Nat.max 1 (variant_count h l)) items /\
    (forall i item, items !! i = Some item -> variant_count h item = 0%nat ->
       exists row drow,
         groups !! i = Some [row] /\ h' !! row = Some drow /\
         Forall (fun k => lookup_key k drow = Some VNone) variant_keys).
Proof.
  intros Hnd Hwf.
  destruct (flatten_items_groups items h Hnd Hwf)
    as (h' & groups & Hfl & Hlens & Hnone).
  exists h', groups. split; [done|]. split; [|done].
  by rewrite length_concat_sum, Hlens.
Qed.

(** The end-to-end scenario, continued: the dish without variants gives
    one row with the five variant columns set to None. *)
Example flatten_diner :
  exists h' row,
    flatten_items_with_variants [7%nat] {[7%nat := diner_burger_record]}
    = (h', Ok [row]) /\
    h' !! row
    = Some (remove_key "variants" diner_burger_record
              ++ empty_variant_fields)%list.
Proof. eexists _, _. split; vm_compute; reflexivity. Qed.

Lemma flatten_row_count_witness :
  NoDup [0; 1]%nat /\
  (forall l, l ∈ [0; 1]%nat ->
     exists d, sample_heap !! l = Some d /\ well_formed_dish d = true) /\
  exists h' groups,
    flatten_items_with_variants [0; 1]%nat sample_heap
    = (h', Ok (concat groups)) /\
    length (concat groups) = 3%nat.
Proof.
  assert (Hnd : NoDup [0; 1]%nat).
  { apply (bool_decide_unpack _). vm_compute. reflexivity. }
  assert (Hwf : forall l, l ∈ [0; 1]%nat ->
            exists d, sample_heap !! l = Some d /\ well_formed_dish d = true).
  { intros l Hl. apply list_elem_of_In in Hl. simpl in Hl.
    destruct Hl as [<-|[<-|[]]]; eexists; split; vm_compute; reflexivity. }
  split; [exact Hnd|]. split; [exact Hwf|].
  destruct (flatten_row_count [0; 1]%nat sample_heap Hnd Hwf)
    as (h' & groups & Hfl & Hlen & _).
  exists h', groups. split; [exact Hfl|]. rewrite Hlen. reflexivity.
Defined.

(** ** Flattening the records of a parse *)

Lemma new_objects_spec (records : list dict) :
  forall (h h' : gmap nat dict) (ls : list nat),
    new_objects records h = (ls, h') ->
    NoDup ls /\
    Forall2 (fun l d => h' !! l = Some d) ls records /\
    (forall l, l ∈ ls -> l ∉ dom h) /\
    (forall l, l ∈ dom h -> h' !! l = h !! l).
Proof.
  induction records as [|d records IH]; intros h h' ls; simpl.
  - intros [= <- <-]. repeat split; try constructor.
    intros l Hl. by apply elem_of_nil in Hl.
  - pose proof (is_fresh (dom h)) as Hfresh.
    set (l0 := fresh (dom h)) in *.
    destruct (new_objects records (<[l0:=d]> h)) as [ls' h2] eqn:Hrec.
    intros [= <- <-].
    destruct (IH _ _ _ Hrec) as (Hnd & Hall & Hnew & Hold).
    assert (Hl0 : l0 ∈ dom (<[l0:=d]> h))
      by (apply elem_of_dom; rewrite lookup_insert_eq; eauto).
    assert (Hsub : forall l, l ∈ dom h -> l ∈ dom (<[l0:=d]> h)).
    { intros l Hl. apply elem_of_dom.
      destruct (decide (l = l0)) as [->|Hne].
      - rewrite lookup_insert_eq. eauto.
      - rewrite lookup_insert_ne by done. by apply elem_of_dom. }
    split; [|split; [|split]].
    + apply NoDup_cons. split; [|done]. intros Hin. by apply (Hnew l0).
    + constructor; [|done]. rewrite Hold by done. apply lookup_insert_eq.
    + intros l [->|Hl]%elem_of_cons; [done|].
      intros Hin. by apply (Hnew l Hl), Hsub.
    + intros l Hl. rewrite Hold by (by apply Hsub).
      apply lookup_insert_ne. intros <-. done.
Qed.

(** Flattening the objects of any list of dish records returns
    sum of max(1, number of variants) rows. *)
Lemma flatten_new_objects (records : list dict) (h h1 : gmap nat dict)
    (items : list nat) :
  Forall (fun d => well_formed_dish d = true) records ->
  new_objects records h = (items, h1) ->
  exists h' rows,
    flatten_items_with_variants items h1 = (h', Ok rows) /\
    length rows
    = sum_list (map (fun d => Nat.max 1 (length (variants_of d))) records).
Proof.
  intros Hwf Hnew.
  destruct (new_objects_spec _ _ _ _ Hnew) as (Hnd & Hall & _ & _).
  assert (Hitems : forall l, l ∈ items ->
            exists d, h1 !! l = Some d /\ well_formed_dish d = true).
  { clear Hnd Hnew. induction Hall as [|l d ls ds Hl _ IH].
    - intros l Hl. by apply elem_of_nil in Hl.
    - apply Forall_cons in Hwf as [Hd Hwf].
      intros l' [->|Hl']%elem_of_cons; eauto. }
  destruct (flatten_items_groups items h1 Hnd Hitems)
    as (h' & groups & Hfl & Hlens & _).
  exists h', (concat groups). split; [done|].
  rewrite length_concat_sum, Hlens. f_equal.
  clear -Hall. induction Hall as [|l d ls ds Hl _ IH]; simpl; [done|].
  by rewrite IH, (variant_count_lookup _ _ _ Hl).
Qed.

(** The rows of a parsed menu: for every document, the records returned
    by [parse_menu_from_data], once flattened, give one row per variant
    and one row per dish without variants. *)
Lemma flatten_parsed_menu (data : value) (records : list dict)
    (h h1 : gmap nat dict) (items : list nat) :
  parse_menu_from_data data = Ok records ->
  new_objects records h = (items, h1) ->
  exists h' rows,
    flatten_items_with_variants items h1 = (h', Ok rows) /\
    length rows
    = sum_list (map (fun d => Nat.max 1 (length (variants_of d))) records).
Proof.
  intros Hparse. apply flatten_new_objects.
  apply Forall_forall. intros r Hr%list_elem_of_In.
  destruct (parse_menu_from_parse_item _ _ _ Hparse Hr)
    as (info & name & id & title & subzone & recs & Hp & Hin).
  pose proof (parse_item_well_formed _ _ _ _ _ _ Hp) as Hwf.
  rewrite Forall_forall in Hwf. apply Hwf. by apply list_elem_of_In.
Qed.

(** ** Flattening: the effect on the input records *)

Lemma well_formed_dish_remove (d : dict) :
  well_formed_dish (remove_key "variants" d) = true.
Proof. unfold well_formed_dish. by rewrite lookup_remove_key_eq. Qed.

Lemma flatten_items_succeeds (items : list nat) :
  forall h : gmap nat dict,
    (forall l, l ∈ items ->
       exists d, h !! l = Some d /\ well_formed_dish d = true) ->
    exists h' rows, flatten_items_with_variants items h = (h', Ok rows).
Proof.
  induction items as [|item items IH]; intros h Hwf; simpl; [eauto|].
  destruct (Hwf item) as (d0 & Hitem & Hwf0); [left|].
  destruct (flatten_item_count _ _ _ Hitem Hwf0) as (h1 & rows1 & Hfl & _).
  destruct (flatten_item_spec _ _ _ _ _ Hitem Hfl) as (H1 & Hfr1 & _).
  rewrite Hfl.
  destruct (IH h1) as (h2 & rows2 & ->); [|simpl; eauto].
  intros l Hl. destruct (decide (l = item)) as [->|Hne].
  - eexists. split; [exact H1|apply well_formed_dish_remove].
  - destruct (Hwf l) as (d & Hd & Hwfd); [by right|].
    exists d. split; [|done]. rewrite Hfr1; [done| |done].
    apply elem_of_dom. eauto.
Qed.

(** C9: on a list of dish records the call returns; it removes
    "variants" from every input record and changes no other field of it,
    changes no other existing object, and returns rows that are new,
    pairwise distinct objects: each row is a copy of an input record
    (without "variants") to which the five variant columns were added. *)
Theorem flatten_pops_variants_and_copies_rows
    (items : list nat) (h : gmap nat dict) :
  (forall l, l ∈ items ->
     exists d, h !! l = Some d /\ well_formed_dish d = true) ->
  exists h' rows,
    flatten_items_with_variants items h = (h', Ok rows) /\
    (forall l d, l ∈ items -> h !! l = Some d ->
       exists d', h' !! l = Some d' /\
                  lookup_key "variants" d' = None /\
                  forall k, k <> "variants" ->
                            lookup_key k d' = lookup_key k d) /\
    (forall l, l ∈ dom h -> l ∉ items -> h' !! l = h !! l) /\
    NoDup rows /\
    (forall row, row ∈ rows ->
       (row ∉ dom h) /\
       exists item d drow,
         item ∈ items /\ h !! item = Some d /\ h' !! row = Some drow /\
         lookup_key "variants" drow = None /\
         forall k, k ∉ variant_keys -> k <> "variants" ->
                   lookup_key k drow = lookup_key k d).
Proof.
  intros Hwf.
  destruct (flatten_items_succeeds items h Hwf) as (h' & rows & Hfl).
  exists h', rows. split; [exact Hfl|].
  assert (Hin : forall l, l ∈ items -> l ∈ dom h).
  { intros l Hl. destruct (Hwf l Hl) as (d & Hd & _).
    apply elem_of_dom. eauto. }
  destruct (flatten_items_spec _ _ _ _ Hin Hfl) as (Hpop & Hnd & Hall).
  destruct (flatten_items_frame _ _ _ _ Hfl) as [_ Hframe].
  split; [|split; [done|split; [done|]]].
  - intros l d Hl Hd. exists (remove_key "variants" d).
    split; [by apply Hpop|]. split; [apply lookup_remove_key_eq|].
    intros k Hk. by apply lookup_remove_key_ne.
  - intros row Hrow. rewrite Forall_forall in Hall.
    destruct (Hall _ Hrow) as (Hn & item & d & fields & Hi & Hd & Hk & Hr).
    split; [done|].
    exists item, d, (update (remove_key "variants" d) fields).
    split; [done|]. split; [done|]. split; [exact Hr|]. split.
    + rewrite lookup_update_other, lookup_remove_key_eq; [done|].
      rewrite Hk. apply (bool_decide_unpack _). vm_compute. reflexivity.
    + intros k Hk1 Hk2.
      rewrite lookup_update_other by (by rewrite Hk).
      by apply lookup_remove_key_ne.
Qed.

Lemma flatten_pops_variants_and_copies_rows_witness :
  (forall l, l ∈ [0; 1; 0]%nat ->
     exists d, sample_heap !! l = Some d /\ well_formed_dish d = true) /\
  exists h' rows,
    flatten_items_with_variants [0; 1; 0]%nat sample_heap = (h', Ok rows) /\
    (exists d', h' !! 0%nat = Some d' /\
                lookup_key "variants" d' = None /\
                forall k, k <> "variants" ->
                          lookup_key k d' = lookup_key k pizza_record) /\
    NoDup rows.
Proof.
  assert (Hwf : forall l, l ∈ [0; 1; 0]%nat ->
            exists d, sample_heap !! l = Some d /\ well_formed_dish d = true).
  { intros l Hl. apply list_elem_of_In in Hl. simpl in Hl.
    destruct Hl as [<-|[<-|[<-|[]]]]; eexists; split; vm_compute; reflexivity. }
  split; [exact Hwf|].
  destruct (flatten_pops_variants_and_copies_rows _ _ Hwf)
    as (h' & rows & Hfl & Hpop & _ & Hnd & _).
  exists h', rows. split; [exact Hfl|]. split; [|exact Hnd].
  apply (Hpop 0%nat pizza_record); [left | reflexivity].
Defined.

(** ** Reconciliation *)

Lemma filter_map {A B : Type} (P : B -> bool) (f : A -> B) (l : list A) :
  List.filter P (map f l) = map f (List.filter (fun x => P (f x)) l).
Proof.
  induction l as [|x l IH]; simpl; [done|].
  destruct (P (f x)); simpl; by rewrite IH.
Qed.

Lemma existsb_map {A B : Type} (P : B -> bool) (f : A -> B) (l : list A) :
  existsb P (map f l) = existsb (fun x => P (f x)) l.
Proof. induction l as [|x l IH]; simpl; [done|]. by rewrite IH. Qed.

Lemma existsb_pointwise {A : Type} (P Q : A -> bool) (l : list A) :
  (forall x, P x = Q x) -> existsb P l = existsb Q l.
Proof. intros H. induction l as [|x l IH]; simpl; [done|]. by rewrite H, IH. Qed.

Lemma remove_set_key (k : string) (v : value) (d : dict) :
  remove_key k (set_key k v d) = remove_key k d.
Proof.
  induction d as [|[k' v'] d IH]; simpl.
  - by rewrite String.eqb_refl.
  - destruct (String.eqb k k') eqn:E; simpl.
    + by rewrite String.eqb_refl.
    + by rewrite E, IH.
Qed.

Lemma stripped_cell_set_other (c k : string) (v : value) (d : dict) :
  c <> k -> stripped_cell c (set_key k v d) = stripped_cell c d.
Proof. intros Hne. unfold stripped_cell. by rewrite lookup_set_key_ne. Qed.

Lemma strip_column_Ok (c : string) (df : frame) :
  mem c (columns df) = true ->
  strip_column c df =
  Ok {| columns := columns df;
        rows := map (fun row => set_key c (VStr (stripped_cell c row)) row)
                    (rows df) |}.
Proof. unfold strip_column. by intros ->. Qed.

(** Both trimmed columns of a frame. *)
Lemma strip_title_code (df : frame) :
  mem "title" (columns df) = true ->
  mem "code" (columns df) = true ->
  strip_column "title" df ≫= strip_column "code" =
  Ok {| columns := columns df; rows := map normalize (rows df) |}.
Proof.
  intros Ht Hc. rewrite (strip_column_Ok _ _ Ht). simpl.
  rewrite strip_column_Ok by done. simpl. rewrite map_map.
  f_equal. f_equal. apply map_ext. intros o. unfold normalize.
  by rewrite stripped_cell_set_other.
Qed.

Lemma cell_eqb_normalize (r o : dict) :
  cell_eqb "title" (normalize r) (normalize o)
  && cell_eqb "code" (normalize r) (normalize o) = same_offer r o.
Proof.
  unfold cell_eqb, normalize, same_offer.
  rewrite !lookup_set_key_eq.
  rewrite !(lookup_set_key_ne "title" "code") by done.
  by rewrite !lookup_set_key_eq.
Qed.

Lemma matches_normalize (df : frame) (reference : list dict) (o : dict) :
  rows df = map normalize reference ->
  matches df (normalize o) = known reference o.
Proof.
  intros Hrows. unfold matches, known. rewrite Hrows, existsb_map.
  apply existsb_pointwise. intros r. apply cell_eqb_normalize.
Qed.

Lemma mem_union_keys_acc (k : string) (records : list dict) (acc : list string) :
  mem k acc = true ->
  mem k (fold_left
           (fun acc d =>
              fold_left (fun acc kv => if mem (fst kv) acc then acc
                                       else (acc ++ [fst kv])%list) d acc)
           records acc) = true.
Proof.
  revert acc. induction records as [|d records IH]; intros acc Hacc; [done|].
  simpl. apply IH. clear IH. revert acc Hacc.
  induction d as [|[k' v] d IHd]; intros acc Hacc; [done|].
  simpl. apply IHd. destruct (mem k' acc); [done|].
  unfold mem in *. rewrite existsb_app, Hacc. done.
Qed.

Lemma mem_keys_of_dict (k : string) (d : dict) (acc : list string) :
  has_key k d = true ->
  mem k (fold_left (fun acc kv => if mem (fst kv) acc then acc
                                  else (acc ++ [fst kv])%list) d acc) = true.
Proof.
  revert acc. induction d as [|[k' v] d IH]; intros acc; [done|].
  unfold has_key. simpl. destruct (String.eqb k k') eqn:E.
  - intros _. apply String.eqb_eq in E. subst k'.
    assert (Hin : mem k (if mem k acc then acc else (acc ++ [k])%list) = true).
    { destruct (mem k acc) eqn:Hm; [done|].
      unfold mem. rewrite existsb_app. simpl.
      by rewrite String.eqb_refl, orb_true_r. }
    revert Hin. generalize (if mem k acc then acc else (acc ++ [k])%list).
    clear. induction d as [|[k' v] d IHd]; intros acc Hacc; [done|].
    simpl. apply IHd. destruct (mem k' acc); [done|].
    unfold mem in *. by rewrite existsb_app, Hacc.
  - intros H. apply IH. exact H.
Qed.

Lemma mem_union_keys (k : string) (o : dict) (records : list dict) :
  has_key k o = true -> mem k (union_keys (o :: records)) = true.
Proof.
  intros Hk. unfold union_keys. simpl.
  apply mem_union_keys_acc. by apply mem_keys_of_dict.
Qed.

Lemma bind_Ok_l {A B : Type} (a : A) (f : A -> result B) : Ok a ≫= f = f a.
Proof. reflexivity. Qed.

(** The rows without a match, on normalised frames. *)
Lemma unmatched_records_normalized (cols cols' : list string)
    (reference scraped : list dict) :
  unmatched_records
    (add_match {| columns := cols; rows := map normalize reference |}
               {| columns := cols'; rows := map normalize scraped |}) =
  map (fun s => remove_key "match" (normalize s))
      (List.filter (fun s => negb (known reference s)) scraped).
Proof.
  unfold unmatched_records, add_match. cbn [rows].
  rewrite filter_map, map_map, filter_map, map_map.
  erewrite map_ext; [erewrite List.filter_ext; [reflexivity|]|].
  - intros s. cbn beta. rewrite lookup_set_key_eq.
    rewrite (matches_normalize _ reference) by done.
    by destruct (known _ s).
  - intros s. cbn beta. apply remove_set_key.
Qed.

(** The endpoint's comparison step in closed form. *)
Lemma compare_offers_mismatches (df_ref : frame) (o : dict) (scraped : list dict) :
  mem "title" (columns df_ref) = true ->
  mem "code" (columns df_ref) = true ->
  is_offer o = true ->
  compare_offers df_ref (o :: scraped) =
  Ok (mismatches_response
        (map (fun s => remove_key "match" (normalize s))
             (List.filter (fun s => negb (known (rows df_ref) s))
                          (o :: scraped)))).
Proof.
  intros Ht Hc [Hot Hoc]%andb_true_iff.
  unfold compare_offers.
  pose proof (strip_title_code df_ref Ht Hc) as Href.
  destruct (strip_column "title" df_ref) as [df1|]; [|done].
  change (strip_column "code" df1 = Ok {| columns := columns df_ref; rows := map normalize (rows df_ref) |}) in Href.
  rewrite bind_Ok_l, Href, bind_Ok_l.
  pose proof (mem_union_keys "title" o scraped Hot) as Hst.
  pose proof (mem_union_keys "code" o scraped Hoc) as Hsc.
  assert (Hne : empty (DataFrame (o :: scraped)) = false).
  { unfold empty. simpl.
    destruct (union_keys (o :: scraped)); [discriminate Hst|done]. }
  rewrite Hne.
  pose proof (strip_title_code (DataFrame (o :: scraped)) Hst Hsc) as Hscr.
  destruct (strip_column "title" (DataFrame (o :: scraped))) as [df2|]; [|done].
  change (strip_column "code" df2 = Ok {| columns := columns (DataFrame (o :: scraped)); rows := map normalize (rows (DataFrame (o :: scraped))) |}) in Hscr.
  rewrite bind_Ok_l, Hscr, bind_Ok_l.
  cbn [rows DataFrame]. by rewrite unmatched_records_normalized.
Qed.

Lemma compare_offers_empty (df_ref : frame) :
  mem "title" (columns df_ref) = true ->
  mem "code" (columns df_ref) = true ->
  compare_offers df_ref [] = Ok no_offers_response.
Proof.
  intros Ht Hc. unfold compare_offers.
  pose proof (strip_title_code df_ref Ht Hc) as Href.
  destruct (strip_column "title" df_ref) as [df1|]; [|done].
  change (strip_column "code" df1 = Ok {| columns := columns df_ref; rows := map normalize (rows df_ref) |}) in Href.
  by rewrite bind_Ok_l, Href, bind_Ok_l.
Qed.

Lemma known_self (o : dict) (reference : list dict) :
  In o reference -> known reference o = true.
Proof.
  intros Hin. unfold known. apply existsb_exists. exists o.
  split; [done|]. unfold same_offer. by rewrite !String.eqb_refl.
Qed.

Lemma filter_known_nil (reference offers : list dict) :
  (forall s, In s offers -> In s reference) ->
  List.filter (fun s => negb (known reference s)) offers = [].
Proof.
  induction offers as [|s offers IH]; intros Hsub; [done|]. simpl.
  rewrite known_self by (apply Hsub; by left). simpl.
  apply IH. intros s' Hs'. apply Hsub. by right.
Qed.

(** Reconciling a non-empty offer list against itself leaves nothing. *)
Lemma compare_offers_self (o : dict) (offers : list dict) :
  is_offer o = true ->
  compare_offers (DataFrame (o :: offers)) (o :: offers)
  = Ok (mismatches_response []).
Proof.
  intros Ho. pose proof Ho as [Hot Hoc]%andb_true_iff.
  rewrite compare_offers_mismatches;
    [|by apply mem_union_keys|by apply mem_union_keys|done].
  cbn [rows DataFrame]. by rewrite filter_known_nil.
Qed.

(** C7: for a non-empty list of scraped offers and a reference sheet
    with title and code columns, the comparison answers with the
    mismatches: the scraped offers, in scraped order, for which no
    reference offer has the same title and the same code once both are
    converted to strings and stripped of surrounding white space (an
    exact, case-sensitive comparison), each returned with its title and
    code in trimmed form and without the "match" marker. *)
Theorem compare_offers_returns_unknown_offers
    (df_ref : frame) (o : dict) (scraped : list dict) :
  mem "title" (columns df_ref) = true ->
  mem "code" (columns df_ref) = true ->
  is_offer o = true ->
  compare_offers df_ref (o :: scraped) =
  Ok (mismatches_response
        (map (fun s => remove_key "match" (normalize s))
             (List.filter (fun s => negb (known (rows df_ref) s))
                          (o :: scraped)))) /\
  (forall s,
     negb (known (rows df_ref) s) = true <->
     forall r, In r (rows df_ref) ->
       ~ (stripped_cell "title" r = stripped_cell "title" s /\
          stripped_cell "code" r = stripped_cell "code" s)) /\
  (forall s,
     lookup_key "match" (remove_key "match" (normalize s)) = None /\
     lookup_key "title" (remove_key "match" (normalize s))
     = Some (VStr (stripped_cell "title" s)) /\
     lookup_key "code" (remove_key "match" (normalize s))
     = Some (VStr (stripped_cell "code" s)) /\
     forall k, k <> "title" -> k <> "code" -> k <> "match" ->
       lookup_key k (remove_key "match" (normalize s)) = lookup_key k s).
Proof.
  intros Ht Hc Ho. split; [by apply compare_offers_mismatches|]. split.
  - intros s. rewrite negb_true_iff, <- not_true_iff_false.
    unfold known. rewrite existsb_exists. unfold same_offer. split.
    + intros Hno r Hr [H1 H2]. apply Hno. exists r. split; [done|].
      by rewrite H1, H2, !String.eqb_refl.
    + intros Hall (r & Hr & [H1 H2]%andb_true_iff).
      apply String.eqb_eq in H1, H2. by apply (Hall r Hr).
  - intros s. unfold normalize. split; [apply lookup_remove_key_eq|].
    split; [|split].
    + rewrite lookup_remove_key_ne, lookup_set_key_ne by done.
      apply lookup_set_key_eq.
    + rewrite lookup_remove_key_ne by done. apply lookup_set_key_eq.
    + intros k H1 H2 H3.
      by rewrite lookup_remove_key_ne, !lookup_set_key_ne.
Qed.

Lemma compare_offers_returns_unknown_offers_witness :
  mem "title" (columns reference_sheet) = true /\
  mem "code" (columns reference_sheet) = true /\
  is_offer scraped_half = true /\
  compare_offers reference_sheet [scraped_half; scraped_lower; scraped_free]
  = Ok (mismatches_response
          [[("res_id", VStr "Test Diner"); ("title", VStr "50% off");
            ("code", VStr "HALF")];
           [("res_id", VStr "Test Diner"); ("title", VStr "Free Delivery");
            ("code", VStr "")]]).
Proof.
  assert (Ht : mem "title" (columns reference_sheet) = true) by reflexivity.
  assert (Hc : mem "code" (columns reference_sheet) = true) by reflexivity.
  assert (Ho : is_offer scraped_half = true) by reflexivity.
  split; [exact Ht|]. split; [exact Hc|]. split; [exact Ho|].
  rewrite (proj1 (compare_offers_returns_unknown_offers
                    reference_sheet scraped_half
                    [scraped_lower; scraped_free] Ht Hc Ho)).
  vm_compute. reflexivity.
Defined.

(** C8: with nothing scraped the comparison answers with the error "No
    offers scraped" and status 404; with at least one scraped offer it
    answers with a list of mismatches and status 200, which is a
    different response also when the list is empty, as it is when every
    scraped offer is in the reference sheet. *)
Theorem no_offers_scraped_is_reported (df_ref : frame) :
  mem "title" (columns df_ref) = true ->
  mem "code" (columns df_ref) = true ->
  compare_offers df_ref [] = Ok no_offers_response /\
  (forall o scraped, is_offer o = true ->
     exists ms, compare_offers df_ref (o :: scraped)
                = Ok (mismatches_response ms)) /\
  (forall o scraped, is_offer o = true ->
     (forall s, In s (o :: scraped) -> known (rows df_ref) s = true) ->
     compare_offers df_ref (o :: scraped) = Ok (mismatches_response [])) /\
  (forall ms, mismatches_response ms <> no_offers_response).
Proof.
  intros Ht Hc. split; [by apply compare_offers_empty|]. split; [|split].
  - intros o scraped Ho. eexists. by apply compare_offers_mismatches.
  - intros o scraped Ho Hall. rewrite compare_offers_mismatches by done.
    replace (List.filter _ _) with (@nil dict); [done|].
    symmetry. revert Hall. generalize (o :: scraped). intros l Hall.
    induction l as [|s l IH]; [done|]. simpl.
    rewrite Hall by (by left). simpl. apply IH.
    intros s' Hs'. apply Hall. by right.
  - intros ms. unfold mismatches_response, no_offers_response. intros [=].
Qed.

Lemma no_offers_scraped_is_reported_witness :
  mem "title" (columns reference_sheet) = true /\
  mem "code" (columns reference_sheet) = true /\
  compare_offers reference_sheet [] = Ok no_offers_response /\
  compare_offers reference_sheet [scraped_half] = Ok (mismatches_response []).
Proof.
  assert (Ht : mem "title" (columns reference_sheet) = true) by reflexivity.
  assert (Hc : mem "code" (columns reference_sheet) = true) by reflexivity.
  split; [exact Ht|]. split; [exact Hc|].
  destruct (no_offers_scraped_is_reported reference_sheet Ht Hc)
    as (Hempty & _ & Hzero & _).
  split; [exact Hempty|].
  apply Hzero; [reflexivity|].
  intros s [<-|[]]. reflexivity.
Defined.

(** * Further properties of the parsers *)

(** ** [parse_item] on a mapping *)

Lemma raw_price_of_selected (d : dict) :
  raw_price_of (VDict d) = Ok (selected_price d).
Proof.
  unfold raw_price_of, selected_price, entry, get1, or_else, py_or. simpl.
  by destruct (truthy _).
Qed.

(** The record of a mapping node, entry by entry. *)
Lemma parse_item_dict (d : dict) (name id title subzone : value)
    (recs : list dict) :
  d <> [] ->
  parse_item (VDict d) name id title subzone = Ok recs ->
  exists q final variants,
    py_div (selected_price d) Q100 = Ok q /\
    (if truthy (entry "finalPrice" d)
     then q' ← py_div (entry "finalPrice" d) Q100; Ok (Some (round2 q'))
     else Ok None) = Ok final /\
    parse_variants (VDict d) = Ok variants /\
    recs =
      [[("res_id", id);
        ("restaurant", name);
        ("subzone", py_or subzone (VStr ""));
        ("category",
         if truthy title then title
         else default (VStr "") (lookup_key "category" d));
        ("dish_name", default (VStr "") (lookup_key "name" d));
        ("description",
         py_or (default (VStr "") (lookup_key "description" d)) (VStr ""));
        ("base_price", VFloat (round2 q));
        ("final_price", of_option final);
        ("flashSale",
         VStr (if flash_sale (round2 q) final then "ON" else "OFF"));
        ("inStock",
         VBool (truthy (default (VInt 0) (lookup_key "inStock" d))));
        ("image",
         if truthy (default VNone (lookup_key "imageId" d))
         then VStr (image_base
                    ++ py_str (default VNone (lookup_key "imageId" d)))
         else VNone);
        ("variants", VList variants)]].
Proof.
  intros Hd. unfold parse_item.
  assert (Ht : truthy (VDict d) = true) by (by destruct d).
  rewrite Ht. cbn [negb]. rewrite raw_price_of_selected.
  unfold get1, or_else. cbn [get].
  intros H. rewrite !bind_Ok_l in H.
  bind_inv_as H q Hq. rewrite bind_Ok_l in H.
  bind_inv_as H final Hfinal.
  assert (Hfinal' :
    (if truthy (entry "finalPrice" d)
     then q' ← py_div (entry "finalPrice" d) Q100; Ok (Some (round2 q'))
     else Ok None) = Ok final).
  { unfold entry. destruct (lookup_key "finalPrice" d); exact Hfinal. }
  rewrite bind_Ok_l in H. bind_inv_as H variants Hvariants.
  exists q, final, variants. repeat (split; [done|]).
  destruct (truthy title); cbn in H; by injection H as <-.
Qed.

(** X1: [parse_item] returns no record for an empty or absent node and
    exactly one record, with the twelve keys of a dish record in their
    fixed order, for every other node it accepts. *)
Theorem parse_item_one_record
    (info name id title subzone : value) (recs : list dict) :
  parse_item info name id title subzone = Ok recs ->
  (truthy info = false /\ recs = []) \/
  (truthy info = true /\ is_dict info = true /\
   exists r, recs = [r] /\ map fst r = dish_keys).
Proof.
  intros Hp. destruct (truthy info) eqn:Ht.
  - right. split; [done|].
    destruct (parse_item_record _ _ _ _ _ _ Hp Ht)
      as (price & base & hf & final & stock & vs & cat & nm & ds & img
          & _ & _ & _ & _ & Hstock & _ & ->).
    destruct (get_Ok _ _ _ _ Hstock) as [d ->].
    split; [done|]. eexists. split; reflexivity.
  - left. rewrite parse_item_falsy in Hp by done. by injection Hp as <-.
Qed.

Lemma parse_item_one_record_witness :
  parse_item burger VNone VNone (VStr "Mains") VNone = Ok [burger_record] /\
  map fst burger_record = dish_keys.
Proof.
  assert (Hp : parse_item burger VNone VNone (VStr "Mains") VNone
               = Ok [burger_record]) by (vm_compute; reflexivity).
  split; [exact Hp|].
  destruct (parse_item_one_record _ _ _ _ _ _ Hp)
    as [[Hf _]|(_ & _ & r & Hr & Hkeys)]; [discriminate Hf|].
  injection Hr as <-. exact Hkeys.
Defined.

(** X2: a non-empty node that is not a mapping (a string, a number, a
    list) makes [parse_item] raise [AttributeError]. *)
Theorem parse_item_rejects_non_mapping
    (info name id title subzone : value) :
  truthy info = true -> is_dict info = false ->
  parse_item info name id title subzone = Raise AttributeError.
Proof.
  intros Ht Hd. unfold parse_item. rewrite Ht. cbn [negb].
  destruct info; try discriminate Hd; reflexivity.
Qed.

Lemma parse_item_rejects_non_mapping_witness :
  parse_item (VStr "Burger") VNone VNone VNone VNone = Raise AttributeError.
Proof.
  apply parse_item_rejects_non_mapping; reflexivity.
Defined.

Lemma py_or_empty_string (v : value) :
  truthy (py_or v (VStr "")) = true \/ py_or v (VStr "") = VStr "".
Proof.
  unfold py_or. destruct (truthy v) eqn:E; [left; exact E | right; reflexivity].
Qed.

(** X3: the category of a dish is the title handed in by the caller when
    that title is truthy; otherwise it is the node's own "category" entry
    taken as it is (None if the entry is null), and the empty string only
    when the node has no such entry.  The description and the subzone
    are never None: a falsy value is replaced by the empty string. *)
Theorem parse_item_text_fields
    (d : dict) (name id title subzone : value) (r : dict) :
  d <> [] ->
  parse_item (VDict d) name id title subzone = Ok [r] ->
  (truthy title = true -> lookup_key "category" r = Some title) /\
  (truthy title = false ->
   lookup_key "category" r
   = Some (default (VStr "") (lookup_key "category" d))) /\
  (exists v, lookup_key "description" r = Some v /\
             (truthy v = true \/ v = VStr "")) /\
  (exists v, lookup_key "subzone" r = Some v /\
             (truthy v = true \/ v = VStr "")) /\
  lookup_key "dish_name" r = Some (default (VStr "") (lookup_key "name" d)).
Proof.
  intros Hd Hp.
  destruct (parse_item_dict _ _ _ _ _ _ Hd Hp)
    as (q & final & vs & _ & _ & _ & Hr).
  injection Hr as ->.
  split; [|split; [|split; [|split]]].
  - intros Ht.
    change (lookup_key "category" (_ :: _)) with
      (Some (if truthy title then title
             else default (VStr "") (lookup_key "category" d))).
    by rewrite Ht.
  - intros Ht.
    change (lookup_key "category" (_ :: _)) with
      (Some (if truthy title then title
             else default (VStr "") (lookup_key "category" d))).
    by rewrite Ht.
  - eexists. split; [reflexivity|]. apply py_or_empty_string.
  - eexists. split; [reflexivity|]. apply py_or_empty_string.
  - reflexivity.
Qed.

Lemma parse_item_text_fields_witness :
  parse_item soup_of_the_day (VStr "Test Diner") (VInt 7) (VStr "") VNone
  = Ok [soup_of_the_day_record] /\
  lookup_key "category" soup_of_the_day_record = Some VNone.
Proof.
  assert (Hd : [("name", VStr "Soup"); ("price", VInt 9000);
                ("category", VNone); ("description", VNone)] <> [])
    by discriminate.
  assert (Hp : parse_item soup_of_the_day (VStr "Test Diner") (VInt 7)
                 (VStr "") VNone = Ok [soup_of_the_day_record])
    by (vm_compute; reflexivity).
  split; [exact Hp|].
  destruct (parse_item_text_fields _ _ _ _ _ _ Hd Hp) as (_ & Hcat & _).
  exact (Hcat eq_refl).
Defined.

(** X4: the image of a dish is None when the node has no image id or a
    falsy one; otherwise it is the CDN address followed by the id as
    [str] prints it, which for a string id is the id itself. *)
Theorem parse_item_image
    (d : dict) (name id title subzone : value) (r : dict) :
  d <> [] ->
  parse_item (VDict d) name id title subzone = Ok [r] ->
  (truthy (entry "imageId" d) = false -> lookup_key "image" r = Some VNone) /\
  (truthy (entry "imageId" d) = true ->
   lookup_key "image" r
   = Some (VStr (image_base ++ py_str (entry "imageId" d)))) /\
  (forall s, lookup_key "imageId" d = Some (VStr s) -> s <> "" ->
   lookup_key "image" r = Some (VStr (image_base ++ s))).
Proof.
  intros Hd Hp.
  destruct (parse_item_dict _ _ _ _ _ _ Hd Hp)
    as (q & final & vs & _ & _ & _ & Hr).
  injection Hr as ->. unfold entry.
  split; [|split].
  - intros Ht.
    change (lookup_key "image" (_ :: _)) with
      (Some (if truthy (default VNone (lookup_key "imageId" d))
             then VStr (image_base
                        ++ py_str (default VNone (lookup_key "imageId" d)))
             else VNone)).
    by rewrite Ht.
  - intros Ht.
    change (lookup_key "image" (_ :: _)) with
      (Some (if truthy (default VNone (lookup_key "imageId" d))
             then VStr (image_base
                        ++ py_str (default VNone (lookup_key "imageId" d)))
             else VNone)).
    by rewrite Ht.
  - intros s Hs Hne.
    change (lookup_key "image" (_ :: _)) with
      (Some (if truthy (default VNone (lookup_key "imageId" d))
             then VStr (image_base
                        ++ py_str (default VNone (lookup_key "imageId" d)))
             else VNone)).
    rewrite Hs. simpl.
    destruct (String.eqb s "") eqn:E; [|reflexivity].
    by apply String.eqb_eq in E.
Qed.

Lemma parse_item_image_witness :
  parse_item (VDict [("name", VStr "Naan"); ("imageId", VStr "abc123")])
    VNone VNone VNone VNone
  = Ok [naan_record] /\
  lookup_key "image" naan_record
  = Some (VStr "https://media-assets.swiggy.com/swiggy/image/upload/abc123").
Proof.
  assert (Hd : [("name", VStr "Naan"); ("imageId", VStr "abc123")] <> [])
    by discriminate.
  assert (Hp : parse_item
                 (VDict [("name", VStr "Naan"); ("imageId", VStr "abc123")])
                 VNone VNone VNone VNone = Ok [naan_record])
    by (vm_compute; reflexivity).
  split; [exact Hp|].
  destruct (parse_item_image _ _ _ _ _ _ Hd Hp) as (_ & _ & Himg).
  apply (Himg "abc123"); [reflexivity | discriminate].
Defined.

(** ** Variants *)

Lemma parse_variation_record (group_name : value) (var : dict) :
  parse_variation group_name (VDict var) = Ok (variation_record group_name var).
Proof.
  destruct (parse_variation_dict group_name var) as (raw & Hraw & ->).
  rewrite raw_price_of_selected in Hraw. injection Hraw as <-.
  unfold variation_record, entry. by rewrite round2_whole.
Qed.

Lemma parse_variant_group_variations (vg : value) (l : list (value * dict)) :
  group_variations vg = Some l ->
  parse_variant_group vg
  = Ok (map (fun gv => variation_record (fst gv) (snd gv)) l).
Proof.
  destruct vg as [| | | | | |g]; try discriminate. simpl.
  unfold parse_variant_group, get1. cbn [get]. rewrite !bind_Ok_l.
  change (match lookup_key "name" g with Some v => v | None => VNone end)
    with (entry "name" g).
  change (match lookup_key "variations" g with
          | Some v => v | None => VList [] end)
    with (default (VList []) (lookup_key "variations" g)).
  destruct (default (VList []) (lookup_key "variations" g))
    as [| | | | |vars|]; try discriminate.
  cbn [py_iter]. rewrite bind_Ok_l. revert l.
  induction vars as [|var vars IH]; intros l.
  - intros [= <-]. reflexivity.
  - destruct var as [| | | | | |var]; try discriminate.
    destruct ((fix go (vars : list value) := _) vars) as [l'|] eqn:Hgo;
      [|discriminate].
    intros [= <-]. cbn [for_append map fst snd].
    rewrite parse_variation_record, bind_Ok_l, (IH l' eq_refl). reflexivity.
Qed.

Lemma for_append_groups (groups : list value) (l : list (value * dict)) :
  all_variations groups = Some l ->
  exists per_group,
    for_append parse_variant_group groups = Ok per_group /\
    concat per_group = map (fun gv => variation_record (fst gv) (snd gv)) l.
Proof.
  revert l. induction groups as [|vg groups IH]; intros l; simpl.
  - intros [= <-]. by exists [].
  - destruct (group_variations vg) as [l1|] eqn:H1; [|discriminate].
    destruct (all_variations groups) as [l2|]; [|discriminate].
    intros [= <-]. destruct (IH l2 eq_refl) as (pg & -> & Hc).
    rewrite (parse_variant_group_variations _ _ H1). simpl.
    eexists. split; [reflexivity|]. simpl. by rewrite Hc, map_app.
Qed.

Lemma parse_variants_variations (d : dict) (l : list (value * dict)) :
  variations_of d = Some l ->
  parse_variants (VDict d)
  = Ok (map (fun gv => variation_record (fst gv) (snd gv)) l).
Proof.
  unfold variations_of, parse_variants. cbn [get]. rewrite bind_Ok_l.
  change (match lookup_key "variantsV2" d with
          | Some v => v | None => VDict [] end)
    with (default (VDict []) (lookup_key "variantsV2" d)).
  destruct (default (VDict []) (lookup_key "variantsV2" d))
    as [| | | | | |v2]; try discriminate.
  cbn [get]. rewrite bind_Ok_l.
  change (match lookup_key "variantGroups" v2 with
          | Some v => v | None => VList [] end)
    with (default (VList []) (lookup_key "variantGroups" v2)).
  destruct (default (VList []) (lookup_key "variantGroups" v2))
    as [| | | | |groups|]; try discriminate.
  cbn [py_iter]. rewrite bind_Ok_l. intros Hall.
  destruct (for_append_groups _ _ Hall) as (pg & -> & Hc).
  by rewrite bind_Ok_l, Hc.
Qed.

(** X5: the variants of a dish are its variations in document order,
    group after group, one variant per variation, each carrying the name
    of its own group; a dish without a variant container has none. *)
Theorem variants_follow_document_order
    (d : dict) (name id title subzone : value) (recs : list dict)
    (l : list (value * dict)) :
  d <> [] ->
  variations_of d = Some l ->
  parse_item (VDict d) name id title subzone = Ok recs ->
  exists r,
    recs = [r] /\
    lookup_key "variants" r
    = Some (VList (map (fun gv => variation_record (fst gv) (snd gv)) l)) /\
    (lookup_key "variantsV2" d = None -> l = []).
Proof.
  intros Hd Hl Hp.
  destruct (parse_item_dict _ _ _ _ _ _ Hd Hp)
    as (q & final & vs & _ & _ & Hvs & ->).
  rewrite (parse_variants_variations _ _ Hl) in Hvs. injection Hvs as <-.
  eexists. split; [reflexivity|]. split; [reflexivity|].
  intros Hnone. unfold variations_of in Hl. rewrite Hnone in Hl.
  simpl in Hl. by injection Hl as <-.
Qed.

Lemma variants_follow_document_order_witness :
  exists r,
    parse_item pizza VNone VNone VNone VNone = Ok [r] /\
    lookup_key "variants" r
    = Some (VList
        [VDict [("variant_group", VStr "Size"); ("variant_name", VStr "S");
                ("variant_price_add", VFloat 0); ("variant_inStock", VNone);
                ("variant_isDefault", VInt 1);
                ("variant_isEnabled", VBool true)];
         VDict [("variant_group", VStr "Size"); ("variant_name", VStr "L");
                ("variant_price_add", VFloat 80); ("variant_inStock", VNone);
                ("variant_isDefault", VInt 0);
                ("variant_isEnabled", VBool true)];
         VDict [("variant_group", VStr "Crust"); ("variant_name", VStr "Thin");
                ("variant_price_add", VFloat 20); ("variant_inStock", VNone);
                ("variant_isDefault", VInt 0);
                ("variant_isEnabled", VBool false)]]).
Proof.
  assert (Hd : pizza_node <> []) by discriminate.
  assert (Hl : variations_of pizza_node = Some pizza_variations)
    by reflexivity.
  destruct (parse_item (VDict pizza_node) VNone VNone VNone VNone)
    as [recs|] eqn:Hp; [|vm_compute in Hp; discriminate Hp].
  destruct (variants_follow_document_order _ _ _ _ _ _ _ Hd Hl Hp)
    as (r & -> & Hv & _).
  exists r. split; [exact Hp|]. rewrite Hv. vm_compute. reflexivity.
Defined.

(** ** Which nodes [parse_item] accepts *)

Lemma py_div_number (v : value) (c : Q) :
  is_number v = true -> exists q, py_div v c = Ok q.
Proof. destruct v; try discriminate; intros _; unfold py_div; simpl; eauto. Qed.

Lemma py_div_not_number (v : value) (c : Q) :
  is_number v = false -> py_div v c = Raise TypeError.
Proof. by destruct v. Qed.

(** X6: [parse_item] returns a record for every non-empty mapping whose
    selected price is a number, whose final price is a number or falsy,
    and whose variant container is absent or built of mappings and
    lists, provided the integers it divides are integers a float can
    hold: the selected price, the final price and the coerced price of
    every variation. *)
Theorem parse_item_accepts_well_typed_node
    (d : dict) (name res_id title subzone : value)
    (l : list (value * dict)) :
  d <> [] ->
  priced d = true ->
  variations_of d = Some l ->
  operand_fits (selected_price d) = true ->
  operand_fits (entry "finalPrice" d) = true ->
  Forall (fun gv => fits_float (coerced_price (snd gv)) = true) l ->
  exists r, parse_item (VDict d) name res_id title subzone = Ok [r].
Proof.
  intros Hd [Hprice Hfinal]%andb_true_iff Hl _ _ _.
  unfold parse_item.
  assert (Ht : truthy (VDict d) = true) by (by destruct d).
  rewrite Ht. cbn [negb]. rewrite raw_price_of_selected.
  rewrite (parse_variants_variations _ _ Hl).
  destruct (py_div_number _ Q100 Hprice) as [q Hq].
  unfold get1, or_else. cbn [get]. rewrite !bind_Ok_l, Hq, bind_Ok_l.
  unfold entry in Hfinal.
  destruct (lookup_key "finalPrice" d) as [fp|]; simpl in Hfinal.
  - destruct (truthy fp) eqn:Hfp; simpl in Hfinal.
    + destruct (py_div_number _ Q100 Hfinal) as [q' Hq'].
      rewrite bind_Ok_l, Hfp, Hq'.
      destruct (truthy title); eexists; reflexivity.
    + rewrite bind_Ok_l, Hfp.
      destruct (truthy title); eexists; reflexivity.
  - destruct (truthy title); eexists; reflexivity.
Qed.

Lemma parse_item_accepts_well_typed_node_witness :
  exists r, parse_item pizza VNone VNone VNone VNone = Ok [r].
Proof.
  apply (parse_item_accepts_well_typed_node _ _ _ _ _ pizza_variations);
    [discriminate | reflexivity | reflexivity | reflexivity | reflexivity |].
  repeat constructor.
Defined.

(** X7: a dish whose selected price (the price, or the default price
    when the price is falsy) is not a number - a string, even a numeric
    one, a list, a mapping - makes [parse_item] raise [TypeError]. *)
Theorem parse_item_rejects_non_numeric_price
    (d : dict) (name id title subzone : value) :
  d <> [] ->
  is_number (selected_price d) = false ->
  parse_item (VDict d) name id title subzone = Raise TypeError.
Proof.
  intros Hd Hprice. unfold parse_item.
  assert (Ht : truthy (VDict d) = true) by (by destruct d).
  rewrite Ht. cbn [negb]. rewrite raw_price_of_selected.
  unfold get1. cbn [get]. rewrite !bind_Ok_l.
  by rewrite (py_div_not_number _ _ Hprice).
Qed.

Lemma parse_item_rejects_non_numeric_price_witness :
  parse_item (VDict [("name", VStr "Tea"); ("defaultPrice", VStr "250")])
    VNone VNone VNone VNone = Raise TypeError.
Proof.
  apply parse_item_rejects_non_numeric_price; [discriminate | reflexivity].
Defined.



(** X9: the base price of a dish is one hundredth of its selected
    price: of "price" when that is truthy, else of "defaultPrice", else
    0. *)
Theorem base_price_from_selected_price
    (d : dict) (name id title subzone : value) (r : dict) :
  d <> [] ->
  parse_item (VDict d) name id title subzone = Ok [r] ->
  (forall p, selected_price d = VInt p ->
     lookup_key "base_price" r = Some (VFloat (Qred (p # 100)))) /\
  (truthy (entry "price" d) = true -> selected_price d = entry "price" d) /\
  (truthy (entry "price" d) = false ->
   truthy (entry "defaultPrice" d) = true ->
   selected_price d = entry "defaultPrice" d) /\
  (truthy (entry "price" d) = false ->
   truthy (entry "defaultPrice" d) = false ->
   lookup_key "base_price" r = Some (VFloat 0)).
Proof.
  intros Hd Hp.
  destruct (parse_item_dict _ _ _ _ _ _ Hd Hp)
    as (q & final & vs & Hq & _ & _ & Hr).
  injection Hr as ->.
  change (lookup_key "base_price" (_ :: _)) with (Some (VFloat (round2 q))).
  assert (Hint : forall p, selected_price d = VInt p ->
            round2 q = Qred (p # 100)).
  { intros p Hsel. rewrite Hsel in Hq. unfold py_div in Hq. simpl in Hq.
    injection Hq as <-. apply round2_hundredths. }
  split; [|split; [|split]].
  - intros p Hsel. by rewrite (Hint p Hsel).
  - intros H1. unfold selected_price, py_or. by rewrite H1.
  - intros H1 H2. unfold selected_price, py_or. by rewrite H1, H2.
  - intros H1 H2. rewrite (Hint 0); [reflexivity|].
    unfold selected_price, py_or. by rewrite H1, H2.
Qed.

Lemma base_price_from_selected_price_witness :
  exists r,
    parse_item pizza VNone VNone VNone VNone = Ok [r] /\
    lookup_key "base_price" r = Some (VFloat 250).
Proof.
  assert (Hd : pizza_node <> []) by discriminate.
  destruct (parse_item (VDict pizza_node) VNone VNone VNone VNone)
    as [[|r [|]]|] eqn:Hp; try (vm_compute in Hp; discriminate Hp).
  exists r. split; [exact Hp|].
  destruct (base_price_from_selected_price _ _ _ _ _ _ Hd Hp) as (Hint & _).
  exact (Hint 25000 eq_refl).
Defined.

(** ** The restaurant of a document *)

Lemma first_match_Some {A : Type} (f : value -> result (option A))
    (cards : list value) (a : A) :
  first_match f cards = Some a ->
  exists before c after,
    cards = (before ++ c :: after)%list /\
    f c = Ok (Some a) /\
    Forall (fun c' => forall a', f c' <> Ok (Some a')) before.
Proof.
  induction cards as [|c cards IH]; simpl; [discriminate|].
  destruct (f c) as [[a'|]|e] eqn:Hc.
  - intros [= ->]. exists [], c, cards. repeat split; [done|constructor].
  - intros (before & c' & after & -> & Hc' & Hb)%IH.
    exists (c :: before), c', after. repeat split; [done|].
    constructor; [|done]. intros a'. by rewrite Hc.
  - intros (before & c' & after & -> & Hc' & Hb)%IH.
    exists (c :: before), c', after. repeat split; [done|].
    constructor; [|done]. intros a'. by rewrite Hc.
Qed.

Lemma restaurant_info_Some (c : value) (rst : restaurant) :
  restaurant_info c = Ok (Some rst) ->
  exists info,
    (cc ← card_card c; get1 cc "info") = Ok (VDict info) /\
    truthy (entry "name" info) = true /\
    restaurant_name rst = entry "name" info /\
    restaurant_id rst = entry "id" info /\
    subzone_name rst
    = py_or (entry "areaName" info)
        (py_or (entry "subzoneName" info) (VStr "")).
Proof.
  unfold restaurant_info. intros H.
  bind_inv_as H cc Hcc. bind_inv_as H info Hinfo.
  destruct (truthy info) eqn:Ht; [|discriminate H].
  bind_inv_as H nm Hnm. destruct (get_Ok _ _ _ _ Hnm) as [d ->].
  unfold get1 in Hnm. cbn [get] in Hnm. injection Hnm as <-.
  change (match lookup_key "name" d with Some v => v | None => VNone end)
    with (entry "name" d) in H.
  destruct (truthy (entry "name" d)) eqn:Hname; [|discriminate H].
  unfold subzone_of, get1, or_else in H. cbn [get] in H.
  rewrite !bind_Ok_l in H.
  exists d. rewrite Hcc, bind_Ok_l. split; [exact Hinfo|]. split; [done|].
  unfold entry, py_or.
  destruct (truthy (default VNone (lookup_key "areaName" d))) eqn:Ha.
  - change (match lookup_key "areaName" d with
            | Some v => v | None => VNone end)
      with (default VNone (lookup_key "areaName" d)) in H.
    rewrite Ha in H. by injection H as <-.
  - change (match lookup_key "areaName" d with
            | Some v => v | None => VNone end)
      with (default VNone (lookup_key "areaName" d)) in H.
    rewrite Ha in H. by injection H as <-.
Qed.

(** X10: all dishes of one document carry the same restaurant id, name
    and subzone: those of the first top-level card, in document order,
    whose card.card.info has a truthy name (the subzone being its area
    name, else its subzone name, else the empty string); when no card
    has one, the id and the name are None and the subzone is the empty
    string. *)
Theorem menu_records_share_restaurant (data : value) (items : list dict) :
  parse_menu_from_data data = Ok items ->
  (forall r, In r items ->
     lookup_key "res_id" r = Some (restaurant_id (restaurant_of data)) /\
     lookup_key "restaurant" r = Some (restaurant_name (restaurant_of data)) /\
     lookup_key "subzone" r
     = Some (py_or (subzone_name (restaurant_of data)) (VStr ""))) /\
  (restaurant_of data = no_restaurant \/
   exists before c after info,
     cards_of data = (before ++ c :: after)%list /\
     (cc ← card_card c; get1 cc "info") = Ok (VDict info) /\
     truthy (entry "name" info) = true /\
     Forall (fun c' => forall rst, restaurant_info c' <> Ok (Some rst))
            before /\
     restaurant_name (restaurant_of data) = entry "name" info /\
     restaurant_id (restaurant_of data) = entry "id" info /\
     subzone_name (restaurant_of data)
     = py_or (entry "areaName" info)
         (py_or (entry "subzoneName" info) (VStr ""))).
Proof.
  intros Hparse. split.
  - intros r Hin.
    assert (items = fst (parse_menu_body data)) as ->
      by (rewrite parse_menu_from_data_items in Hparse; congruence).
    rewrite parse_menu_body_cards in Hin. fold (restaurant_of data) in Hin.
    rewrite fst_lift_bind in Hin.
    destruct (py_iter _) as [gs|]; [|contradiction].
    apply In_for_each in Hin as (card & _ & Hc).
    apply menu_card_from_parse_item in Hc as (info & title & recs & Hp & Hr).
    destruct (truthy info) eqn:Ht.
    + destruct (parse_item_record _ _ _ _ _ _ Hp Ht)
        as (price & base & hf & final & stock & vs & cat & nm & ds & img
            & _ & _ & _ & _ & _ & _ & ->).
      destruct Hr as [<-|[]]. repeat split.
    + rewrite parse_item_falsy in Hp by done. injection Hp as <-.
      destruct Hr.
  - unfold restaurant_of.
    destruct (first_match restaurant_info (cards_of data)) as [rst|] eqn:Hm;
      [right|by left].
    destruct (first_match_Some _ _ _ Hm) as (before & c & after & Hc & Hrc & Hb).
    destruct (restaurant_info_Some _ _ Hrc) as (info & Hi & Hn & H1 & H2 & H3).
    exists before, c, after, info. simpl. auto 10.
Qed.

Lemma menu_records_share_restaurant_witness :
  parse_menu_from_data diner_document = Ok [diner_burger_record] /\
  lookup_key "res_id" diner_burger_record = Some (VStr "42") /\
  lookup_key "restaurant" diner_burger_record = Some (VStr "Test Diner").
Proof.
  assert (Hp : parse_menu_from_data diner_document = Ok [diner_burger_record])
    by (vm_compute; reflexivity).
  split; [exact Hp|].
  destruct (menu_records_share_restaurant _ _ Hp) as [Hall _].
  destruct (Hall diner_burger_record (or_introl eq_refl)) as (H1 & H2 & _).
  split; [exact H1 | exact H2].
Defined.

(** ** Top-level cards that carry nothing *)

Lemma first_match_app_skip {A : Type} (f : value -> result (option A))
    (before after : list value) (c : value) :
  (forall a, f c <> Ok (Some a)) ->
  first_match f (before ++ c :: after)%list
  = first_match f (before ++ after)%list.
Proof.
  intros Hc. induction before as [|b before IH]; simpl.
  - destruct (f c) as [[a|]|e]; [by destruct (Hc a)|done|done].
  - by rewrite IH.
Qed.

Lemma for_each_try_app_skip (body : value -> emitting unit)
    (before after : list value) (c : value) :
  fst (body c) = [] ->
  for_each_try body (before ++ c :: after)%list
  = for_each_try body (before ++ after)%list.
Proof.
  intros Hc. induction before as [|b before IH]; simpl.
  - by rewrite Hc.
  - by rewrite IH.
Qed.

Lemma cards_of_document (cards : list value) : cards_of (document cards) = cards.
Proof. reflexivity. Qed.

Lemma skipped_card_scans (c : value) :
  skipped_card c = true ->
  (forall rst, restaurant_info c <> Ok (Some rst)) /\
  (forall rst, offer_restaurant_info c <> Ok (Some rst)) /\
  (forall g, regular_cards c <> Ok (Some g)) /\
  (forall rst, fst (offer_card rst c) = []).
Proof.
  destruct c as [| | | | | |d];
    try (intros _; repeat split; intros; first [reflexivity | discriminate]).
  unfold skipped_card, has_key.
  destruct (lookup_key "card" d) eqn:Hcard; [discriminate|].
  destruct (lookup_key "groupedCard" d) eqn:Hg; [discriminate|].
  intros _.
  unfold restaurant_info, offer_restaurant_info, regular_cards, offer_card,
    card_card.
  cbn [get]. rewrite Hcard, Hg.
  repeat split; intros; first [reflexivity | discriminate].
Qed.

(** X11: a top-level card that is not a mapping, or a mapping with
    neither a "card" nor a "groupedCard" entry, changes nothing: both
    parsers return what they return for the document without it, wherever
    the card stands. *)
Theorem top_level_card_without_content_is_ignored
    (before after : list value) (c : value) :
  skipped_card c = true ->
  parse_menu_from_data (document (before ++ c :: after))
  = parse_menu_from_data (document (before ++ after)) /\
  extract_offers_from_data (document (before ++ c :: after))
  = extract_offers_from_data (document (before ++ after)).
Proof.
  intros Hc.
  destruct (skipped_card_scans c Hc) as (Hr & Ho & Hg & Hcard).
  split.
  - rewrite !parse_menu_from_data_items, !parse_menu_body_cards,
      !cards_of_document.
    by rewrite (first_match_app_skip _ _ _ _ Hr),
      (first_match_app_skip _ _ _ _ Hg).
  - rewrite !extract_offers_from_data_items, !extract_offers_body_cards,
      !cards_of_document.
    by rewrite (first_match_app_skip _ _ _ _ Ho),
      (for_each_try_app_skip _ _ _ _ (Hcard _)).
Qed.

Lemma top_level_card_without_content_is_ignored_witness :
  parse_menu_from_data
    (document [diner_card; VInt 5;
               VDict [("groupedCard", VDict [("cardGroupMap", VDict [("REGULAR",
                 VDict [("cards", VList [
                   categorized_card [category_node "Mains" [burger]]])])])])]])
  = Ok [diner_burger_record].
Proof.
  destruct (top_level_card_without_content_is_ignored [diner_card]
              [VDict [("groupedCard", VDict [("cardGroupMap", VDict [("REGULAR",
                 VDict [("cards", VList [
                   categorized_card [category_node "Mains" [burger]]])])])])]]
              (VInt 5) eq_refl) as [Hmenu _].
  simpl app in Hmenu. rewrite Hmenu. vm_compute. reflexivity.
Defined.

(** ** The offers of a document *)

Lemma offer_record_info (r : restaurant) (o : value) (info : dict) :
  offer_info o = Some info -> offer_record r o = ([offer_of r info], Ok tt).
Proof.
  destruct o as [| | | | | |od]; try discriminate. unfold offer_info.
  destruct (default (VDict []) (lookup_key "info" od)) as [| | | | | |i] eqn:Hi;
    try discriminate.
  intros [= ->]. unfold offer_record. cbn [get].
  change (match lookup_key "info" od with Some v => v | None => VDict [] end)
    with (default (VDict []) (lookup_key "info" od)).
  rewrite Hi. reflexivity.
Qed.

Lemma offer_record_no_info (r : restaurant) (o : value) :
  offer_info o = None -> fst (offer_record r o) = [] /\
                         exists e, snd (offer_record r o) = Raise e.
Proof.
  destruct o as [| | | | | |od]; try (intros _; split; [done|by eexists]).
  unfold offer_info, offer_record. cbn [get].
  change (match lookup_key "info" od with Some v => v | None => VDict [] end)
    with (default (VDict []) (lookup_key "info" od)).
  destruct (default (VDict []) (lookup_key "info" od)) as [| | | | | |i];
    try discriminate; intros _; (split; [done|by eexists]).
Qed.

Lemma for_each_offer_records (r : restaurant) (cands : list value) :
  fst (for_each (offer_record r) cands) = map (offer_of r) (leading_infos cands).
Proof.
  induction cands as [|o cands IH]; [done|].
  cbn [for_each leading_infos]. rewrite fst_bind.
  destruct (offer_info o) as [info|] eqn:Ho.
  - rewrite (offer_record_info r o info Ho). simpl. by rewrite IH.
  - destruct (offer_record_no_info r o Ho) as (-> & e & ->). done.
Qed.

Lemma offer_card_offers (r : restaurant) (card : value) :
  fst (offer_card r card) = card_offers r card.
Proof.
  unfold offer_card, card_offers. rewrite fst_lift_bind.
  fold (card_candidates card).
  destruct (card_candidates card) as [cands|e]; [|done].
  apply for_each_offer_records.
Qed.

Lemma for_each_try_concat (body : value -> emitting unit) (xs : list value) :
  for_each_try body xs = concat (map (fun x => fst (body x)) xs).
Proof. induction xs as [|x xs IH]; simpl; [done|]. by rewrite IH. Qed.

Lemma extract_offers_cards (data : value) :
  extract_offers_from_data data
  = Ok (concat (map (card_offers (offer_restaurant_of data)) (cards_of data))).
Proof.
  rewrite extract_offers_from_data_items, extract_offers_body_cards,
    for_each_try_concat.
  fold (offer_restaurant_of data). f_equal. f_equal.
  apply map_ext. intros c. apply offer_card_offers.
Qed.

Lemma offer_restaurant_info_spec (c : value) :
  offer_restaurant_info c
  = match restaurant_info c with
    | Ok o => Ok (option_map without_id o)
    | Raise e => Raise e
    end.
Proof.
  unfold offer_restaurant_info, restaurant_info.
  destruct (card_card c) as [cc|]; [|done]. rewrite !bind_Ok_l.
  destruct (get1 cc "info") as [info|]; [|done]. rewrite !bind_Ok_l.
  destruct (truthy info); [|done].
  destruct (get1 info "name") as [nm|] eqn:Hnm; [|done]. rewrite !bind_Ok_l.
  destruct (truthy nm); [|done].
  destruct (get_Ok _ _ _ _ Hnm) as [d ->].
  unfold get1. cbn [get]. rewrite !bind_Ok_l.
  by destruct (subzone_of (VDict d)).
Qed.

Lemma offer_restaurant_of_spec (data : value) :
  offer_restaurant_of data = without_id (restaurant_of data).
Proof.
  unfold offer_restaurant_of, restaurant_of.
  induction (cards_of data) as [|c cards IH]; [done|].
  simpl. rewrite offer_restaurant_info_spec.
  by destruct (restaurant_info c) as [[rst|]|e].
Qed.

Lemma py_or_truthy (v w : value) :
  truthy w = true -> truthy (py_or v w) = true.
Proof. intros Hw. unfold py_or. by destruct (truthy v) eqn:Hv. Qed.

(** X12: every offer record has the eight offer keys in their fixed
    order.  Its "res_id" is the restaurant name (not the restaurant id)
    that the dishes of the same document carry as "restaurant", or None
    when the document names no restaurant; its subzone is the subzone of
    those dishes.  The title and the image are never falsy ("Offer" and
    the placeholder logo stand in); the restaurant, the code, the
    description and the discount are truthy or the empty string. *)
Theorem offer_records_shape (data : value) (offers : list dict) (r : dict) :
  extract_offers_from_data data = Ok offers ->
  In r offers ->
  map fst r = offer_keys /\
  lookup_key "res_id" r = Some (restaurant_name (restaurant_of data)) /\
  lookup_key "subzone" r
  = Some (py_or (subzone_name (restaurant_of data)) (VStr "")) /\
  (exists t, lookup_key "title" r = Some t /\ truthy t = true) /\
  (exists i, lookup_key "image" r = Some i /\ truthy i = true) /\
  Forall (fun k => exists v, lookup_key k r = Some v /\
                             (truthy v = true \/ v = VStr ""))
         ["restaurant"; "code"; "description"; "discount"].
Proof.
  rewrite extract_offers_cards, offer_restaurant_of_spec.
  intros [= <-] Hin.
  apply in_concat in Hin as (l & Hl & Hin).
  apply in_map_iff in Hl as (card & <- & _).
  unfold card_offers in Hin.
  destruct (card_candidates card) as [cands|e]; [|destruct Hin].
  apply in_map_iff in Hin as (info & <- & _).
  split; [reflexivity|]. split; [reflexivity|]. split; [reflexivity|].
  split; [eexists; split; [reflexivity|by apply py_or_truthy]|].
  split; [eexists; split; [reflexivity|by apply py_or_truthy]|].
  repeat constructor; eexists; (split; [reflexivity|apply py_or_empty_string]).
Qed.

Lemma offer_records_shape_witness :
  extract_offers_from_data offers_document
  = Ok [offer_of diner [("header", VStr "50% OFF"); ("couponCode", VStr "HALF")];
        offer_of diner []] /\
  lookup_key "res_id"
    (offer_of diner [("header", VStr "50% OFF"); ("couponCode", VStr "HALF")])
  = Some (VStr "Test Diner").
Proof.
  assert (He : extract_offers_from_data offers_document
    = Ok [offer_of diner [("header", VStr "50% OFF");
                          ("couponCode", VStr "HALF")];
          offer_of diner []]) by (vm_compute; reflexivity).
  split; [exact He|].
  destruct (offer_records_shape _ _ _ He (or_introl eq_refl)) as (_ & Hid & _).
  exact Hid.
Defined.

(** X13: the offers of a document are the offers of its top-level cards,
    card after card.  A card adds one record per candidate offer, in the
    order grid offers, direct offers, nested offers, up to the first
    candidate that is not a mapping or whose info is not a mapping: the
    candidates after that one are lost, the records before it and the
    other cards are not.  A card whose probes raise adds nothing. *)
Theorem offers_of_a_card_end_at_first_malformed_offer (data : value) :
  extract_offers_from_data data
  = Ok (concat (map (card_offers (offer_restaurant_of data)) (cards_of data)))
  /\
  forall r card good bad rest,
    card_candidates card = Ok (good ++ bad :: rest)%list ->
    Forall (fun o => is_Some (offer_info o)) good ->
    offer_info bad = None ->
    card_offers r card = map (offer_of r) (leading_infos good) /\
    length (card_offers r card) = length good.
Proof.
  split; [apply extract_offers_cards|].
  intros r card good bad rest Hc Hgood Hbad.
  unfold card_offers. rewrite Hc.
  assert (Hl : leading_infos (good ++ bad :: rest) = leading_infos good).
  { clear Hc. induction Hgood as [|o good [info Ho] _ IH]; simpl.
    - by rewrite Hbad.
    - by rewrite Ho, IH. }
  rewrite Hl. split; [done|]. rewrite length_map.
  clear Hc Hl. induction Hgood as [|o good [info Ho] _ IH]; simpl; [done|].
  rewrite Ho. simpl. by rewrite IH.
Qed.

Lemma offers_of_a_card_end_at_first_malformed_offer_witness :
  card_offers diner
    (offers_card [offer_node "50% OFF" "HALF"; VInt 5; offer_node "Lost" "LOST"])
  = [offer_of diner [("header", VStr "50% OFF"); ("couponCode", VStr "HALF")]].
Proof.
  destruct (offers_of_a_card_end_at_first_malformed_offer (VDict []))
    as [_ Hcard].
  assert (Hgood : Forall (fun o => is_Some (offer_info o))
                         [offer_node "50% OFF" "HALF"]).
  { constructor; [|constructor]. eexists. reflexivity. }
  destruct (Hcard diner
              (offers_card [offer_node "50% OFF" "HALF"; VInt 5;
                            offer_node "Lost" "LOST"])
              [offer_node "50% OFF" "HALF"] (VInt 5)
              [offer_node "Lost" "LOST"] eq_refl Hgood eq_refl) as [Heq _].
  exact Heq.
Defined.

(** ** Flattening: what the rows hold *)

Lemma flatten_variants_rows (d : dict) (variants : list value) :
  forallb is_dict variants = true ->
  forall h : gmap nat dict,
    exists h' rows,
      flatten_variants d variants h = (h', Ok rows) /\
      Forall2 (fun row drow => h' !! row = Some drow) rows
        (map (fun var => update d (variant_fields_of var)) (dicts_of variants)).
Proof.
  induction variants as [|var variants IH]; intros Hv h.
  - exists h, []. split; [done|constructor].
  - apply andb_true_iff in Hv as [Hvar Hv].
    destruct var as [| | | | | |v]; try discriminate.
    cbn [flatten_variants alloc].
    change (variant_fields (VDict v)) with (Ok (variant_fields_of v)).
    cbv iota beta.
    set (row := fresh (dom h)).
    destruct (IH Hv (<[row := update d (variant_fields_of v)]> (<[row := d]> h)))
      as (h3 & rows & Hrec & Hall).
    rewrite Hrec. exists h3, (row :: rows). split; [done|].
    cbn [dicts_of omap list_omap map]. constructor; [|exact Hall].
    destruct (flatten_variants_spec _ _ _ _ _ Hrec) as [Hframe _].
    rewrite Hframe; [apply lookup_insert_eq|].
    apply elem_of_dom. rewrite lookup_insert_eq. eauto.
Qed.

Lemma flatten_item_rows (item : nat) (h : gmap nat dict) (d0 : dict) :
  h !! item = Some d0 ->
  well_formed_dish d0 = true ->
  exists h' rows,
    flatten_item item h = (h', Ok rows) /\
    Forall2 (fun row drow => h' !! row = Some drow) rows (expected_rows d0).
Proof.
  intros Hitem Hwf.
  assert (Hcases :
    (truthy (default (VList []) (lookup_key "variants" d0)) = false /\
     variants_of d0 = []) \/
    (exists v vs, default (VList []) (lookup_key "variants" d0) = VList (v :: vs) /\
                  variants_of d0 = v :: vs /\
                  forallb is_dict (v :: vs) = true)).
  { unfold well_formed_dish in Hwf. unfold variants_of.
    destruct (lookup_key "variants" d0) as [[| | | | |[|v vs]|]|];
      try discriminate; simpl; eauto 10. }
  unfold flatten_item, expected_rows. rewrite Hitem.
  destruct Hcases as [[Hfalse Hnil]|(v & vs & Hv & Hvs & Hdicts)].
  - rewrite Hfalse, Hnil. simpl.
    eexists _, _. split; [reflexivity|].
    constructor; [apply lookup_insert_eq|constructor].
  - rewrite Hv, Hvs. cbn [truthy py_iter].
    destruct (flatten_variants_rows (remove_key "variants" d0) (v :: vs) Hdicts
                (<[item := remove_key "variants" d0]> h))
      as (h' & rows & Hfl & Hall).
    rewrite Hfl. by exists h', rows.
Qed.

Lemma Forall2_lookup_frame (h1 h2 : gmap nat dict) (rows : list nat)
    (drows : list dict) :
  Forall2 (fun row drow => h1 !! row = Some drow) rows drows ->
  (forall row, row ∈ rows -> h2 !! row = h1 !! row) ->
  Forall2 (fun row drow => h2 !! row = Some drow) rows drows.
Proof.
  induction 1 as [|row drow rows drows Hrow _ IH]; intros Hfr; constructor.
  - rewrite Hfr; [done|left].
  - apply IH. intros row' Hin. apply Hfr. by right.
Qed.

Lemma flatten_items_rows (items : list nat) :
  forall h : gmap nat dict,
    NoDup items ->
    (forall l, l ∈ items ->
       exists d, h !! l = Some d /\ well_formed_dish d = true) ->
    exists h' rows,
      flatten_items_with_variants items h = (h', Ok rows) /\
      Forall2 (fun row drow => h' !! row = Some drow) rows
        (concat (map (fun l => expected_rows (record_at h l)) items)).
Proof.
  induction items as [|item items IH]; intros h Hnd Hwf.
  - exists h, []. split; [done|constructor].
  - apply NoDup_cons in Hnd as [Hnotin Hnd].
    destruct (Hwf item) as (d0 & Hitem & Hwf0); [left|].
    destruct (flatten_item_rows _ _ _ Hitem Hwf0) as (h1 & rows1 & Hfl & Hall1).
    destruct (flatten_item_spec _ _ _ _ _ Hitem Hfl) as (_ & Hfr1 & Hrows1).
    destruct (Hrows1 _ eq_refl) as [_ Hnew].
    assert (Hsame : forall l, l ∈ items -> h1 !! l = h !! l).
    { intros l Hl. destruct (Hwf l) as (d & Hd & _); [by right|].
      apply Hfr1; [apply elem_of_dom; eauto|]. intros ->. done. }
    destruct (IH h1 Hnd) as (h2 & rows2 & Hrec & Hall2).
    { intros l Hl. rewrite Hsame by done. apply Hwf. by right. }
    destruct (flatten_items_frame _ _ _ _ Hrec) as [_ Hfr2].
    exists h2, (rows1 ++ rows2)%list.
    split; [simpl; by rewrite Hfl, Hrec|].
    change (Forall2 (fun row drow => h2 !! row = Some drow) (rows1 ++ rows2)
              (expected_rows (record_at h item)
               ++ concat (map (fun l => expected_rows (record_at h l))
                              items))).
    unfold record_at at 1. rewrite Hitem. apply Forall2_app.
    + apply (Forall2_lookup_frame h1); [exact Hall1|].
      intros row Hrow. rewrite Forall_forall in Hnew.
      destruct (Hnew _ Hrow) as (Hn & fields & _ & Hdrow).
      apply Hfr2; [apply elem_of_dom; eauto|].
      intros Hin. destruct (Hwf row) as (d & Hd & _); [by right|].
      apply Hn, elem_of_dom. eauto.
    + assert (Heq : map (fun l => expected_rows (record_at h l)) items
                    = map (fun l => expected_rows (record_at h1 l)) items).
      { apply map_ext_in. intros l Hl%list_elem_of_In.
        unfold record_at. by rewrite Hsame. }
      by rewrite Heq.
Qed.

Lemma variant_fields_of_keys (var : dict) :
  map fst (variant_fields_of var) = variant_keys.
Proof. reflexivity. Qed.

Lemma variant_keys_NoDup : NoDup variant_keys.
Proof. apply (bool_decide_unpack _). vm_compute. reflexivity. Qed.

(** X14: for a list of distinct, well-formed dish records, the rows
    returned by [flatten_items_with_variants] are, record after record
    in input order, one row per variant in the order of the variant list
    (or a single row for a record without variants).  The row of a
    variant copies the record without "variants" and sets the five
    variant columns to the variant's entries (None for an entry the
    variant lacks); "variant_isEnabled" is not among them, so a row
    carries it only if the dish record itself did. *)
Theorem flatten_rows_in_variant_order (items : list nat) (h : gmap nat dict) :
  NoDup items ->
  (forall l, l ∈ items ->
     exists d, h !! l = Some d /\ well_formed_dish d = true) ->
  (exists h' rows,
     flatten_items_with_variants items h = (h', Ok rows) /\
     Forall2 (fun row drow => h' !! row = Some drow) rows
       (concat (map (fun l => expected_rows (record_at h l)) items))) /\
  (forall d var,
     Forall (fun k => lookup_key k (variant_row d var) = Some (entry k var))
            variant_keys /\
     lookup_key "variants" (variant_row d var) = None /\
     forall k, k ∉ variant_keys -> k <> "variants" ->
               lookup_key k (variant_row d var) = lookup_key k d).
Proof.
  intros Hnd Hwf. split; [by apply flatten_items_rows|].
  intros d var. unfold variant_row. split; [|split].
  - pose proof variant_keys_NoDup as Hk.
    repeat constructor;
      (apply lookup_update_in; [exact Hk|]);
      unfold variant_fields_of;
      repeat (first [apply list_elem_of_here | apply list_elem_of_further]).
  - rewrite lookup_update_other; [apply lookup_remove_key_eq|].
    apply (bool_decide_unpack _). vm_compute. reflexivity.
  - intros k Hk Hne. rewrite lookup_update_other by exact Hk.
    by apply lookup_remove_key_ne.
Qed.

Lemma flatten_rows_in_variant_order_witness :
  exists h' r1 r2 r3,
    flatten_items_with_variants [0; 1]%nat sample_heap = (h', Ok [r1; r2; r3]) /\
    h' !! r1
    = Some [("dish_name", VStr "Pizza"); ("base_price", VFloat 250);
            ("variant_group", VStr "Size"); ("variant_name", VStr "S");
            ("variant_price_add", VFloat 0); ("variant_inStock", VNone);
            ("variant_isDefault", VNone)] /\
    h' !! r2
    = Some [("dish_name", VStr "Pizza"); ("base_price", VFloat 250);
            ("variant_group", VStr "Size"); ("variant_name", VStr "L");
            ("variant_price_add", VFloat 8000); ("variant_inStock", VNone);
            ("variant_isDefault", VNone)] /\
    h' !! r3 = Some (plain_row burger_record).
Proof.
  assert (Hnd : NoDup [0; 1]%nat)
    by (apply (bool_decide_unpack _); vm_compute; reflexivity).
  assert (Hwf : forall l, l ∈ [0; 1]%nat ->
            exists d, sample_heap !! l = Some d /\ well_formed_dish d = true).
  { intros l Hl. apply elem_of_cons in Hl as [->|Hl].
    - exists pizza_record. split; reflexivity.
    - apply elem_of_cons in Hl as [->|Hl].
      + exists burger_record. split; reflexivity.
      + by apply elem_of_nil in Hl. }
  destruct (flatten_rows_in_variant_order _ _ Hnd Hwf)
    as [(h' & rows & Hfl & Hall) _].
  change (concat _) with
    [[("dish_name", VStr "Pizza"); ("base_price", VFloat 250);
      ("variant_group", VStr "Size"); ("variant_name", VStr "S");
      ("variant_price_add", VFloat 0); ("variant_inStock", VNone);
      ("variant_isDefault", VNone)];
     [("dish_name", VStr "Pizza"); ("base_price", VFloat 250);
      ("variant_group", VStr "Size"); ("variant_name", VStr "L");
      ("variant_price_add", VFloat 8000); ("variant_inStock", VNone);
      ("variant_isDefault", VNone)];
     plain_row burger_record] in Hall.
  destruct rows as [|r1 [|r2 [|r3 [|r4 rows]]]];
    try (exfalso; apply Forall2_length in Hall; discriminate Hall).
  exists h', r1, r2, r3. split; [exact Hfl|].
  apply Forall2_cons_1 in Hall as [H1 Hall].
  apply Forall2_cons_1 in Hall as [H2 Hall].
  apply Forall2_cons_1 in Hall as [H3 _].
  auto.
Defined.

(** ** Flattening: failure, and a second call *)

Lemma flatten_variants_not_mapping (d : dict) (good : list dict) (bad : value)
    (rest : list value) :
  is_dict bad = false ->
  forall h : gmap nat dict,
    exists h',
      flatten_variants d (map VDict good ++ bad :: rest)%list h
      = (h', Raise AttributeError).
Proof.
  intros Hbad. induction good as [|v good IH]; intros h.
  - cbn [map app flatten_variants alloc].
    assert (Hf : variant_fields bad = Raise AttributeError)
      by (by destruct bad).
    rewrite Hf. eauto.
  - cbn [map app flatten_variants alloc].
    change (variant_fields (VDict v)) with (Ok (variant_fields_of v)).
    cbv iota beta.
    destruct (IH (<[fresh (dom h) := update d (variant_fields_of v)]>
                    (<[fresh (dom h) := d]> h))) as [h' ->].
    eauto.
Qed.

Lemma flatten_item_not_mapping (item : nat) (h : gmap nat dict) (d0 : dict)
    (good : list dict) (bad : value) (rest : list value) :
  h !! item = Some d0 ->
  lookup_key "variants" d0 = Some (VList (map VDict good ++ bad :: rest)) ->
  is_dict bad = false ->
  exists h', flatten_item item h = (h', Raise AttributeError).
Proof.
  intros Hitem Hv Hbad.
  destruct (flatten_variants_not_mapping (remove_key "variants" d0)
              good bad rest Hbad (<[item := remove_key "variants" d0]> h))
    as [h' Hfl].
  exists h'. unfold flatten_item. rewrite Hitem, Hv.
  change (default (VList []) (Some ?v)) with v.
  assert (Ht : truthy (VList (map VDict good ++ bad :: rest)) = true)
    by (by destruct good).
  rewrite Ht. cbn [py_iter]. exact Hfl.
Qed.

(** X15: when a record of the list has a variant list that holds
    something that is not a mapping, and the records before it are well
    formed, [flatten_items_with_variants] raises [AttributeError] at
    that record.  No rows are returned, not even those of the records
    before it; these records and the failing one have already lost
    their "variants" entry; every other existing object, the records
    after the failing one included, is unchanged. *)
Theorem flatten_failure_leaves_record_popped
    (before after : list nat) (item : nat) (h : gmap nat dict) (d0 : dict)
    (good : list dict) (bad : value) (rest : list value) :
  (forall l, l ∈ before ->
     exists d, h !! l = Some d /\ well_formed_dish d = true) ->
  h !! item = Some d0 ->
  lookup_key "variants" d0 = Some (VList (map VDict good ++ bad :: rest)) ->
  is_dict bad = false ->
  exists h',
    flatten_items_with_variants (before ++ item :: after)%list h
    = (h', Raise AttributeError) /\
    (forall l d, l ∈ (before ++ [item])%list -> h !! l = Some d ->
       h' !! l = Some (remove_key "variants" d)) /\
    (forall l, l ∈ dom h -> l ∉ before -> l <> item -> h' !! l = h !! l).
Proof.
  intros Hwf Hitem Hv Hbad.
  assert (Hnwf : well_formed_dish d0 = false).
  { unfold well_formed_dish. rewrite Hv, forallb_app. cbn [forallb].
    rewrite Hbad. by rewrite andb_false_r. }
  assert (Hnotin : item ∉ before).
  { intros Hin. destruct (Hwf item Hin) as (d & Hd & Hwfd).
    rewrite Hitem in Hd. injection Hd as <-. by rewrite Hnwf in Hwfd. }
  clear Hnwf. revert h Hwf Hitem.
  induction before as [|l before IH]; intros h Hwf Hitem.
  - destruct (flatten_item_not_mapping _ _ _ _ _ _ Hitem Hv Hbad)
      as [h' Hfi].
    destruct (flatten_item_spec _ _ _ _ _ Hitem Hfi) as (Hpop & Hframe & _).
    exists h'. cbn [app flatten_items_with_variants]. rewrite Hfi.
    split; [done|]. split.
    + intros x d Hx Hd. apply list_elem_of_singleton in Hx as ->.
      rewrite Hitem in Hd. by injection Hd as <-.
    + intros x Hx _ Hne. by apply Hframe.
  - apply not_elem_of_cons in Hnotin as [Hne Hnotin].
    destruct (Hwf l) as (dl & Hl & Hwfl); [left|].
    destruct (flatten_item_count _ _ _ Hl Hwfl) as (h1 & rows & Hfl & _).
    destruct (flatten_item_spec _ _ _ _ _ Hl Hfl) as (Hpop1 & Hfr1 & _).
    pose proof (flatten_item_dom _ _ _ _ Hfl) as Hsub.
    assert (Hitem1 : h1 !! item = Some d0).
    { rewrite Hfr1; [done|apply elem_of_dom; eauto|done]. }
    destruct (IH Hnotin h1) as (h' & Hrec & Hpop & Hframe); [|exact Hitem1|].
    { intros x Hx. destruct (decide (x = l)) as [->|Hxl].
      - eexists. split; [exact Hpop1|apply well_formed_dish_remove].
      - destruct (Hwf x) as (dx & Hdx & Hwfx); [by right|].
        exists dx. split; [|done].
        rewrite Hfr1; [done|apply elem_of_dom; eauto|done]. }
    exists h'. cbn [app flatten_items_with_variants].
    change ((fix app (l m : list nat) {struct l} : list nat :=
               match l with
               | [] => m
               | a :: l1 => a :: app l1 m
               end) before (item :: after))
      with (before ++ item :: after)%list.
    rewrite Hfl, Hrec. split; [done|]. split.
    + intros x d Hx Hd.
      destruct (decide (x ∈ (before ++ [item])%list)) as [Hin|Hout].
      * destruct (decide (x = l)) as [->|Hxl].
        -- rewrite Hl in Hd. injection Hd as <-.
           rewrite (Hpop l _ Hin Hpop1). by rewrite remove_key_idemp.
        -- apply Hpop; [done|].
           rewrite Hfr1; [done|apply elem_of_dom; eauto|done].
      * apply elem_of_cons in Hx as [->|Hx]; [|done].
        rewrite Hl in Hd. injection Hd as <-.
        apply not_elem_of_app in Hout as [Hob Hoi].
        rewrite Hframe; [exact Hpop1| |done|].
        -- apply elem_of_dom. eauto.
        -- intros ->. apply Hoi. by apply list_elem_of_singleton.
    + intros x Hx Hnb Hxi. apply not_elem_of_cons in Hnb as [Hxl Hnb].
      rewrite Hframe; [|by apply Hsub|done|done]. by apply Hfr1.
Qed.

Lemma flatten_failure_leaves_record_popped_witness :
  exists h',
    flatten_items_with_variants [0; 3; 4]%nat (<[0%nat := pizza_record]> broken_heap)
    = (h', Raise AttributeError) /\
    h' !! 0%nat = Some (remove_key "variants" pizza_record) /\
    h' !! 3%nat = Some [("dish_name", VStr "Pizza")] /\
    h' !! 4%nat = Some burger_record.
Proof.
  assert (Hwf : forall l, l ∈ [0%nat] ->
            exists d, (<[0%nat := pizza_record]> broken_heap) !! l = Some d /\
                      well_formed_dish d = true).
  { intros l Hl. apply list_elem_of_singleton in Hl as ->.
    exists pizza_record. split; reflexivity. }
  assert (Hitem : (<[0%nat := pizza_record]> broken_heap) !! 3%nat
                  = Some broken_record) by reflexivity.
  assert (Hv : lookup_key "variants" broken_record
               = Some (VList (map VDict [[("variant_name", VStr "S")]]
                              ++ VStr "L" :: [])))
    by reflexivity.
  destruct (flatten_failure_leaves_record_popped [0%nat] [4%nat] 3
              (<[0%nat := pizza_record]> broken_heap)
              broken_record [[("variant_name", VStr "S")]] (VStr "L") []
              Hwf Hitem Hv eq_refl) as (h' & Hfl & Hpop & Hframe).
  exists h'. split; [exact Hfl|]. split; [|split].
  - apply Hpop; [|reflexivity].
    apply (bool_decide_unpack _). vm_compute. reflexivity.
  - apply (Hpop 3%nat broken_record); [|reflexivity].
    apply (bool_decide_unpack _). vm_compute. reflexivity.
  - rewrite Hframe; [reflexivity| | |discriminate].
    + apply (bool_decide_unpack _). vm_compute. reflexivity.
    + apply (bool_decide_unpack _). vm_compute. reflexivity.
Defined.

Lemma flatten_item_popped (item : nat) (h : gmap nat dict) (d : dict) :
  h !! item = Some d ->
  lookup_key "variants" d = None ->
  exists h' row,
    flatten_item item h = (h', Ok [row]) /\
    (row ∉ dom h) /\
    h' !! item = Some (remove_key "variants" d) /\
    (forall l, l ∈ dom h -> l <> item -> h' !! l = h !! l).
Proof.
  intros Hitem Hnone.
  assert (Hwf : well_formed_dish d = true)
    by (unfold well_formed_dish; by rewrite Hnone).
  assert (Hvs : variants_of d = []) by (unfold variants_of; by rewrite Hnone).
  destruct (flatten_item_count _ _ _ Hitem Hwf) as (h' & rows & Hfl & _ & Hrow).
  destruct (Hrow Hvs) as (row & -> & _).
  destruct (flatten_item_spec _ _ _ _ _ Hitem Hfl) as (Hpop & Hframe & Hrows).
  destruct (Hrows _ eq_refl) as [_ Hnew].
  apply Forall_inv in Hnew as [Hn _].
  by exists h', row.
Qed.

Lemma flatten_popped_items (items : list nat) :
  forall h : gmap nat dict,
    (forall l, l ∈ items ->
       exists d, h !! l = Some d /\ lookup_key "variants" d = None) ->
    exists h' rows,
      flatten_items_with_variants items h = (h', Ok rows) /\
      length rows = length items.
Proof.
  induction items as [|item items IH]; intros h Hpopped.
  - by exists h, [].
  - destruct (Hpopped item) as (d & Hitem & Hnone); [left|].
    destruct (flatten_item_popped _ _ _ Hitem Hnone)
      as (h1 & row & Hfl & _ & Hpop & Hframe).
    destruct (IH h1) as (h2 & rows & Hrec & Hlen).
    { intros l Hl. destruct (decide (l = item)) as [->|Hne].
      - eexists. split; [exact Hpop|]. apply lookup_remove_key_eq.
      - destruct (Hpopped l) as (d' & Hl' & Hnone'); [by right|].
        exists d'. split; [|done]. rewrite Hframe; [done| |done].
        apply elem_of_dom. eauto. }
    exists h2, (row :: rows). simpl. rewrite Hfl, Hrec. simpl.
    split; [done|]. by rewrite Hlen.
Qed.

(** X16: flattening is not repeatable.  After a successful call the
    records of the list have no "variants" left, so a second call on the
    same list returns exactly one row per list entry, however many
    variants the dishes had. *)
Theorem flatten_again_gives_one_row_per_record
    (items : list nat) (h h1 : gmap nat dict) (rows : list nat) :
  (forall l, l ∈ items -> l ∈ dom h) ->
  flatten_items_with_variants items h = (h1, Ok rows) ->
  exists h2 rows2,
    flatten_items_with_variants items h1 = (h2, Ok rows2) /\
    length rows2 = length items.
Proof.
  intros Hdom Hfl. apply flatten_popped_items.
  destruct (flatten_items_spec _ _ _ _ Hdom Hfl) as (Hpop & _).
  intros l Hl. pose proof (Hdom l Hl) as [d Hd]%elem_of_dom.
  exists (remove_key "variants" d). split; [by apply Hpop|].
  apply lookup_remove_key_eq.
Qed.

Lemma flatten_again_gives_one_row_per_record_witness :
  exists h1 rows h2 rows2,
    flatten_items_with_variants [0; 1]%nat sample_heap = (h1, Ok rows) /\
    length rows = 3%nat /\
    flatten_items_with_variants [0; 1]%nat h1 = (h2, Ok rows2) /\
    length rows2 = 2%nat.
Proof.
  destruct (flatten_items_with_variants [0; 1]%nat sample_heap)
    as [h1 [rows|e]] eqn:Hfl; [|vm_compute in Hfl; discriminate Hfl].
  assert (Hdom : forall l, l ∈ [0; 1]%nat -> l ∈ dom sample_heap).
  { intros l Hl. apply elem_of_dom.
    apply elem_of_cons in Hl as [->|Hl]; [by eexists|].
    apply elem_of_cons in Hl as [->|Hl]; [by eexists|].
    by apply elem_of_nil in Hl. }
  destruct (flatten_again_gives_one_row_per_record _ _ _ _ Hdom Hfl)
    as (h2 & rows2 & Hfl2 & Hlen2).
  exists h1, rows, h2, rows2. split; [reflexivity|].
  split; [|split; [exact Hfl2 | exact Hlen2]].
  vm_compute in Hfl. injection Hfl as _ <-. reflexivity.
Defined.

(** ** Trimming *)

Lemma rstrip_idemp (s : string) : rstrip (rstrip s) = rstrip s.
Proof.
  induction s as [|c s IH]; [done|]. cbn [rstrip].
  destruct (rstrip s) as [|a r] eqn:Hr.
  - destruct (is_space c) eqn:Hc; [done|]. cbn [rstrip]. by rewrite Hc.
  - cbn [rstrip]. cbn [rstrip] in IH. by rewrite IH.
Qed.

Lemma lstrip_head (s : string) :
  lstrip s = EmptyString \/
  exists c t, lstrip s = String c t /\ is_space c = false.
Proof.
  induction s as [|c s IH]; [by left|]. cbn [lstrip].
  destruct (is_space c) eqn:Hc; [exact IH|]. right. by exists c, s.
Qed.

Lemma rstrip_head (c : ascii) (t : string) :
  is_space c = false -> exists r, rstrip (String c t) = String c r.
Proof.
  intros Hc. cbn [rstrip]. destruct (rstrip t); [rewrite Hc|]; eauto.
Qed.

Lemma strip_idemp (s : string) : strip (strip s) = strip s.
Proof.
  unfold strip.
  destruct (lstrip_head s) as [->|(c & t & -> & Hc)]; [done|].
  destruct (rstrip_head c t Hc) as [r Hr].
  assert (Hl : lstrip (rstrip (String c t)) = rstrip (String c t)).
  { rewrite Hr. cbn [lstrip]. by rewrite Hc. }
  by rewrite Hl, rstrip_idemp.
Qed.

(** The no-break space is white space: [strip] removes it, so a
    reference title that ends in one equals the scraped title without
    it, and [int] skips it; the separator 28 is white space for [strip]
    but not for [int]. *)
Example no_break_space_is_trimmed :
  strip ("50% OFF" ++ no_break_space) = "50% OFF" /\
  ids ("42" ++ no_break_space ++ ", 7") = ["42"; "7"] /\
  compare_offers
    {| columns := ["title"; "code"];
       rows := [[("title", VStr ("50% OFF" ++ no_break_space));
                 ("code", VStr "HALF")]] |}
    [scraped_half]
  = Ok (mismatches_response []) /\
  int_of_string (" 80" ++ no_break_space) = Ok 80 /\
  strip (String (ascii_of_nat 28) "80") = "80" /\
  int_of_string (String (ascii_of_nat 28) "80") = Raise ValueError.
Proof. repeat split; vm_compute; reflexivity. Qed.

(** ** The comparison: columns, and a second comparison *)

(** X17: a reference sheet without a "title" or without a "code" column
    makes the comparison raise [KeyError], whatever was scraped: the
    columns are normalised before the scraped offers are looked at, so
    not even the "No offers scraped" response is produced. *)
Theorem compare_offers_needs_title_and_code
    (df_ref : frame) (scraped_offers : list dict) :
  mem "title" (columns df_ref) && mem "code" (columns df_ref) = false ->
  compare_offers df_ref scraped_offers = Raise KeyError.
Proof.
  intros Hcols. unfold compare_offers.
  destruct (mem "title" (columns df_ref)) eqn:Ht.
  - rewrite (strip_column_Ok _ _ Ht), bind_Ok_l. simpl in Hcols.
    assert (Hcode : forall rs,
              strip_column "code" {| columns := columns df_ref; rows := rs |}
              = Raise KeyError)
      by (intros rs; unfold strip_column; cbn [columns]; by rewrite Hcols).
    by rewrite Hcode.
  - assert (Htitle : strip_column "title" df_ref = Raise KeyError)
      by (unfold strip_column; by rewrite Ht).
    by rewrite Htitle.
Qed.

Lemma compare_offers_needs_title_and_code_witness :
  compare_offers
    {| columns := ["Title"; "code"];
       rows := [[("Title", VStr "50% OFF"); ("code", VStr "HALF")]] |}
    [] = Raise KeyError.
Proof.
  apply compare_offers_needs_title_and_code. reflexivity.
Defined.

Lemma set_key_same (k : string) (v : value) (d : dict) :
  lookup_key k d = Some v -> set_key k v d = d.
Proof.
  induction d as [|[k' v'] d IH]; simpl; [discriminate|].
  destruct (String.eqb k k') eqn:E.
  - apply String.eqb_eq in E. by intros [= ->]; subst.
  - intros H. by rewrite IH.
Qed.

Lemma mismatch_lookup (c : string) (s : dict) :
  c = "title" \/ c = "code" ->
  lookup_key c (remove_key "match" (normalize s))
  = Some (VStr (stripped_cell c s)).
Proof.
  unfold normalize. intros [->| ->].
  - rewrite lookup_remove_key_ne by discriminate.
    rewrite lookup_set_key_ne by discriminate. apply lookup_set_key_eq.
  - rewrite lookup_remove_key_ne by discriminate.
    apply lookup_set_key_eq.
Qed.

Lemma mismatch_stripped_cell (c : string) (s : dict) :
  c = "title" \/ c = "code" ->
  stripped_cell c (remove_key "match" (normalize s)) = stripped_cell c s.
Proof.
  intros Hc. unfold stripped_cell at 1. rewrite (mismatch_lookup c s Hc).
  unfold stripped_cell. cbn [py_str].
  destruct (lookup_key c s); apply strip_idemp.
Qed.

Lemma mismatch_fixed (s : dict) :
  remove_key "match" (normalize (remove_key "match" (normalize s)))
  = remove_key "match" (normalize s).
Proof.
  set (m := remove_key "match" (normalize s)).
  assert (Hn : normalize m = m).
  { unfold normalize.
    assert (Ht : set_key "title" (VStr (stripped_cell "title" m)) m = m).
    { apply set_key_same. unfold m.
      rewrite mismatch_stripped_cell by (by left).
      apply mismatch_lookup. by left. }
    rewrite Ht. apply set_key_same. unfold m.
    rewrite mismatch_stripped_cell by (by right).
    apply mismatch_lookup. by right. }
  rewrite Hn. apply remove_key_idemp.
Qed.

Lemma mismatch_known (reference : list dict) (s : dict) :
  known reference (remove_key "match" (normalize s)) = known reference s.
Proof.
  unfold known. apply existsb_pointwise. intros r. unfold same_offer.
  by rewrite !mismatch_stripped_cell by auto.
Qed.

Lemma mismatch_is_offer (s : dict) :
  is_offer (remove_key "match" (normalize s)) = true.
Proof.
  unfold is_offer, has_key.
  by rewrite !mismatch_lookup by auto.
Qed.

Lemma mismatches_again (reference : list dict) (l : list dict) :
  Forall (fun s => known reference s = false) l ->
  map (fun s => remove_key "match" (normalize s))
    (List.filter (fun s => negb (known reference s))
       (map (fun s => remove_key "match" (normalize s)) l))
  = map (fun s => remove_key "match" (normalize s)) l.
Proof.
  induction 1 as [|s l Hs _ IH]; [done|].
  cbn [map List.filter]. rewrite mismatch_known, Hs. cbn [negb map].
  by rewrite mismatch_fixed, IH.
Qed.

(** X18: the mismatches are stable.  Comparing the reported mismatches
    against the same reference sheet reports all of them again, in the
    same order and unchanged; with no mismatch reported, the second
    comparison answers "No offers scraped". *)
Theorem reported_mismatches_are_stable
    (df_ref : frame) (o : dict) (scraped : list dict) (ms : list dict) :
  mem "title" (columns df_ref) = true ->
  mem "code" (columns df_ref) = true ->
  is_offer o = true ->
  compare_offers df_ref (o :: scraped) = Ok (mismatches_response ms) ->
  (ms <> [] -> compare_offers df_ref ms = Ok (mismatches_response ms)) /\
  (ms = [] -> compare_offers df_ref ms = Ok no_offers_response).
Proof.
  intros Ht Hc Ho Hcmp.
  rewrite (compare_offers_mismatches _ _ _ Ht Hc Ho) in Hcmp.
  remember (List.filter (fun s => negb (known (rows df_ref) s)) (o :: scraped))
    as l eqn:El.
  injection Hcmp as Hms.
  assert (Hinj : forall a b : list dict, map VDict a = map VDict b -> a = b).
  { induction a as [|x a IH]; intros [|y b]; simpl; try discriminate; [done|].
    intros [= -> Hab]. f_equal. by apply IH. }
  apply Hinj in Hms. subst ms.
  assert (Hl : Forall (fun s => known (rows df_ref) s = false) l).
  { apply Forall_forall. intros s Hs%list_elem_of_In. rewrite El in Hs.
    apply filter_In in Hs as [_ Hs]. by apply negb_true_iff in Hs. }
  clear El. split.
  - destruct l as [|s l']; [done|]. intros _. cbn [map].
    rewrite (compare_offers_mismatches _ _ _ Ht Hc (mismatch_is_offer s)).
    f_equal. f_equal.
    apply (mismatches_again (rows df_ref) (s :: l') Hl).
  - intros Hnil. rewrite Hnil. by apply compare_offers_empty.
Qed.

Lemma reported_mismatches_are_stable_witness :
  compare_offers reference_sheet [scraped_half; scraped_lower; scraped_free]
  = Ok (mismatches_response
          [[("res_id", VStr "Test Diner"); ("title", VStr "50% off");
            ("code", VStr "HALF")];
           [("res_id", VStr "Test Diner"); ("title", VStr "Free Delivery");
            ("code", VStr "")]]) /\
  compare_offers reference_sheet
    [[("res_id", VStr "Test Diner"); ("title", VStr "50% off");
      ("code", VStr "HALF")];
     [("res_id", VStr "Test Diner"); ("title", VStr "Free Delivery");
      ("code", VStr "")]]
  = Ok (mismatches_response
          [[("res_id", VStr "Test Diner"); ("title", VStr "50% off");
            ("code", VStr "HALF")];
           [("res_id", VStr "Test Diner"); ("title", VStr "Free Delivery");
            ("code", VStr "")]]).
Proof.
  assert (Hcmp :
    compare_offers reference_sheet [scraped_half; scraped_lower; scraped_free]
    = Ok (mismatches_response
            [[("res_id", VStr "Test Diner"); ("title", VStr "50% off");
              ("code", VStr "HALF")];
             [("res_id", VStr "Test Diner"); ("title", VStr "Free Delivery");
              ("code", VStr "")]])) by (vm_compute; reflexivity).
  split; [exact Hcmp|].
  destruct (reported_mismatches_are_stable reference_sheet scraped_half
              [scraped_lower; scraped_free] _ eq_refl eq_refl eq_refl Hcmp)
    as [Hstable _].
  apply Hstable. discriminate.
Defined.

(** * The endpoints *)

(** ** Restaurant ids *)

Lemma split_nonempty (sep : ascii) (s : string) : split sep s <> [].
Proof.
  destruct s as [|c s]; simpl; [discriminate|].
  destruct (Ascii.eqb c sep); [discriminate|].
  destruct (split sep s); discriminate.
Qed.

Lemma join_cons (sep x y : string) (l : list string) :
  join sep (x :: y :: l) = x ++ sep ++ join sep (y :: l).
Proof. reflexivity. Qed.

Lemma join_split (sep : ascii) (s : string) :
  join (String sep EmptyString) (split sep s) = s.
Proof.
  induction s as [|c s IH]; [done|]. cbn [split].
  pose proof (split_nonempty sep s) as Hne.
  destruct (Ascii.eqb c sep) eqn:Hc.
  - apply Ascii.eqb_eq in Hc. subst c.
    destruct (split sep s) as [|piece pieces]; [done|].
    rewrite join_cons, IH. reflexivity.
  - destruct (split sep s) as [|piece [|p pieces]]; [done| |].
    + simpl in *. by rewrite IH.
    + rewrite join_cons in *. rewrite <- IH. reflexivity.
Qed.

Lemma split_no_sep (sep : ascii) (s : string) :
  Forall (fun x => contains sep x = false) (split sep s).
Proof.
  induction s as [|c s IH]; [by repeat constructor|]. cbn [split].
  destruct (Ascii.eqb c sep) eqn:Hc; [by constructor|].
  destruct (split sep s) as [|piece pieces].
  - repeat constructor. simpl. by rewrite Hc.
  - apply Forall_cons in IH as [Hp Hps].
    constructor; [|done]. simpl. by rewrite Hc.
Qed.

Lemma split_app (sep : ascii) (a b : string) :
  split sep (a ++ String sep b) = (split sep a ++ split sep b)%list.
Proof.
  induction a as [|c a IH].
  - simpl. by rewrite Ascii.eqb_refl.
  - change (String c a ++ String sep b) with (String c (a ++ String sep b)).
    cbn [split]. rewrite IH.
    destruct (Ascii.eqb c sep); [done|].
    pose proof (split_nonempty sep a) as Hne.
    by destruct (split sep a).
Qed.

Lemma contains_lstrip (c : ascii) (s : string) :
  contains c s = false -> contains c (lstrip s) = false.
Proof.
  induction s as [|a s IH]; [done|]. cbn [lstrip].
  destruct (is_space a); [|done].
  simpl. intros [_ H]%orb_false_iff. by apply IH.
Qed.

Lemma contains_rstrip (c : ascii) (s : string) :
  contains c s = false -> contains c (rstrip s) = false.
Proof.
  induction s as [|a s IH]; [done|]. simpl.
  intros [Ha H]%orb_false_iff. specialize (IH H).
  destruct (rstrip s).
  - destruct (is_space a); [done|]. simpl. by rewrite Ha.
  - simpl in *. by rewrite Ha, IH.
Qed.

Lemma contains_strip (c : ascii) (s : string) :
  contains c s = false -> contains c (strip s) = false.
Proof. intros H. by apply contains_rstrip, contains_lstrip. Qed.

Lemma ids_app (a b : string) :
  ids (a ++ String comma b) = (ids a ++ ids b)%list.
Proof. unfold ids. by rewrite split_app, map_app, List.filter_app. Qed.

(** X19: the ids that [preview] and the [compare_offers] endpoint fetch
    are the comma-separated pieces of the query string, trimmed, without
    the pieces that are empty after trimming: no id is empty, carries
    white space at either end or contains a comma.  [download_excel]
    fetches the raw pieces instead: joined by commas they give back the
    query string, so blanks stay in the ids, an empty piece is an id of
    its own, and there is always at least one id. *)
Theorem ids_are_trimmed_download_ids_are_not (res_id : string) :
  Forall (fun x => x <> EmptyString /\ strip x = x /\ contains comma x = false)
         (ids res_id) /\
  ids res_id
  = List.filter (fun x => negb (String.eqb x EmptyString))
                (map strip (download_ids res_id)) /\
  join (String comma EmptyString) (download_ids res_id) = res_id /\
  download_ids res_id <> [] /\
  ids EmptyString = [] /\
  download_ids EmptyString = [EmptyString].
Proof.
  split; [|split; [done|split; [apply join_split|split;
    [apply split_nonempty|split; reflexivity]]]].
  apply Forall_forall. intros x Hx%list_elem_of_In.
  unfold ids in Hx. apply filter_In in Hx as [Hx Hne].
  apply in_map_iff in Hx as (p & <- & Hp).
  split; [|split].
  - intros Heq. rewrite Heq in Hne. discriminate Hne.
  - apply strip_idemp.
  - apply contains_strip.
    pose proof (split_no_sep comma res_id) as Hall.
    rewrite Forall_forall in Hall. by apply Hall, list_elem_of_In.
Qed.

(** ** Fetching *)

Lemma fetch_menu_for_resid_spec (requests_get : string -> option response)
    (rid : string) :
  fetch_menu_for_resid requests_get rid
  = match requests_get (menu_url rid) with
    | Some r =>
        Some (fst (parse_menu_body (safe_get_json r)),
              fst (extract_offers_body (safe_get_json r)))
    | None => None
    end.
Proof.
  unfold fetch_menu_for_resid. destruct (requests_get (menu_url rid)); [|done].
  by rewrite parse_menu_from_data_items, extract_offers_from_data_items.
Qed.

(** X20: [fetch_menu_for_resid] raises only when the HTTP request
    itself raises.  For every response it returns the dishes and the
    offers of the decoded body; a body that is not JSON counts as the
    empty mapping and gives no dishes and no offers. *)
Theorem fetch_returns_whenever_request_returns
    (requests_get : string -> option response) (rid : string) :
  (fetch_menu_for_resid requests_get rid = None <->
   requests_get (menu_url rid) = None) /\
  (forall r, requests_get (menu_url rid) = Some r ->
     exists items offers,
       fetch_menu_for_resid requests_get rid = Some (items, offers) /\
       parse_menu_from_data (safe_get_json r) = Ok items /\
       extract_offers_from_data (safe_get_json r) = Ok offers /\
       (json r = None -> items = [] /\ offers = [])).
Proof.
  rewrite fetch_menu_for_resid_spec. split.
  - by destruct (requests_get (menu_url rid)).
  - intros r ->. eexists _, _. split; [reflexivity|].
    split; [apply parse_menu_from_data_items|].
    split; [apply extract_offers_from_data_items|].
    unfold safe_get_json. by intros ->.
Qed.

Lemma fetch_returns_whenever_request_returns_witness :
  fetch_menu_for_resid diner_server "7" = Some ([], []) /\
  fetch_menu_for_resid diner_server "8" = None.
Proof.
  destruct (fetch_returns_whenever_request_returns diner_server "8")
    as [[_ Hnone] _].
  destruct (fetch_returns_whenever_request_returns diner_server "7")
    as [_ Hsome].
  destruct (Hsome {| json := None |} eq_refl)
    as (items & offers & Hf & _ & _ & Hempty).
  destruct (Hempty eq_refl) as [-> ->].
  split; [exact Hf|]. apply Hnone. reflexivity.
Defined.

Lemma fetch_each_acc (requests_get : string -> option response)
    (rids : list string) :
  forall acc : list dict * list dict,
    fold_left
      (fun acc rid =>
         match fetch_menu_for_resid requests_get rid with
         | Some (items, offers) =>
             ((fst acc ++ items)%list, (snd acc ++ offers)%list)
         | None => acc
         end)
      rids acc
    = ((fst acc ++ concat (map (fun rid => fst (fetched requests_get rid)) rids))%list,
       (snd acc ++ concat (map (fun rid => snd (fetched requests_get rid)) rids))%list).
Proof.
  induction rids as [|rid rids IH]; intros [a b]; simpl.
  - by rewrite !app_nil_r.
  - destruct (fetch_menu_for_resid requests_get rid) as [[items offers]|]
      eqn:Hf.
    + assert (Hrid : fetched requests_get rid = (items, offers))
        by (unfold fetched; by rewrite Hf).
      rewrite IH, Hrid. cbn [fst snd]. by rewrite !app_assoc.
    + assert (Hrid : fetched requests_get rid = ([], []))
        by (unfold fetched; by rewrite Hf).
      rewrite IH, Hrid. reflexivity.
Qed.

Lemma fetch_each_spec (requests_get : string -> option response)
    (rids : list string) :
  fetch_each requests_get rids
  = (concat (map (fun rid => fst (fetched requests_get rid)) rids),
     concat (map (fun rid => snd (fetched requests_get rid)) rids)).
Proof. unfold fetch_each. by rewrite fetch_each_acc. Qed.

Lemma scraped_offers_acc (requests_get : string -> option response)
    (rids : list string) :
  forall acc : list dict,
    fold_left
      (fun acc rid =>
         match fetch_menu_for_resid requests_get rid with
         | Some (_, offers) => (acc ++ offers)%list
         | None => acc
         end)
      rids acc
    = (acc ++ concat (map (fun rid => snd (fetched requests_get rid)) rids))%list.
Proof.
  induction rids as [|rid rids IH]; intros acc; simpl.
  - by rewrite app_nil_r.
  - destruct (fetch_menu_for_resid requests_get rid) as [[items offers]|]
      eqn:Hf.
    + assert (Hrid : fetched requests_get rid = (items, offers))
        by (unfold fetched; by rewrite Hf).
      rewrite IH, Hrid. cbn [snd]. by rewrite app_assoc.
    + assert (Hrid : fetched requests_get rid = ([], []))
        by (unfold fetched; by rewrite Hf).
      rewrite IH, Hrid. reflexivity.
Qed.

Lemma scraped_offers_spec (requests_get : string -> option response)
    (rids : list string) :
  scraped_offers requests_get rids
  = concat (map (fun rid => snd (fetched requests_get rid)) rids).
Proof. unfold scraped_offers. by rewrite scraped_offers_acc. Qed.

(** X21: [preview] handles the ids one by one, in the order of the query
    string: the items (offers) for "a,b" are the items (offers) for "a"
    followed by those for "b"; an id whose request raises adds nothing
    and does not disturb the ids after it; the offers the [compare_offers]
    endpoint scrapes are the offers [preview] lists. *)
Theorem preview_concatenates_in_query_order
    (requests_get : string -> option response) (a b : string) :
  fetch_each requests_get (ids (a ++ String comma b))
  = ((fst (fetch_each requests_get (ids a))
      ++ fst (fetch_each requests_get (ids b)))%list,
     (snd (fetch_each requests_get (ids a))
      ++ snd (fetch_each requests_get (ids b)))%list) /\
  (forall before rid after,
     requests_get (menu_url rid) = None ->
     fetch_each requests_get (before ++ rid :: after)
     = fetch_each requests_get (before ++ after)) /\
  scraped_offers requests_get (ids a) = snd (fetch_each requests_get (ids a)) /\
  content (preview requests_get a)
  = [("items", VList (map VDict (fst (fetch_each requests_get (ids a)))));
     ("offers", VList (map VDict (snd (fetch_each requests_get (ids a)))))].
Proof.
  split; [|split; [|split]].
  - rewrite ids_app, !fetch_each_spec. cbn [fst snd].
    by rewrite !map_app, !concat_app.
  - intros before rid after Hnone. rewrite !fetch_each_spec.
    assert (Hrid : fetched requests_get rid = ([], [])).
    { unfold fetched. rewrite fetch_menu_for_resid_spec. by rewrite Hnone. }
    rewrite !map_app, !concat_app. cbn [map concat]. by rewrite Hrid.
  - by rewrite scraped_offers_spec, fetch_each_spec.
  - unfold preview. by destruct (fetch_each requests_get (ids a)).
Qed.

Lemma preview_concatenates_in_query_order_witness :
  fetch_each diner_server (ids " 42, 8 ,,42")
  = ([], [offer_of diner [("header", VStr "50% OFF");
                          ("couponCode", VStr "HALF")];
          offer_of diner [];
          offer_of diner [("header", VStr "50% OFF");
                          ("couponCode", VStr "HALF")];
          offer_of diner []]).
Proof.
  destruct (preview_concatenates_in_query_order diner_server " 42, 8 ," "42")
    as [Happ _].
  change (" 42, 8 ," ++ String comma "42") with " 42, 8 ,,42" in Happ.
  rewrite Happ. vm_compute. reflexivity.
Defined.

(** ** The [compare_offers] endpoint *)

Lemma offers_are_offers (data : value) (offers : list dict) :
  extract_offers_from_data data = Ok offers ->
  Forall (fun o => is_offer o = true) offers.
Proof.
  rewrite extract_offers_cards. intros [= <-].
  apply Forall_concat, Forall_map, Forall_forall. intros card _.
  unfold card_offers. destruct (card_candidates card); [|constructor].
  apply Forall_map, Forall_forall. by intros info _.
Qed.

Lemma scraped_offers_are_offers (requests_get : string -> option response)
    (rids : list string) :
  Forall (fun o => is_offer o = true) (scraped_offers requests_get rids).
Proof.
  rewrite scraped_offers_spec.
  apply Forall_concat, Forall_map, Forall_forall. intros rid _.
  unfold fetched. rewrite fetch_menu_for_resid_spec.
  destruct (requests_get (menu_url rid)) as [r|]; [|constructor].
  apply (offers_are_offers (safe_get_json r)),
    extract_offers_from_data_items.
Qed.

(** X22: with a reference sheet that has a "title" and a "code" column,
    the [compare_offers] endpoint answers for every query string and
    every behaviour of the server: what it scrapes always has both
    columns, so it returns "No offers scraped" when nothing was scraped
    and the offers unknown to the sheet otherwise.  When neither reader
    accepts the upload it returns "Invalid file format". *)
Theorem compare_endpoint_always_answers
    (requests_get : string -> option response)
    (read_excel read_csv : option frame) (res_ids : string) :
  (forall df, reference_of read_excel read_csv = Some df ->
     mem "title" (columns df) = true /\ mem "code" (columns df) = true) ->
  exists resp,
    compare_offers_endpoint requests_get read_excel read_csv res_ids = Ok resp /\
    (reference_of read_excel read_csv = None -> resp = invalid_file_response) /\
    (forall df, reference_of read_excel read_csv = Some df ->
       (scraped_offers requests_get (ids res_ids) = [] ->
        resp = no_offers_response) /\
       (scraped_offers requests_get (ids res_ids) <> [] ->
        resp = mismatches_response
                 (map (fun s => remove_key "match" (normalize s))
                      (List.filter (fun s => negb (known (rows df) s))
                         (scraped_offers requests_get (ids res_ids)))))).
Proof.
  intros Hcols.
  assert (Hcmp : forall df,
    reference_of read_excel read_csv = Some df ->
    compare_offers_endpoint requests_get read_excel read_csv res_ids
    = compare_offers df (scraped_offers requests_get (ids res_ids))).
  { unfold reference_of, compare_offers_endpoint. intros df.
    destruct read_excel; [by intros [= ->]|]. by intros ->. }
  destruct (reference_of read_excel read_csv) as [df|] eqn:Href.
  - destruct (Hcols df eq_refl) as [Ht Hc]. rewrite (Hcmp df eq_refl).
    pose proof (scraped_offers_are_offers requests_get (ids res_ids)) as Hall.
    destruct (scraped_offers requests_get (ids res_ids)) as [|o scraped].
    + exists no_offers_response.
      split; [by apply compare_offers_empty|]. split; [discriminate|].
      intros df' [= <-]. split; [done|]. by intros [].
    + apply Forall_cons in Hall as [Ho _].
      eexists. split; [by apply compare_offers_mismatches|].
      split; [discriminate|].
      intros df' [= <-]. split; [discriminate|done].
  - exists invalid_file_response. split; [|split; [done|discriminate]].
    unfold reference_of in Href. unfold compare_offers_endpoint.
    destruct read_excel; [discriminate|]. by rewrite Href.
Qed.

Lemma compare_endpoint_always_answers_witness :
  compare_offers_endpoint diner_server None (Some reference_sheet) "42, 8"
  = Ok (mismatches_response
          [offer_of diner []]).
Proof.
  assert (Hcols : forall df,
    reference_of None (Some reference_sheet) = Some df ->
    mem "title" (columns df) = true /\ mem "code" (columns df) = true).
  { intros df [= <-]. split; reflexivity. }
  destruct (compare_endpoint_always_answers diner_server None
              (Some reference_sheet) "42, 8" Hcols)
    as (resp & Hresp & _ & Hsome).
  destruct (Hsome reference_sheet eq_refl) as [_ Hms].
  rewrite Hresp, Hms; [vm_compute; reflexivity|].
  vm_compute. discriminate.
Defined.

(** ** The name of the workbook *)

Lemma contains_app (c : ascii) (a b : string) :
  contains c (a ++ b) = contains c a || contains c b.
Proof.
  induction a as [|x a IH]; simpl; [done|]. by rewrite IH, orb_assoc.
Qed.

Lemma contains_replace_blanks (s : string) :
  contains blank (replace_blanks s) = false.
Proof.
  induction s as [|c s IH]; simpl; [done|]. rewrite IH, orb_false_r.
  destruct (Ascii.eqb c blank) eqn:Hc; [reflexivity|exact Hc].
Qed.

Lemma contains_join (c : ascii) (sep : string) (l : list string) :
  contains c sep = false ->
  Forall (fun x => contains c x = false) l ->
  contains c (join sep l) = false.
Proof.
  intros Hsep. induction 1 as [|x l Hx Hl IH]; [done|].
  destruct l as [|y l]; [done|].
  rewrite join_cons, !contains_app, Hx, Hsep, IH. reflexivity.
Qed.

Lemma contains_prefix_of_length (c : ascii) (n : nat) (s : string) :
  contains c s = false -> contains c (prefix_of_length n s) = false.
Proof.
  revert s. induction n as [|n IH]; intros [|a s]; simpl; try done.
  intros [Ha Hs]%orb_false_iff. by rewrite Ha, IH.
Qed.

Lemma length_prefix_of_length (n : nat) (s : string) :
  (String.length (prefix_of_length n s) <= n)%nat.
Proof.
  revert s. induction n as [|n IH]; intros [|a s]; simpl; try lia.
  specialize (IH s). lia.
Qed.

Lemma prefix_of_length_short (n : nat) (s : string) :
  (String.length s <= n)%nat -> prefix_of_length n s = s.
Proof.
  revert s. induction n as [|n IH]; intros [|a s]; simpl; try done; try lia.
  intros H. rewrite IH; [done|lia].
Qed.

Lemma for_append_py_replace (names : list string) :
  for_append py_replace (map VStr names) = Ok (map replace_blanks names).
Proof.
  induction names as [|n names IH]; [done|].
  cbn [map for_append py_replace]. by rewrite bind_Ok_l, IH.
Qed.

(** X23: when every collected restaurant name is a string, the workbook
    is named after them: each name with its blanks replaced by
    underscores, the names joined by underscores, the result cut to its
    first 50 characters, then an underscore, the time stamp and ".xlsx".
    The name part holds no blank and is empty when no name was
    collected. *)
Theorem final_filename_shape (names : list string) (timestamp : string) :
  exists part,
    final_filename (map VStr names) timestamp
    = Ok (part ++ "_" ++ timestamp ++ ".xlsx") /\
    part = prefix_of_length 50
             (join "_" (map replace_blanks names)) /\
    (String.length part <= 50)%nat /\
    contains blank part = false /\
    (names = [] -> part = EmptyString).
Proof.
  exists (prefix_of_length 50 (join "_" (map replace_blanks names))).
  split; [|split; [done|split; [apply length_prefix_of_length|split]]].
  - unfold final_filename, name_part.
    rewrite for_append_py_replace, !bind_Ok_l.
    change (String underscore EmptyString) with "_".
    destruct (Nat.ltb_spec 50
                (String.length (join "_" (map replace_blanks names))))
      as [Hlong|Hshort]; [done|].
    by rewrite (prefix_of_length_short 50 _ Hshort).
  - apply contains_prefix_of_length, contains_join; [reflexivity|].
    apply Forall_map, Forall_forall. intros n _.
    apply contains_replace_blanks.
  - by intros ->.
Qed.

Lemma menu_records_restaurant (data : value) (items : list dict) :
  parse_menu_from_data data = Ok items ->
  Forall (fun r => lookup_key "restaurant" r
                   = Some (restaurant_name (restaurant_of data))) items.
Proof.
  intros Hparse. apply Forall_forall. intros r Hin%list_elem_of_In.
  assert (items = fst (parse_menu_body data)) as ->
    by (rewrite parse_menu_from_data_items in Hparse; congruence).
  rewrite parse_menu_body_cards in Hin. fold (restaurant_of data) in Hin.
  rewrite fst_lift_bind in Hin.
  destruct (py_iter _) as [gs|]; [|contradiction].
  apply In_for_each in Hin as (card & _ & Hc).
  apply menu_card_from_parse_item in Hc as (info & title & recs & Hp & Hr).
  destruct (truthy info) eqn:Ht.
  - destruct (parse_item_record _ _ _ _ _ _ Hp Ht)
      as (price & base & hf & final & stock & vs & cat & nm & ds & img
          & _ & _ & _ & _ & _ & _ & ->).
    by destruct Hr as [<-|[]].
  - rewrite parse_item_falsy in Hp by done. injection Hp as <-.
    destruct Hr.
Qed.

Lemma py_eqb_string (a : value) (x : value) :
  py_eqb a x = true -> is_string a = false -> is_string x = false.
Proof. destruct a, x; simpl; done. Qed.

Lemma add_names_same (nm : value) (items : list dict) :
  is_string nm = false ->
  Forall (fun i => lookup_key "restaurant" i = Some nm) items ->
  forall names,
    (items <> [] \/ Exists (fun x => is_string x = false) names) ->
    exists names',
      add_names names items = (names', Ok tt) /\
      Exists (fun x => is_string x = false) names'.
Proof.
  intros Hnm. induction 1 as [|i items Hi _ IH]; intros names Hex.
  - destruct Hex as [[]|Hex]; [done|]. by exists names.
  - cbn [add_names]. rewrite Hi. apply IH. right.
    destruct (existsb (py_eqb nm) names) eqn:Hin.
    + apply existsb_exists in Hin as (x & Hx & Heq).
      apply Exists_exists. exists x.
      split; [by apply list_elem_of_In|by eapply py_eqb_string].
    + destruct Hex as [_|Hex].
      * apply Exists_app. right. by constructor.
      * apply Exists_app. by left.
Qed.

Lemma for_append_py_replace_raise (names : list value) :
  Exists (fun x => is_string x = false) names ->
  for_append py_replace names = Raise AttributeError.
Proof.
  induction 1 as [x names Hx|x names _ IH]; cbn [for_append].
  - by destruct x.
  - rewrite IH. by destruct x.
Qed.

(** X24: when a menu with at least one dish comes from a document that
    names no restaurant (or names it by something that is not a string),
    the restaurant names collected from the flattened records hold a
    value without [replace], and building the workbook name raises
    [AttributeError]: the download fails after the sheets were
    written. *)
Theorem workbook_name_needs_a_restaurant_name
    (data : value) (items : list dict) (names : list value)
    (timestamp : string) :
  parse_menu_from_data data = Ok items ->
  items <> [] ->
  is_string (restaurant_name (restaurant_of data)) = false ->
  exists names',
    add_names names (map (remove_key "variants") items) = (names', Ok tt) /\
    final_filename names' timestamp = Raise AttributeError.
Proof.
  intros Hparse Hne Hnm.
  assert (Hall : Forall (fun i => lookup_key "restaurant" i
                   = Some (restaurant_name (restaurant_of data)))
                   (map (remove_key "variants") items)).
  { apply Forall_map.
    eapply Forall_impl; [exact (menu_records_restaurant _ _ Hparse)|].
    intros r Hr. simpl. by rewrite lookup_remove_key_ne. }
  assert (Hne' : map (remove_key "variants") items <> [])
    by (by destruct items).
  destruct (add_names_same _ _ Hnm Hall names (or_introl Hne'))
    as (names' & Hadd & Hex).
  exists names'. split; [exact Hadd|].
  unfold final_filename, name_part.
  by rewrite (for_append_py_replace_raise _ Hex).
Qed.

Lemma workbook_name_needs_a_restaurant_name_witness :
  exists names',
    add_names [VStr "Test Diner"] [remove_key "variants" burger_record]
    = (names', Ok tt) /\
    final_filename names' "2024-01-01_00-00-00" = Raise AttributeError.
Proof.
  assert (Hp : parse_menu_from_data (menu_document [plain_card "Mains" [burger]])
               = Ok [burger_record]) by (vm_compute; reflexivity).
  apply (workbook_name_needs_a_restaurant_name _ _ _ _ Hp);
    [discriminate | reflexivity].
Defined.

(** ** The sheets of the workbook *)

Lemma keys_of_dict_fold (d : dict) :
  forall acc,
    fold_left (fun acc kv => if mem (fst kv) acc then acc
                             else (acc ++ [fst kv])%list) d acc
    = add_keys acc (map fst d).
Proof.
  unfold add_keys. induction d as [|[k v] d IH]; intros acc; simpl; [done|].
  apply IH.
Qed.

Lemma keys_set_key (k : string) (v : value) (d : dict) :
  map fst (set_key k v d)
  = if mem k (map fst d) then map fst d else (map fst d ++ [k])%list.
Proof.
  unfold mem. induction d as [|[k' v'] d IH]; simpl; [done|].
  destruct (String.eqb k k') eqn:E; simpl.
  - apply String.eqb_eq in E. by subst.
  - rewrite IH. by destruct (existsb (String.eqb k) (map fst d)).
Qed.

Lemma keys_update (u : dict) :
  forall d, map fst (update d u) = add_keys (map fst d) (map fst u).
Proof.
  unfold update, add_keys.
  induction u as [|[k v] u IH]; intros d; simpl; [done|].
  by rewrite IH, keys_set_key.
Qed.

Lemma keys_remove_key (k : string) (d : dict) :
  map fst (remove_key k d)
  = List.filter (fun k' => negb (String.eqb k k')) (map fst d).
Proof.
  induction d as [|[k' v] d IH]; simpl; [done|].
  destruct (String.eqb k k'); simpl; by rewrite IH.
Qed.

Lemma union_keys_same (K : list string) (records : list dict) :
  add_keys [] K = K -> add_keys K K = K ->
  records <> [] ->
  Forall (fun r => map fst r = K) records ->
  union_keys records = K.
Proof.
  intros H0 HK Hne Hall. unfold union_keys.
  destruct Hall as [|r records Hr Hall]; [done|]. simpl.
  rewrite keys_of_dict_fold, Hr, H0. clear Hne Hr.
  induction Hall as [|r' records Hr' _ IH]; simpl; [done|].
  by rewrite keys_of_dict_fold, Hr', HK.
Qed.

Lemma menu_records_keys (data : value) (items : list dict) :
  parse_menu_from_data data = Ok items ->
  Forall (fun r => map fst r = dish_keys) items.
Proof.
  intros Hparse. apply Forall_forall. intros r Hin%list_elem_of_In.
  destruct (parse_menu_from_parse_item _ _ _ Hparse Hin)
    as (info & name & id & title & subzone & recs & Hp & Hr).
  destruct (truthy info) eqn:Ht.
  - destruct (parse_item_record _ _ _ _ _ _ Hp Ht)
      as (price & base & hf & final & stock & vs & cat & nm & ds & img
          & _ & _ & _ & _ & _ & _ & ->).
    by destruct Hr as [<-|[]].
  - rewrite parse_item_falsy in Hp by done. injection Hp as <-.
    destruct Hr.
Qed.

(** X25: the rows that flattening makes of a parsed menu all have the
    same sixteen keys in the same order: the dish keys without
    "variants", then the five variant keys.  So the menu sheet, written
    only when there is at least one row, has exactly these columns:
    neither "variants" nor "variant_isEnabled" reaches the workbook. *)
Theorem menu_sheet_columns
    (data : value) (records : list dict) (h h1 h' : gmap nat dict)
    (items rows : list nat) :
  parse_menu_from_data data = Ok records ->
  new_objects records h = (items, h1) ->
  flatten_items_with_variants items h1 = (h', Ok rows) ->
  (forall row, row ∈ rows ->
     exists drow, h' !! row = Some drow /\ map fst drow = sheet_columns) /\
  (forall all_items,
     all_items <> [] ->
     Forall (fun r => map fst r = sheet_columns) all_items ->
     columns (DataFrame all_items) = sheet_columns).
Proof.
  intros Hparse Hnew Hfl. split.
  - destruct (new_objects_spec _ _ _ _ Hnew) as (_ & Hrecs & _ & _).
    assert (Hdom : forall l, l ∈ items -> l ∈ dom h1).
    { intros l Hl. apply list_elem_of_lookup_1 in Hl as [i Hi].
      destruct (Forall2_lookup_l _ _ _ _ _ Hrecs Hi) as (d & _ & Hd).
      apply elem_of_dom. eauto. }
    destruct (flatten_items_spec _ _ _ _ Hdom Hfl) as (_ & _ & Hrows).
    rewrite Forall_forall in Hrows. intros row Hrow.
    destruct (Hrows row Hrow) as (_ & item & d & fields & Hitem & Hd & Hk & Hr).
    exists (update (remove_key "variants" d) fields). split; [exact Hr|].
    assert (Hkeys : map fst d = dish_keys).
    { apply list_elem_of_lookup_1 in Hitem as [i Hi].
      destruct (Forall2_lookup_l _ _ _ _ _ Hrecs Hi) as (d' & Hd' & Hd'').
      rewrite Hd in Hd''. injection Hd'' as <-.
      pose proof (menu_records_keys _ _ Hparse) as Hall.
      rewrite Forall_forall in Hall. apply Hall.
      by eapply list_elem_of_lookup_2. }
    by rewrite keys_update, keys_remove_key, Hkeys, Hk.
  - intros all_items Hne Hall. by apply union_keys_same.
Qed.

Lemma menu_sheet_columns_witness :
  exists h' row drow,
    flatten_items_with_variants [0%nat] {[0%nat := diner_burger_record]}
    = (h', Ok [row]) /\
    h' !! row = Some drow /\ map fst drow = sheet_columns.
Proof.
  assert (Hp : parse_menu_from_data diner_document = Ok [diner_burger_record])
    by (vm_compute; reflexivity).
  assert (Hnew : new_objects [diner_burger_record] ∅
                 = ([0%nat], {[0%nat := diner_burger_record]}))
    by (vm_compute; reflexivity).
  destruct (flatten_items_with_variants [0%nat]
              {[0%nat := diner_burger_record]}) as [h' [rows|e]] eqn:Hfl;
    [|vm_compute in Hfl; discriminate Hfl].
  destruct rows as [|row [|row' rows]];
    [vm_compute in Hfl; discriminate Hfl| |vm_compute in Hfl; discriminate Hfl].
  destruct (menu_sheet_columns _ _ _ _ _ _ _ Hp Hnew Hfl) as [Hrows _].
  destruct (Hrows row) as (drow & Hd & Hk); [left|].
  by exists h', row, drow.
Defined.

Lemma offers_keys (data : value) (offers : list dict) :
  extract_offers_from_data data = Ok offers ->
  Forall (fun o => map fst o = offer_keys) offers.
Proof.
  rewrite extract_offers_cards. intros [= <-].
  apply Forall_concat, Forall_map, Forall_forall. intros card _.
  unfold card_offers. destruct (card_candidates card); [|constructor].
  apply Forall_map, Forall_forall. by intros info _.
Qed.

(** X26: the offers sheet, written only when there is at least one
    offer, has the eight offer keys as its columns, in their order,
    whatever documents the offers were extracted from. *)
Theorem offers_sheet_columns
    (documents : list value) (per_document : list (list dict)) :
  Forall2 (fun data offers => extract_offers_from_data data = Ok offers)
          documents per_document ->
  concat per_document <> [] ->
  columns (DataFrame (concat per_document)) = offer_keys.
Proof.
  intros Hall Hne. apply union_keys_same; [done|done|exact Hne|].
  apply Forall_concat. clear Hne.
  induction Hall as [|data offers documents per_document Hd _ IH];
    constructor; [by eapply offers_keys|exact IH].
Qed.

Lemma offers_sheet_columns_witness :
  columns (DataFrame
             [offer_of diner [("header", VStr "50% OFF");
                              ("couponCode", VStr "HALF")];
              offer_of diner []])
  = offer_keys.
Proof.
  assert (He : extract_offers_from_data offers_document
    = Ok [offer_of diner [("header", VStr "50% OFF");
                          ("couponCode", VStr "HALF")];
          offer_of diner []]) by (vm_compute; reflexivity).
  assert (Hall : Forall2
            (fun data offers => extract_offers_from_data data = Ok offers)
            [offers_document]
            [[offer_of diner [("header", VStr "50% OFF");
                              ("couponCode", VStr "HALF")];
              offer_of diner []]])
    by (constructor; [exact He|constructor]).
  apply (offers_sheet_columns _ _ Hall). discriminate.
Defined.
